(** * PromptMaster: the client-side orchestration layer

    A shallow embedding of [types.ts], [services/geminiService.ts],
    [hooks/useEditorState.ts] and the selection handlers of
    [components/EditorStage.tsx], followed by the properties of the retry
    policy, the feature-model router, the interview parser, the pillar
    classifier, the reconstruction fallback and the editor state machine, and
    by what the service and the machine do at their edges: rejections,
    fallbacks, the cached client, the interview history and the invariants of
    every run of the editor. *)

From Stdlib Require Import Bool Arith ZArith QArith Lia List.
From Stdlib Require Import Strings.Ascii Strings.String DecimalString.
Import ListNotations.

Set Implicit Arguments.
Set Warnings "-register-all".

Close Scope Q_scope.
Local Open Scope string_scope.
Local Open Scope bool_scope.

(** ** JavaScript strings

    A string is its sequence of code units; the embedding keeps the code units
    below 256 ([ascii]).  Each function below is the [String.prototype] method
    of the same name, restricted to the argument shapes the program uses. *)

Module Js.

(** [s.startsWith(p)] *)
Fixpoint startsWith (p s : string) : bool :=
  match p, s with
  | EmptyString, _ => true
  | String a p', String b s' => Ascii.eqb a b && startsWith p' s'
  | String _ _, EmptyString => false
  end.

(** [s.includes(sub)] *)
Fixpoint includes (s sub : string) : bool :=
  startsWith sub s ||
  match s with
  | EmptyString => false
  | String _ r => includes r sub
  end.

(** [s.substring(n)] for [0 <= n] *)
Fixpoint drop (n : nat) (s : string) : string :=
  match n, s with
  | O, _ => s
  | S _, EmptyString => EmptyString
  | S k, String _ r => drop k r
  end.

(** [s.substring(0, n)] for [0 <= n] *)
Fixpoint take (n : nat) (s : string) : string :=
  match n, s with
  | O, _ => EmptyString
  | S _, EmptyString => EmptyString
  | S k, String c r => String c (take k r)
  end.

(** [s.substring(a, b)]: the arguments are swapped when [a > b] and clamped to
    the length of [s]. *)
Definition substring2 (a b : nat) (s : string) : string :=
  let lo := Nat.min a b in
  let hi := Nat.max a b in
  take (hi - lo) (drop lo s).

(** The text before and after the leftmost occurrence of [pat] in [s]
    ([s.indexOf(pat)] fixes the position, [None] stands for [-1]). *)
Fixpoint splitFirst (pat s : string) : option (string * string) :=
  if startsWith pat s then Some (EmptyString, drop (String.length pat) s)
  else
    match s with
    | EmptyString => None
    | String c r =>
        match splitFirst pat r with
        | Some (before, after) => Some (String c before, after)
        | None => None
        end
    end.

(** [GetSubstitution] of ECMAScript for a string pattern: there are no
    captures, so [$$], [$&], [$`] and [$'] are expanded and every other [$]
    stands for itself. *)
Fixpoint getSubstitution (matched before after repl : string) : string :=
  match repl with
  | EmptyString => EmptyString
  | String c r =>
      if Ascii.eqb c "$" then
        match r with
        | EmptyString => String c EmptyString
        | String d r' =>
            if Ascii.eqb d "$" then String "$" (getSubstitution matched before after r')
            else if Ascii.eqb d "&" then matched ++ getSubstitution matched before after r'
            else if Ascii.eqb d "`" then before ++ getSubstitution matched before after r'
            else if Ascii.eqb d "'" then after ++ getSubstitution matched before after r'
            else String c (getSubstitution matched before after r)
        end
      else String c (getSubstitution matched before after r)
  end.

(** No code unit of [s] is a dollar sign. *)
Fixpoint noDollar (s : string) : bool :=
  match s with
  | EmptyString => true
  | String c r => negb (Ascii.eqb c "$") && noDollar r
  end.

(** [s.replace(pat, repl)] with a string pattern and a string replacement:
    only the leftmost occurrence is replaced. *)
Definition replace (s pat repl : string) : string :=
  match splitFirst pat s with
  | None => s
  | Some (before, after) => before ++ getSubstitution pat before after repl ++ after
  end.

Definition lowerChar (c : ascii) : ascii :=
  let n := nat_of_ascii c in
  if (65 <=? n)%nat && (n <=? 90)%nat then ascii_of_nat (n + 32) else c.

(** [s.toLowerCase()] *)
Fixpoint toLowerCase (s : string) : string :=
  match s with
  | EmptyString => EmptyString
  | String c r => String (lowerChar c) (toLowerCase r)
  end.

(** White space and line terminators below 256. *)
Definition isWhiteSpace (c : ascii) : bool :=
  let n := nat_of_ascii c in
  ((9 <=? n)%nat && (n <=? 13)%nat) || (n =? 32)%nat || (n =? 160)%nat.

Fixpoint trimStart (s : string) : string :=
  match s with
  | EmptyString => EmptyString
  | String c r => if isWhiteSpace c then trimStart r else s
  end.

Fixpoint trimEnd (s : string) : string :=
  match s with
  | EmptyString => EmptyString
  | String c r =>
      match trimEnd r with
      | EmptyString => if isWhiteSpace c then EmptyString else String c EmptyString
      | r' => String c r'
      end
  end.

(** [s.trim()] *)
Definition trim (s : string) : string := trimEnd (trimStart s).

(** JavaScript values, as far as the program inspects them.  Numbers are the
    finite ones; an object is the list of its own properties. *)
Inductive Value : Type :=
| Undefined
| Null
| Bool (b : bool)
| Num (q : Q)
| Str (s : string)
| Arr (items : list Value)
| Obj (props : list (string * Value)).

(** [ToBoolean] *)
Definition truthy (v : Value) : bool :=
  match v with
  | Undefined | Null => false
  | Bool b => b
  | Num q => negb (Qeq_bool q 0%Q)
  | Str s => negb (s =? "")
  | Arr _ | Obj _ => true
  end.

Fixpoint lookup (k : string) (props : list (string * Value)) : Value :=
  match props with
  | [] => Undefined
  | (k', v) :: rest => if k' =? k then v else lookup k rest
  end.

(** [v.k] for a value that is neither [null] nor [undefined]; the properties
    read by the program are not inherited ones. *)
Definition get (v : Value) (k : string) : Value :=
  match v with
  | Obj props => lookup k props
  | _ => Undefined
  end.

(** [v === n] for a number literal [n] *)
Definition isNum (v : Value) (n : Q) : bool :=
  match v with
  | Num q => Qeq_bool q n
  | _ => false
  end.

(** [v === s] for a string literal [s] *)
Definition isStr (v : Value) (s : string) : bool :=
  match v with
  | Str t => t =? s
  | _ => false
  end.

(** [a || b] *)
Definition or (a b : Value) : Value := if truthy a then a else b.

End Js.

(** ** [types.ts] *)

Module Types.

Inductive Language : Type := Chinese | English.

Inductive Pillar : Type := Persona | Task | Context | Format | Other.

Inductive ApiProvider : Type := GoogleGemini | DeepSeek | OpenAI | Anthropic | Custom.

Inductive FeatureType : Type :=
| Interview | Mentor | Feedback | Critique | Classify | Rewrite | ReverseEngineer.

(** The string value of each member of the [Pillar] enum. *)
Definition pillarName (p : Pillar) : string :=
  match p with
  | Persona => "Persona"
  | Task => "Task"
  | Context => "Context"
  | Format => "Format"
  | Other => "Other"
  end.

(** The string value of each member of the [FeatureType] enum. *)
Definition featureName (f : FeatureType) : string :=
  match f with
  | Interview => "interview"
  | Mentor => "mentor"
  | Feedback => "feedback"
  | Critique => "critique"
  | Classify => "classify"
  | Rewrite => "rewrite"
  | ReverseEngineer => "reverse-engineer"
  end.

(** An optional field is [None] when the property is absent. *)
Record CustomModel : Type := {
  id : string;
  name : string;
  provider : ApiProvider;
  modelName : string;
  baseUrl : option string;
  apiKey : option string;
  description : option string;
  maxTokens : option Z;
  temperature : option Q
}.

Record ApiConfig : Type := {
  activeProvider : ApiProvider;
  geminiApiKey : string;
  deepseekApiKey : string;
  defaultBaseUrl : option string;
  defaultApiKey : option string;
  models : FeatureType -> string;
  customModels : list CustomModel
}.

Inductive Theme : Type := Light | Dark | System.

Record AppSettings : Type := {
  api : ApiConfig;
  language : Language;
  theme : Theme
}.

Record Suggestion : Type := {
  sid : string;
  originalText : string;
  suggestedText : string;
  reason : string;
  stype : string
}.

(** [pillar : Pillar | 'pending'] *)
Record LockedSegment : Type := {
  lid : string;
  text : string;
  pillar : option Pillar
}.

Record InterviewResponse : Type := {
  question : Js.Value;
  options : list Js.Value;
  isFinalDraft : bool;
  generatedPrompt : Js.Value
}.

Definition GeminiPro : string := "gemini-3-pro-preview".
Definition GeminiFlash : string := "gemini-3-flash-preview".

Definition PREDEFINED_MODELS : list CustomModel :=
  [ {| id := "gemini-pro"; name := "Gemini Pro (深度推理)"; provider := GoogleGemini;
       modelName := GeminiPro; baseUrl := None; apiKey := None;
       description := Some "强大的推理能力，适合复杂任务";
       maxTokens := None; temperature := None |};
    {| id := "gemini-flash"; name := "Gemini Flash (快速响应)"; provider := GoogleGemini;
       modelName := GeminiFlash; baseUrl := None; apiKey := None;
       description := Some "快速响应，适合实时交互";
       maxTokens := None; temperature := None |};
    {| id := "deepseek-chat"; name := "DeepSeek Chat (V3)"; provider := DeepSeek;
       modelName := "deepseek-chat"; baseUrl := Some "https://api.deepseek.com";
       apiKey := None; description := Some "DeepSeek V3 通用大模型，推理能力强";
       maxTokens := None; temperature := None |};
    {| id := "deepseek-reasoner"; name := "DeepSeek Reasoner (R1)"; provider := DeepSeek;
       modelName := "deepseek-reasoner"; baseUrl := Some "https://api.deepseek.com";
       apiKey := None; description := Some "DeepSeek R1 推理模型，擅长复杂逻辑";
       maxTokens := None; temperature := None |} ].

Definition DEFAULT_API_CONFIG : ApiConfig :=
  {| activeProvider := GoogleGemini;
     geminiApiKey := "";
     deepseekApiKey := "";
     defaultBaseUrl := Some "";
     defaultApiKey := Some "";
     models := fun f =>
       match f with
       | Interview => "gemini-flash"
       | Mentor => "gemini-pro"
       | Feedback => "gemini-pro"
       | Critique => "gemini-pro"
       | Classify => "gemini-flash"
       | Rewrite => "gemini-pro"
       | ReverseEngineer => "gemini-flash"
       end;
     customModels := [] |}.

Definition DEFAULT_APP_SETTINGS : AppSettings :=
  {| api := DEFAULT_API_CONFIG; language := Chinese; theme := Light |}.

Definition getAllModels (customModels : list CustomModel) : list CustomModel :=
  PREDEFINED_MODELS ++ customModels.

Definition getModelById (modelId : string) (customModels : list CustomModel)
  : option CustomModel :=
  find (fun model => model.(id) =? modelId) (getAllModels customModels).

(** Truthiness of an optional string: absent and empty are both falsy. *)
Definition present (o : option string) : bool :=
  match o with
  | Some s => negb (s =? "")
  | None => false
  end.

(** [o || ''] *)
Definition orEmpty (o : option string) : string :=
  match o with
  | Some s => s
  | None => ""
  end.

Definition getApiKeyForModel (model : CustomModel) (settings : AppSettings) : string :=
  if present model.(apiKey) then orEmpty model.(apiKey)
  else if present settings.(api).(defaultApiKey) then orEmpty settings.(api).(defaultApiKey)
  else
    match model.(provider) with
    | GoogleGemini => settings.(api).(geminiApiKey)
    | DeepSeek => settings.(api).(deepseekApiKey)
    | _ => orEmpty settings.(api).(defaultApiKey)
    end.

Definition getBaseUrlForModel (model : CustomModel) (settings : AppSettings)
  : option string :=
  if present model.(baseUrl) then model.(baseUrl)
  else settings.(api).(defaultBaseUrl).

End Types.

(** ** [services/geminiService.ts]: the platform *)

Module Service.
Import Types.

(** A thrown value: an [Error] instance or an error payload of a provider.
    The four properties are the ones the retry policy reads; an absent
    property is [Js.Undefined]. *)
Record JsError : Type := {
  status : Js.Value;
  code : Js.Value;
  error : Js.Value;
  message : Js.Value
}.

(** [new Error(msg)] *)
Definition newError (msg : string) : JsError :=
  {| status := Js.Undefined; code := Js.Undefined; error := Js.Undefined;
     message := Js.Str msg |}.

(** [new GoogleGenAI({ apiKey })] *)
Record GoogleGenAI : Type := { clientKey : string }.

(** The argument of [ai.models.generateContent]. *)
Record GenerateRequest : Type := {
  gModel : string;
  gTemperature : Q;
  gJson : bool;
  gContents : string
}.

(** The handle returned by [ai.chats.create]. *)
Record Chat : Type := {
  chatClient : GoogleGenAI;
  chatModel : string;
  chatInstruction : string
}.

Record ChatMessage : Type := { role : string; content : string }.

(** The request of [callOpenAICompatible], before [JSON.stringify]. *)
Record HttpRequest : Type := {
  url : string;
  bearer : string;
  hModel : string;
  messages : list ChatMessage;
  hTemperature : Q;
  jsonMode : bool
}.

(** What [fetch] resolves to: [body] is [response.text()], [data] is
    [response.json()], [None] when that rejects. *)
Record HttpResponse : Type := {
  ok : bool;
  httpStatus : Z;
  body : string;
  data : option Js.Value
}.

(** The collaborators outside the repository: the two provider endpoints, the
    JSON parser and the random source, over a state [World] of their own. *)
Class Platform : Type := {
  World : Type;
  JSON_parse : string -> option Js.Value;
  generateContent :
    GoogleGenAI -> GenerateRequest -> World -> (JsError + option string) * World;
  sendMessage : Chat -> string -> World -> (JsError + option string) * World;
  fetch : HttpRequest -> World -> (JsError + HttpResponse) * World;
  randomId : World -> string * World
}.

(** The instruction texts sent to the models.  Their wording plays no part in
    the control flow, so each template is kept as a function of the values
    interpolated into it. *)
Class Prompts : Type := {
  systemInstruction : string -> string;
  jsonReminder : string;
  finalDraftMessage : Language -> string;
  reverseContents : string -> string -> string;
  mentorContents : string -> string -> string -> list string -> string;
  feedbackContents : string -> string -> string -> list string -> Language -> string;
  critiqueContents : string -> string -> string -> string;
  classifyContents : string -> string -> string;
  partialContents : string -> string -> string -> Language -> string;
  fullContents : string -> string -> list string -> Language -> string
}.

(** What a run of the service does to the outside, in order. *)
Inductive Effect : Type :=
| EWait (ms : Z)
| EGenerate (ai : GoogleGenAI) (req : GenerateRequest)
| EChatSend (chat : Chat) (msg : string)
| EFetch (req : HttpRequest).

Definition isNetworkCall (e : Effect) : bool :=
  match e with
  | EWait _ => false
  | _ => true
  end.

(** The models asked by [generateContent] in a run, in order. *)
Fixpoint generatedModels (l : list Effect) : list string :=
  match l with
  | [] => []
  | EGenerate _ req :: r => req.(gModel) :: generatedModels r
  | _ :: r => generatedModels r
  end.

(** The delays of a run, in order. *)
Fixpoint delays (l : list Effect) : list Z :=
  match l with
  | [] => []
  | EWait ms :: r => ms :: delays r
  | _ :: r => delays r
  end.

(** The module-level variables, the outside world and the effects so far
    (oldest first). *)
Record State {P : Platform} : Type := {
  world : World;
  effects : list Effect;
  currentSettings : AppSettings;
  aiClient : option GoogleGenAI;
  interviewChatSession : option Chat;
  deepseekChatHistory : list ChatMessage
}.

Section Monad.
Context {P : Platform}.

(** An asynchronous computation: it ends in a thrown value or a result. *)
Definition M (A : Type) : Type := State -> (JsError + A) * State.

Definition ret {A} (a : A) : M A := fun s => (inr a, s).

Definition throw {A} (e : JsError) : M A := fun s => (inl e, s).

Definition bind {A B} (m : M A) (k : A -> M B) : M B :=
  fun s =>
    match m s with
    | (inr a, s') => k a s'
    | (inl e, s') => (inl e, s')
    end.

(** [try { m } catch (e) { h e }] *)
Definition tryCatch {A} (m : M A) (h : JsError -> M A) : M A :=
  fun s =>
    match m s with
    | (inr a, s') => (inr a, s')
    | (inl e, s') => h e s'
    end.

Definition getState : M State := fun s => (inr s, s).

Definition emit (e : Effect) (s : State) : State :=
  {| world := s.(world); effects := s.(effects) ++ [e];
     currentSettings := s.(currentSettings); aiClient := s.(aiClient);
     interviewChatSession := s.(interviewChatSession);
     deepseekChatHistory := s.(deepseekChatHistory) |}.

Definition setWorld (w : World) (s : State) : State :=
  {| world := w; effects := s.(effects);
     currentSettings := s.(currentSettings); aiClient := s.(aiClient);
     interviewChatSession := s.(interviewChatSession);
     deepseekChatHistory := s.(deepseekChatHistory) |}.

Definition setAiClient (c : option GoogleGenAI) (s : State) : State :=
  {| world := s.(world); effects := s.(effects);
     currentSettings := s.(currentSettings); aiClient := c;
     interviewChatSession := s.(interviewChatSession);
     deepseekChatHistory := s.(deepseekChatHistory) |}.

Definition setSession (c : option Chat) (s : State) : State :=
  {| world := s.(world); effects := s.(effects);
     currentSettings := s.(currentSettings); aiClient := s.(aiClient);
     interviewChatSession := c;
     deepseekChatHistory := s.(deepseekChatHistory) |}.

Definition setHistory (h : list ChatMessage) (s : State) : State :=
  {| world := s.(world); effects := s.(effects);
     currentSettings := s.(currentSettings); aiClient := s.(aiClient);
     interviewChatSession := s.(interviewChatSession);
     deepseekChatHistory := h |}.

(** A call to the outside: the effect is recorded, then the world answers. *)
Definition perform {A} (e : Effect) (f : World -> (JsError + A) * World) : M A :=
  fun s =>
    let s1 := emit e s in
    let '(r, w) := f s1.(world) in
    (r, setWorld w s1).

(** [wait(ms)]: a timer, it cannot fail. *)
Definition wait (ms : Z) : M unit := fun s => (inr tt, emit (EWait ms) s).

End Monad.

Declare Scope service_scope.
Delimit Scope service_scope with service.
Notation "x <- m ;; k" := (bind m (fun x => k))
  (at level 61, m at next level, right associativity) : service_scope.
Notation "m ;;; k" := (bind m (fun _ => k))
  (at level 61, right associativity) : service_scope.

Local Open Scope service_scope.

(** ** [services/geminiService.ts]: configuration and retry *)

Section Functions.
Context {P : Platform} {T : Prompts}.

Definition getModelForFeature (feature : FeatureType) : M string :=
  fun s => (inr (s.(currentSettings).(api).(models) feature), s).

Definition getModelConfigForFeature (feature : FeatureType) : M (option CustomModel) :=
  fun s =>
    let modelId := s.(currentSettings).(api).(models) feature in
    (inr (getModelById modelId s.(currentSettings).(api).(customModels)), s).

(** [model.provider === 'google-gemini' || model.modelName.startsWith('gemini-')] *)
Definition isGeminiModel (model : CustomModel) : bool :=
  match model.(provider) with
  | GoogleGemini => true
  | _ => Js.startsWith "gemini-" model.(modelName)
  end.

(** The provider test that selects the OpenAI-compatible branch. *)
Definition isOpenAICompatible (p : ApiProvider) : bool :=
  match p with
  | DeepSeek | OpenAI | Custom => true
  | _ => false
  end.

Definition getAiClient (modelId : option string) : M GoogleGenAI :=
  fun s =>
    let settings := s.(currentSettings) in
    if present modelId then
      match getModelById (orEmpty modelId) settings.(api).(customModels) with
      | Some model =>
          if isGeminiModel model then
            let apiKey := getApiKeyForModel model settings in
            if apiKey =? "" then
              (inl (newError ("API key not configured for model: " ++ orEmpty modelId)), s)
            else
              let fresh := {| clientKey := apiKey |} in
              match s.(aiClient) with
              | Some c =>
                  if negb (settings.(api).(geminiApiKey) =? apiKey)
                  then (inr fresh, setAiClient (Some fresh) s)
                  else (inr c, s)
              | None => (inr fresh, setAiClient (Some fresh) s)
              end
          else
            (inl (newError ("Only Google Gemini models are currently supported. Model: "
                            ++ orEmpty modelId)), s)
      | None =>
          (inl (newError ("Only Google Gemini models are currently supported. Model: "
                          ++ orEmpty modelId)), s)
      end
    else
      match s.(aiClient) with
      | Some c => (inr c, s)
      | None =>
          let fresh := {| clientKey := settings.(api).(geminiApiKey) |} in
          (inr fresh, setAiClient (Some fresh) s)
      end.

(** [updateApiSettings(settings)]: the settings are replaced and the cached
    client is dropped; the interview session is left as it is. *)
Definition updateApiSettings (settings : AppSettings) : M unit :=
  fun s =>
    (inr tt,
     {| world := s.(world); effects := s.(effects); currentSettings := settings;
        aiClient := None; interviewChatSession := s.(interviewChatSession);
        deepseekChatHistory := s.(deepseekChatHistory) |}).

(** The rate-limit test of [callWithRetry], disjunct by disjunct. *)
Definition isQuotaError (e : JsError) : bool :=
  Js.isNum e.(status) 429%Q
  || Js.isNum e.(code) 429%Q
  || Js.isStr e.(status) "RESOURCE_EXHAUSTED"
  || (Js.truthy e.(error)
      && (Js.isNum (Js.get e.(error) "code") 429%Q
          || Js.isStr (Js.get e.(error) "status") "RESOURCE_EXHAUSTED"))
  || match e.(message) with
     | Js.Str m => Js.includes m "429" || Js.includes m "quota"
     | _ => false
     end.

(** [callWithRetry(apiCall, retries, initialDelay)].  [retries] is a count
    (every caller leaves it at its default); the recursion is the source's
    own, on [retries - 1] under the guard [retries > 0]. *)
Fixpoint callWithRetry {A} (apiCall : M A) (retries : nat) (initialDelay : Z) : M A :=
  tryCatch apiCall (fun error =>
    if isQuotaError error then
      match retries with
      | S r => wait initialDelay ;;; callWithRetry apiCall r (initialDelay * 2)%Z
      | O => throw error
      end
    else throw error).

(** The defaults of the two optional parameters. *)
Definition defaultRetries : nat := 3.
Definition defaultInitialDelay : Z := 2000%Z.

Definition callWithRetry' {A} (apiCall : M A) : M A :=
  callWithRetry apiCall defaultRetries defaultInitialDelay.

(** [url.replace(/\/$/, '')] *)
Fixpoint stripTrailingSlash (u : string) : string :=
  match u with
  | EmptyString => EmptyString
  | String c r =>
      match r with
      | EmptyString => if Ascii.eqb c "/" then EmptyString else u
      | _ => String c (stripTrailingSlash r)
      end
  end.

Definition endpointOf (modelConfig : CustomModel) : string :=
  let baseUrl :=
    if present modelConfig.(baseUrl) then orEmpty modelConfig.(baseUrl)
    else "https://api.deepseek.com" in
  if Js.includes baseUrl "chat/completions" then baseUrl
  else stripTrailingSlash baseUrl ++ "/chat/completions".

(** [v?.k] *)
Definition optGet (v : Js.Value) (k : string) : Js.Value :=
  match v with
  | Js.Undefined | Js.Null => Js.Undefined
  | _ => Js.get v k
  end.

(** [v?.[0]] *)
Definition optFirst (v : Js.Value) : Js.Value :=
  match v with
  | Js.Arr (x :: _) => x
  | Js.Obj props => Js.lookup "0" props
  | _ => Js.Undefined
  end.

(** [data.choices?.[0]?.message?.content || ''], a string by the contract of
    the endpoint. *)
Definition contentOf (d : Js.Value) : string :=
  match optGet (optGet (optFirst (Js.get d "choices")) "message") "content" with
  | Js.Str c => c
  | _ => ""
  end.

Definition showStatus (n : Z) : string :=
  match n with
  | Z0 => "0"
  | Zpos p => DecimalString.NilEmpty.string_of_uint (Pos.to_uint p)
  | Zneg p => "-" ++ DecimalString.NilEmpty.string_of_uint (Pos.to_uint p)
  end.

(** [callOpenAICompatible]: one stateless POST, no retry. *)
Definition callOpenAICompatible (modelConfig : CustomModel) (msgs : list ChatMessage)
  (key : string) (temp : Q) (json : bool) : M string :=
  let req := {| url := endpointOf modelConfig; bearer := key;
                hModel := modelConfig.(modelName); messages := msgs;
                hTemperature := temp; jsonMode := json |} in
  response <- perform (EFetch req) (fetch req) ;;
  if negb response.(ok) then
    throw (newError ("API Request Failed (" ++ showStatus response.(httpStatus) ++ "): "
                     ++ response.(body)))
  else
    match response.(data) with
    | None => throw (newError "SyntaxError")
    | Some (Js.Null) | Some (Js.Undefined) => throw (newError "TypeError")
    | Some d => ret (contentOf d)
    end.

(** The common opening of every exported operation: the model configured for
    the feature, or the error thrown when there is none. *)
Definition requireModelConfig (feature : FeatureType) : M CustomModel :=
  modelConfig <- getModelConfigForFeature feature ;;
  match modelConfig with
  | Some m => ret m
  | None => throw (newError ("Model configuration not found for feature: "
                             ++ featureName feature))
  end.

Definition langName (language : Language) : string :=
  match language with
  | Chinese => "Simplified Chinese"
  | English => "English"
  end.

(** [ai.models.generateContent(req)] *)
Definition generate (ai : GoogleGenAI) (req : GenerateRequest) : M (option string) :=
  perform (EGenerate ai req) (generateContent ai req).

(** [text ? text.trim() : fallback] *)
Definition trimmedOr {A} (text : option string) (some : string -> A) (fallback : A) : A :=
  match text with
  | Some t => if t =? "" then fallback else some (Js.trim t)
  | None => fallback
  end.

(** [text || fallback] *)
Definition textOr (text : option string) (fallback : string) : string :=
  match text with
  | Some t => if t =? "" then fallback else t
  | None => fallback
  end.

(** ** [services/geminiService.ts]: the interview *)

Definition LF : string := String (ascii_of_nat 10) EmptyString.

(** The length of the match of [/```json\n?|\n?```/] at the head of [s],
    [0] when there is none: the first alternative is tried first, and each
    optional line feed is taken when it is there. *)
Definition fenceMatch (s : string) : nat :=
  if Js.startsWith "```json" s then
    if Js.startsWith LF (Js.drop 7 s) then 8 else 7
  else if Js.startsWith (LF ++ "```") s then 4
  else if Js.startsWith "```" s then 3
  else 0.

(** The scan of [String.prototype.replace] with that global pattern and the
    empty replacement: [skip] code units of the current match are still to be
    dropped. *)
Fixpoint removeFences (skip : nat) (s : string) : string :=
  match s with
  | EmptyString => EmptyString
  | String c r =>
      match skip with
      | S k => removeFences k r
      | O =>
          match fenceMatch s with
          | O => String c (removeFences 0 r)
          | S k => removeFences k r
          end
      end
  end.

Definition stripFences (responseText : string) : string := removeFences 0 responseText.

Definition parseErrorMessage : string :=
  "System Error: Could not parse AI response. Please try again.".

(** The value of the [catch (parseError)] block. *)
Definition parseFailure : InterviewResponse :=
  {| question := Js.Str parseErrorMessage; options := [];
     isFinalDraft := false; generatedPrompt := Js.Undefined |}.

(** The inner [try] of [sendInterviewMessage].  A property read on [null]
    throws inside that [try], so it ends in the same [catch]. *)
Definition parseInterviewResponse (responseText : string) : InterviewResponse :=
  let cleanJson := Js.trim (stripFences responseText) in
  match JSON_parse cleanJson with
  | None | Some Js.Null | Some Js.Undefined => parseFailure
  | Some json =>
      {| question :=
           Js.or (Js.or (Js.get json "question") (Js.get json "Question")) (Js.Str "...");
         options :=
           match Js.get json "options" with
           | Js.Arr items => firstn 3 items
           | _ => []
           end;
         isFinalDraft := Js.truthy (Js.get json "isFinalDraft");
         generatedPrompt := Js.get json "generatedPrompt" |}
  end.

Definition startInterviewSession (language : Language) : M unit :=
  modelConfig <- requireModelConfig Interview ;;
  let instruction := systemInstruction (langName language) in
  if isOpenAICompatible modelConfig.(provider) then
    fun s =>
      (inr tt,
       setSession None
         (setHistory [ {| role := "system"; content := instruction ++ jsonReminder |} ] s))
  else
    ai <- getAiClient None ;;
    fun s =>
      (inr tt,
       setSession (Some {| chatClient := ai; chatModel := modelConfig.(modelName);
                           chatInstruction := instruction |}) s).

Definition pushHistory (m : ChatMessage) : M unit :=
  fun s => (inr tt, setHistory (s.(deepseekChatHistory) ++ [m]) s).

Definition sendInterviewMessage (msg : string) (language : Language)
  : M InterviewResponse :=
  s0 <- getState ;;
  (match s0.(interviewChatSession), s0.(deepseekChatHistory) with
   | None, [] => startInterviewSession language
   | _, _ => ret tt
   end) ;;;
  s1 <- getState ;;
  responseText <-
    (match s1.(deepseekChatHistory) with
     | _ :: _ =>
         modelConfig <- getModelConfigForFeature Interview ;;
         match modelConfig with
         | None => throw (newError "TypeError")
         | Some mc =>
             let key := getApiKeyForModel mc s1.(currentSettings) in
             pushHistory {| role := "user"; content := msg |} ;;;
             s2 <- getState ;;
             text <- callOpenAICompatible mc s2.(deepseekChatHistory) key (6 # 10)%Q true ;;
             pushHistory {| role := "assistant"; content := text |} ;;;
             ret text
         end
     | [] =>
         match s1.(interviewChatSession) with
         | Some chat =>
             response <- callWithRetry' (perform (EChatSend chat msg) (sendMessage chat msg)) ;;
             ret (textOr response "{}")
         | None => throw (newError "Session initialized but no valid handler found.")
         end
     end) ;;
  ret (parseInterviewResponse responseText).

Definition generateFinalDraft (language : Language) : M Js.Value :=
  response <- sendInterviewMessage (finalDraftMessage language) language ;;
  ret (Js.or response.(generatedPrompt) response.(question)).

(** ** [services/geminiService.ts]: the editor operations *)

Definition userMessage (contents : string) : list ChatMessage :=
  [ {| role := "user"; content := contents |} ].

(** [result ? result.trim() : fallback] on the string of the HTTP branch. *)
Definition resultOr {A} (result : string) (some : string -> A) (fallback : A) : A :=
  if result =? "" then fallback else some (Js.trim result).

(** The [try] of an OpenAI-compatible branch: key, one POST. *)
Definition openAICall (modelConfig : CustomModel) (contents : string) (temp : Q)
  (json : bool) : M string :=
  s <- getState ;;
  callOpenAICompatible modelConfig (userMessage contents)
    (getApiKeyForModel modelConfig s.(currentSettings)) temp json.

Definition geminiRequest (modelConfig : CustomModel) (temp : Q) (json : bool)
  (contents : string) : GenerateRequest :=
  {| gModel := modelConfig.(modelName); gTemperature := temp; gJson := json;
     gContents := contents |}.

Definition reverseEngineerContext (prompt : string) (language : Language) : M string :=
  modelId <- getModelForFeature ReverseEngineer ;;
  modelConfig <- requireModelConfig ReverseEngineer ;;
  let contents := reverseContents prompt (langName language) in
  if isOpenAICompatible modelConfig.(provider) then
    tryCatch (openAICall modelConfig contents (3 # 10)%Q false)
             (fun _ => ret "Context inferred from original prompt.")
  else
    ai <- getAiClient (Some modelId) ;;
    tryCatch
      (response <- callWithRetry' (generate ai (geminiRequest modelConfig (3 # 10)%Q false contents)) ;;
       ret (trimmedOr response (fun t => t) "Context inferred from original prompt."))
      (fun _ => ret "User provided prompt directly. Focus on clarity and structure.").

Definition getMentorFeedback (currentPrompt context : string) (language : Language)
  (ignoredFeedback : list string) : M (option string) :=
  modelId <- getModelForFeature Mentor ;;
  modelConfig <- requireModelConfig Mentor ;;
  let contents := mentorContents currentPrompt context (langName language) ignoredFeedback in
  if isOpenAICompatible modelConfig.(provider) then
    tryCatch
      (result <- openAICall modelConfig contents (5 # 10)%Q false ;;
       ret (resultOr result Some None))
      (fun _ => ret None)
  else
    ai <- getAiClient (Some modelId) ;;
    tryCatch
      (response <- callWithRetry' (generate ai (geminiRequest modelConfig (5 # 10)%Q false contents)) ;;
       ret (trimmedOr response Some None))
      (fun _ => ret None).

Definition applySpecificFeedback (currentPrompt context feedback : string)
  (lockedSegments : list string) (language : Language) : M string :=
  modelId <- getModelForFeature Feedback ;;
  modelConfig <- requireModelConfig Feedback ;;
  let contents := feedbackContents currentPrompt context feedback lockedSegments language in
  if isOpenAICompatible modelConfig.(provider) then
    tryCatch
      (result <- openAICall modelConfig contents (2 # 10)%Q false ;;
       ret (resultOr result (fun t => t) currentPrompt))
      (fun _ => ret currentPrompt)
  else
    ai <- getAiClient (Some modelId) ;;
    tryCatch
      (response <- callWithRetry' (generate ai (geminiRequest modelConfig (2 # 10)%Q false contents)) ;;
       ret (trimmedOr response (fun t => t) currentPrompt))
      (fun _ => ret currentPrompt).

Fixpoint setProp (k : string) (v : Js.Value) (props : list (string * Js.Value))
  : list (string * Js.Value) :=
  match props with
  | [] => [(k, v)]
  | (k', v') :: rest => if k' =? k then (k, v) :: rest else (k', v') :: setProp k v rest
  end.

(** [{ ...item, id }] for a critique item, which is an object. *)
Definition withId (item : Js.Value) (rid : string) : Js.Value :=
  match item with
  | Js.Obj props => Js.Obj (setProp "id" (Js.Str rid) props)
  | _ => Js.Obj [("id", Js.Str rid)]
  end.

Definition freshId : M string :=
  fun s => let '(rid, w) := randomId s.(world) in (inr rid, setWorld w s).

Fixpoint assignIds (items : list Js.Value) : M (list Js.Value) :=
  match items with
  | [] => ret []
  | item :: rest =>
      rid <- freshId ;;
      rest' <- assignIds rest ;;
      ret (withId item rid :: rest')
  end.

(** [JSON.parse(text)] followed by the [Array.isArray] test. *)
Definition critiqueItems (text : string) : M (list Js.Value) :=
  match JSON_parse text with
  | None => throw (newError "SyntaxError")
  | Some (Js.Arr items) => assignIds items
  | Some _ => ret []
  end.

Definition getDetailedCritique (currentPrompt context : string) (language : Language)
  : M (list Js.Value) :=
  modelId <- getModelForFeature Critique ;;
  modelConfig <- requireModelConfig Critique ;;
  let contents := critiqueContents context currentPrompt (langName language) in
  if isOpenAICompatible modelConfig.(provider) then
    tryCatch
      (result <- openAICall modelConfig contents (1 # 10)%Q true ;;
       critiqueItems result)
      (fun _ => ret [])
  else
    ai <- getAiClient (Some modelId) ;;
    tryCatch
      (response <- callWithRetry' (generate ai (geminiRequest modelConfig (1 # 10)%Q true contents)) ;;
       critiqueItems (textOr response "[]"))
      (fun _ => ret []).

(** The four [includes] tests of [classifyPromptSegment], in their order. *)
Definition pillarOf (normalized : string) : Pillar :=
  if Js.includes normalized "persona" then Persona
  else if Js.includes normalized "task" then Task
  else if Js.includes normalized "context" then Context
  else if Js.includes normalized "format" then Format
  else Other.

(** [text.trim().toLowerCase()] *)
Definition normalize (text : string) : string := Js.toLowerCase (Js.trim text).

Definition classifyPromptSegment (segment fullPrompt : string) : M Pillar :=
  modelId <- getModelForFeature Classify ;;
  modelConfig <- requireModelConfig Classify ;;
  let contents := classifyContents fullPrompt segment in
  if isOpenAICompatible modelConfig.(provider) then
    tryCatch
      (text <- openAICall modelConfig contents (1 # 10)%Q false ;;
       ret (pillarOf (resultOr text Js.toLowerCase "")))
      (fun _ => ret Other)
  else
    ai <- getAiClient (Some modelId) ;;
    tryCatch
      (response <- callWithRetry' (generate ai (geminiRequest modelConfig (1 # 10)%Q false contents)) ;;
       ret (pillarOf (trimmedOr response Js.toLowerCase "")))
      (fun _ => ret Other).

(** The inner [generate] of [reconstructPrompt]: the model is looked up again
    from the identifier, which stands for the model name when nothing matches. *)
Definition generateFor (ai : GoogleGenAI) (contents : string) (modelId : string)
  : M (option string) :=
  s <- getState ;;
  let modelConfig := getModelById modelId s.(currentSettings).(api).(customModels) in
  let model :=
    match modelConfig with
    | Some mc => if mc.(modelName) =? "" then modelId else mc.(modelName)
    | None => modelId
    end in
  generate ai {| gModel := model; gTemperature := (7 # 10)%Q; gJson := false;
                 gContents := contents |}.

(** [flashModel?.id || 'gemini-flash'] *)
Definition flashModelId (customModels : list CustomModel) : string :=
  match find (fun m => Js.includes m.(modelName) "flash") customModels with
  | Some m => if m.(id) =? "" then "gemini-flash" else m.(id)
  | None => "gemini-flash"
  end.

Definition reconstructPrompt (currentPrompt context : string) (lockedSegments : list string)
  (language : Language) (focusSegment : option string) : M string :=
  modelId <- getModelForFeature Rewrite ;;
  modelConfig <- requireModelConfig Rewrite ;;
  if present focusSegment then
    let focus := orEmpty focusSegment in
    let contents := partialContents context currentPrompt focus language in
    if isOpenAICompatible modelConfig.(provider) then
      tryCatch
        (result <- openAICall modelConfig contents (3 # 10)%Q false ;;
         ret (resultOr result (fun t => t) focus))
        (fun _ => ret focus)
    else
      ai <- getAiClient (Some modelId) ;;
      tryCatch
        (response <- callWithRetry' (generate ai (geminiRequest modelConfig (3 # 10)%Q false contents)) ;;
         ret (trimmedOr response (fun t => t) focus))
        (fun _ => ret focus)
  else
    let contents := fullContents context currentPrompt lockedSegments language in
    if isOpenAICompatible modelConfig.(provider) then
      tryCatch
        (result <- openAICall modelConfig contents (7 # 10)%Q false ;;
         ret (resultOr result (fun t => t) currentPrompt))
        (fun _ => ret currentPrompt)
    else
      ai <- getAiClient (Some modelId) ;;
      tryCatch
        (response <- callWithRetry' (rewriteId <- getModelForFeature Rewrite ;;
                                     generateFor ai contents rewriteId) ;;
         ret (trimmedOr response (fun t => t) currentPrompt))
        (fun _ =>
           tryCatch
             (s <- getState ;;
              let fallbackId := flashModelId s.(currentSettings).(api).(customModels) in
              response <- callWithRetry' (generateFor ai contents fallbackId) ;;
              ret (trimmedOr response (fun t => t) currentPrompt))
             (fun _ => ret currentPrompt)).

End Functions.

End Service.

(** ** [hooks/useEditorState.ts]

    The hook is read as a state machine.  Its state is the values held by
    [useState] and [useRef]; an event is a call of one of the returned actions
    from the latest render, the firing of the mentor timer, or the settling of
    an awaited service call.  A handler that awaits is cut at its [await]: the
    first half runs with the event, the second half runs when the request
    settles, with the values its closure captured and the outcome of the call. *)

Module Editor.
Import Types.

Inductive ProcessingType : Type := Scan | Reconstruct | ApplyFeedback.

Record Props : Type := {
  initialPrompt : string;
  context : string;
  language : Language
}.

Record EditorState : Type := {
  prompt : string;
  suggestions : list Suggestion;
  activeSuggestionId : option string;
  feedback : string;
  isTyping : bool;
  isProcessing : bool;
  processingType : option ProcessingType;
  processingSelection : option (nat * nat);
  ignoredFeedbackHistory : list string;
  lastPromptBeforeApply : option string;
  showUndo : bool;
  lockedSegments : list LockedSegment;
  promptRef : string;
  lastFeedbackPrompt : string
}.

(** A service call that has been issued and has not settled, with what the
    continuation of its handler captured. *)
Inductive Pending : Type :=
| PendingScan (doc : string)
| PendingApply (doc fb : string) (locks : list string)
| PendingFull (doc : string) (locks : list string)
| PendingPartial (doc : string) (locks : list string) (selStart selEnd : nat) (sel : string)
| PendingDismiss (doc : string) (history : list string)
| PendingMentor (doc : string)
| PendingClassify (segmentId segmentText fullPrompt : string).

(** How a call settles: [None] is a rejection. *)
Inductive Answer : Type :=
| Critique (r : option (list Suggestion))
| Text (r : option string)
| Tip (r : option (option string))
| Class (r : option Pillar).

Record System : Type := {
  ui : EditorState;
  inflight : list Pending
}.

Inductive Event : Type :=
| SetPrompt (newPrompt : string)
| UpdatePrompt (newPrompt : string)
| SetActiveSuggestionId (sid : option string)
| HandleDeepScan
| ApplySuggestion (suggestion : Suggestion)
| DismissSuggestion (sid : string)
| HandleApplyFeedback
| HandleDismissFeedback
| HandleUndo
| HandleGlobalReconstruct
| HandlePartialReconstruct (sel : string) (selStart selEnd : nat)
| AddLock (segment newId : string)
| RemoveLock (lockId : string)
| MentorTimer
| Settle (i : nat) (a : Answer).

(** *** State updates *)

Definition withPrompt (v : string) (st : EditorState) : EditorState :=
  {| prompt := v; suggestions := st.(suggestions);
     activeSuggestionId := st.(activeSuggestionId); feedback := st.(feedback);
     isTyping := st.(isTyping); isProcessing := st.(isProcessing);
     processingType := st.(processingType);
     processingSelection := st.(processingSelection);
     ignoredFeedbackHistory := st.(ignoredFeedbackHistory);
     lastPromptBeforeApply := st.(lastPromptBeforeApply); showUndo := st.(showUndo);
     lockedSegments := st.(lockedSegments); promptRef := st.(promptRef);
     lastFeedbackPrompt := st.(lastFeedbackPrompt) |}.

Definition withSuggestions (v : list Suggestion) (st : EditorState) : EditorState :=
  {| prompt := st.(prompt); suggestions := v;
     activeSuggestionId := st.(activeSuggestionId); feedback := st.(feedback);
     isTyping := st.(isTyping); isProcessing := st.(isProcessing);
     processingType := st.(processingType);
     processingSelection := st.(processingSelection);
     ignoredFeedbackHistory := st.(ignoredFeedbackHistory);
     lastPromptBeforeApply := st.(lastPromptBeforeApply); showUndo := st.(showUndo);
     lockedSegments := st.(lockedSegments); promptRef := st.(promptRef);
     lastFeedbackPrompt := st.(lastFeedbackPrompt) |}.

Definition withActiveSuggestionId (v : option string) (st : EditorState) : EditorState :=
  {| prompt := st.(prompt); suggestions := st.(suggestions);
     activeSuggestionId := v; feedback := st.(feedback);
     isTyping := st.(isTyping); isProcessing := st.(isProcessing);
     processingType := st.(processingType);
     processingSelection := st.(processingSelection);
     ignoredFeedbackHistory := st.(ignoredFeedbackHistory);
     lastPromptBeforeApply := st.(lastPromptBeforeApply); showUndo := st.(showUndo);
     lockedSegments := st.(lockedSegments); promptRef := st.(promptRef);
     lastFeedbackPrompt := st.(lastFeedbackPrompt) |}.

Definition withFeedback (v : string) (st : EditorState) : EditorState :=
  {| prompt := st.(prompt); suggestions := st.(suggestions);
     activeSuggestionId := st.(activeSuggestionId); feedback := v;
     isTyping := st.(isTyping); isProcessing := st.(isProcessing);
     processingType := st.(processingType);
     processingSelection := st.(processingSelection);
     ignoredFeedbackHistory := st.(ignoredFeedbackHistory);
     lastPromptBeforeApply := st.(lastPromptBeforeApply); showUndo := st.(showUndo);
     lockedSegments := st.(lockedSegments); promptRef := st.(promptRef);
     lastFeedbackPrompt := st.(lastFeedbackPrompt) |}.

Definition withIsTyping (v : bool) (st : EditorState) : EditorState :=
  {| prompt := st.(prompt); suggestions := st.(suggestions);
     activeSuggestionId := st.(activeSuggestionId); feedback := st.(feedback);
     isTyping := v; isProcessing := st.(isProcessing);
     processingType := st.(processingType);
     processingSelection := st.(processingSelection);
     ignoredFeedbackHistory := st.(ignoredFeedbackHistory);
     lastPromptBeforeApply := st.(lastPromptBeforeApply); showUndo := st.(showUndo);
     lockedSegments := st.(lockedSegments); promptRef := st.(promptRef);
     lastFeedbackPrompt := st.(lastFeedbackPrompt) |}.

(** [setIsProcessing], [setProcessingType] and [setProcessingSelection]. *)
Definition withProcessing (busy : bool) (ty : option ProcessingType)
  (sel : option (nat * nat)) (st : EditorState) : EditorState :=
  {| prompt := st.(prompt); suggestions := st.(suggestions);
     activeSuggestionId := st.(activeSuggestionId); feedback := st.(feedback);
     isTyping := st.(isTyping); isProcessing := busy;
     processingType := ty;
     processingSelection := sel;
     ignoredFeedbackHistory := st.(ignoredFeedbackHistory);
     lastPromptBeforeApply := st.(lastPromptBeforeApply); showUndo := st.(showUndo);
     lockedSegments := st.(lockedSegments); promptRef := st.(promptRef);
     lastFeedbackPrompt := st.(lastFeedbackPrompt) |}.

Definition withIgnoredFeedbackHistory (v : list string) (st : EditorState) : EditorState :=
  {| prompt := st.(prompt); suggestions := st.(suggestions);
     activeSuggestionId := st.(activeSuggestionId); feedback := st.(feedback);
     isTyping := st.(isTyping); isProcessing := st.(isProcessing);
     processingType := st.(processingType);
     processingSelection := st.(processingSelection);
     ignoredFeedbackHistory := v;
     lastPromptBeforeApply := st.(lastPromptBeforeApply); showUndo := st.(showUndo);
     lockedSegments := st.(lockedSegments); promptRef := st.(promptRef);
     lastFeedbackPrompt := st.(lastFeedbackPrompt) |}.

Definition withLastPromptBeforeApply (v : option string) (st : EditorState) : EditorState :=
  {| prompt := st.(prompt); suggestions := st.(suggestions);
     activeSuggestionId := st.(activeSuggestionId); feedback := st.(feedback);
     isTyping := st.(isTyping); isProcessing := st.(isProcessing);
     processingType := st.(processingType);
     processingSelection := st.(processingSelection);
     ignoredFeedbackHistory := st.(ignoredFeedbackHistory);
     lastPromptBeforeApply := v; showUndo := st.(showUndo);
     lockedSegments := st.(lockedSegments); promptRef := st.(promptRef);
     lastFeedbackPrompt := st.(lastFeedbackPrompt) |}.

Definition withShowUndo (v : bool) (st : EditorState) : EditorState :=
  {| prompt := st.(prompt); suggestions := st.(suggestions);
     activeSuggestionId := st.(activeSuggestionId); feedback := st.(feedback);
     isTyping := st.(isTyping); isProcessing := st.(isProcessing);
     processingType := st.(processingType);
     processingSelection := st.(processingSelection);
     ignoredFeedbackHistory := st.(ignoredFeedbackHistory);
     lastPromptBeforeApply := st.(lastPromptBeforeApply); showUndo := v;
     lockedSegments := st.(lockedSegments); promptRef := st.(promptRef);
     lastFeedbackPrompt := st.(lastFeedbackPrompt) |}.

Definition withLockedSegments (v : list LockedSegment) (st : EditorState) : EditorState :=
  {| prompt := st.(prompt); suggestions := st.(suggestions);
     activeSuggestionId := st.(activeSuggestionId); feedback := st.(feedback);
     isTyping := st.(isTyping); isProcessing := st.(isProcessing);
     processingType := st.(processingType);
     processingSelection := st.(processingSelection);
     ignoredFeedbackHistory := st.(ignoredFeedbackHistory);
     lastPromptBeforeApply := st.(lastPromptBeforeApply); showUndo := st.(showUndo);
     lockedSegments := v; promptRef := st.(promptRef);
     lastFeedbackPrompt := st.(lastFeedbackPrompt) |}.

Definition withPromptRef (v : string) (st : EditorState) : EditorState :=
  {| prompt := st.(prompt); suggestions := st.(suggestions);
     activeSuggestionId := st.(activeSuggestionId); feedback := st.(feedback);
     isTyping := st.(isTyping); isProcessing := st.(isProcessing);
     processingType := st.(processingType);
     processingSelection := st.(processingSelection);
     ignoredFeedbackHistory := st.(ignoredFeedbackHistory);
     lastPromptBeforeApply := st.(lastPromptBeforeApply); showUndo := st.(showUndo);
     lockedSegments := st.(lockedSegments); promptRef := v;
     lastFeedbackPrompt := st.(lastFeedbackPrompt) |}.

Definition withLastFeedbackPrompt (v : string) (st : EditorState) : EditorState :=
  {| prompt := st.(prompt); suggestions := st.(suggestions);
     activeSuggestionId := st.(activeSuggestionId); feedback := st.(feedback);
     isTyping := st.(isTyping); isProcessing := st.(isProcessing);
     processingType := st.(processingType);
     processingSelection := st.(processingSelection);
     ignoredFeedbackHistory := st.(ignoredFeedbackHistory);
     lastPromptBeforeApply := st.(lastPromptBeforeApply); showUndo := st.(showUndo);
     lockedSegments := st.(lockedSegments); promptRef := st.(promptRef);
     lastFeedbackPrompt := v |}.

(** *** Actions *)

Definition analyzing (l : Language) : string :=
  match l with
  | Chinese => "正在分析提示词结构..."
  | English => "Analyzing prompt structure..."
  end.

Definition noFurtherSuggestions (l : Language) : string :=
  match l with
  | Chinese => "暂无更多建议"
  | English => "No further suggestions"
  end.

Definition initialState (p : Props) : EditorState :=
  {| prompt := p.(initialPrompt); suggestions := []; activeSuggestionId := None;
     feedback := analyzing p.(language); isTyping := false; isProcessing := false;
     processingType := None; processingSelection := None;
     ignoredFeedbackHistory := []; lastPromptBeforeApply := None; showUndo := false;
     lockedSegments := []; promptRef := p.(initialPrompt); lastFeedbackPrompt := "" |}.

Definition lockTexts (st : EditorState) : list string :=
  map text st.(lockedSegments).

Definition updatePrompt (newPrompt : string) (st : EditorState) : EditorState :=
  let st1 := withPrompt newPrompt st in
  if st.(showUndo) then withLastPromptBeforeApply None (withShowUndo false st1)
  else st1.

(** The [finally] block shared by the scan, apply and full-reconstruct handlers. *)
Definition finish (st : EditorState) : EditorState :=
  withProcessing false None st.(processingSelection) st.

(** [handleDeepScan] up to its [await]. *)
Definition handleDeepScan (st : EditorState) : EditorState * option Pending :=
  if st.(isProcessing) then (st, None)
  else
    (withShowUndo false
       (withSuggestions []
          (withProcessing true (Some Scan) st.(processingSelection) st)),
     Some (PendingScan st.(prompt))).

(** [handleDeepScan] from its [await] on. *)
Definition deepScanSettled (r : option (list Suggestion)) (st : EditorState)
  : EditorState :=
  finish
    match r with
    | Some s =>
        withSuggestions
          (filter (fun sugg => Js.includes st.(promptRef) sugg.(originalText)) s) st
    | None => st
    end.

Definition applySuggestion (suggestion : Suggestion) (st : EditorState) : EditorState :=
  let newPrompt :=
    Js.replace st.(prompt) suggestion.(originalText) suggestion.(suggestedText) in
  withActiveSuggestionId None
    (withSuggestions
       (filter (fun s => negb (s.(sid) =? suggestion.(sid))) st.(suggestions))
       (withPrompt newPrompt st)).

Definition dismissSuggestion (id : string) (st : EditorState) : EditorState :=
  withActiveSuggestionId None
    (withSuggestions (filter (fun s => negb (s.(sid) =? id)) st.(suggestions)) st).

(** [handleApplyFeedback] up to its [await]. *)
Definition handleApplyFeedback (st : EditorState) : EditorState * option Pending :=
  if (st.(feedback) =? "") || st.(isProcessing) then (st, None)
  else
    (withProcessing true (Some ApplyFeedback) st.(processingSelection)
       (withLastPromptBeforeApply (Some st.(prompt)) st),
     Some (PendingApply st.(prompt) st.(feedback) (lockTexts st))).

(** [handleApplyFeedback] from its [await] on: there is no [catch]. *)
Definition applyFeedbackSettled (r : option string) (st : EditorState) : EditorState :=
  finish
    match r with
    | Some newPrompt => withShowUndo true (withSuggestions [] (withPrompt newPrompt st))
    | None => st
    end.

Definition handleUndo (st : EditorState) : EditorState :=
  if present st.(lastPromptBeforeApply) then
    withLastPromptBeforeApply None
      (withShowUndo false (withPrompt (orEmpty st.(lastPromptBeforeApply)) st))
  else st.

Definition handleDismissFeedback (st : EditorState) : EditorState * option Pending :=
  if st.(feedback) =? "" then (st, None)
  else
    let newHistory := (st.(ignoredFeedbackHistory) ++ [st.(feedback)])%list in
    (withIsTyping true (withShowUndo false (withIgnoredFeedbackHistory newHistory st)),
     Some (PendingDismiss st.(prompt) newHistory)).

Definition dismissFeedbackSettled (l : Language) (r : option (option string))
  (st : EditorState) : EditorState :=
  withIsTyping false
    match r with
    | Some newFeedback =>
        if present newFeedback then withFeedback (orEmpty newFeedback) st
        else withFeedback (noFurtherSuggestions l) st
    | None => st
    end.

(** [handleGlobalReconstruct] up to its [await]. *)
Definition handleGlobalReconstruct (st : EditorState) : EditorState * option Pending :=
  (withShowUndo false (withProcessing true (Some Reconstruct) None st),
   Some (PendingFull st.(prompt) (lockTexts st))).

Definition globalReconstructSettled (r : option string) (st : EditorState)
  : EditorState :=
  finish
    match r with
    | Some result => withSuggestions [] (withPrompt result st)
    | None => st
    end.

(** [handlePartialReconstruct] up to its [await]. *)
Definition handlePartialReconstruct (sel : string) (selStart selEnd : nat)
  (st : EditorState) : EditorState * option Pending :=
  (withShowUndo false (withProcessing true (Some Reconstruct) (Some (selStart, selEnd)) st),
   Some (PendingPartial st.(prompt) (lockTexts st) selStart selEnd sel)).

(** [handlePartialReconstruct] from its [await] on: the splice is made in the
    document the closure captured. *)
Definition partialReconstructSettled (doc : string) (selStart selEnd : nat)
  (r : option string) (st : EditorState) : EditorState :=
  let st1 :=
    match r with
    | Some rewrittenSegment =>
        withPrompt (Js.substring2 0 selStart doc ++ rewrittenSegment ++ Js.drop selEnd doc) st
    | None => st
    end in
  withProcessing false None None st1.

Definition addLock (segment newId : string) (st : EditorState)
  : option (list LockedSegment) :=
  if existsb (fun s => s.(text) =? segment) st.(lockedSegments) then None
  else Some (st.(lockedSegments)
             ++ [ {| lid := newId; text := segment; pillar := None |} ])%list.

Definition removeLock (id : string) (st : EditorState) : list LockedSegment :=
  filter (fun s => negb (s.(lid) =? id)) st.(lockedSegments).

(** The body of the mentor timer. *)
Definition mentorTimer (st : EditorState) : EditorState * option Pending :=
  if negb (st.(prompt) =? st.(lastFeedbackPrompt))
     && (10 <? String.length st.(prompt))%nat
     && negb st.(isProcessing)
  then
    (withLastFeedbackPrompt st.(prompt)
       (withIgnoredFeedbackHistory [] (withIsTyping true st)),
     Some (PendingMentor st.(prompt)))
  else (st, None).

(** The [then] of the mentor request; a rejection is not handled. *)
Definition mentorSettled (r : option (option string)) (st : EditorState) : EditorState :=
  match r with
  | Some f =>
      withIsTyping false (if present f then withFeedback (orEmpty f) st else st)
  | None => st
  end.

(** The [then] and the [catch] of the classification request. *)
Definition classified (id : string) (r : option Pillar) (st : EditorState)
  : list LockedSegment :=
  let p := match r with Some p => p | None => Other end in
  map (fun s => if s.(lid) =? id
                then {| lid := s.(lid); text := s.(text); pillar := Some p |}
                else s)
      st.(lockedSegments).

(** *** The machine *)

Definition isClassify (p : Pending) : bool :=
  match p with
  | PendingClassify _ _ _ => true
  | _ => false
  end.

Definition isPendingLock (s : LockedSegment) : bool :=
  match s.(pillar) with
  | None => true
  | Some _ => false
  end.

(** [setLockedSegments] and the classification effect it triggers: the
    clean-up of the previous run makes the result of its request ignored, then
    the first pending segment, if any, is sent for classification. *)
Definition relock (locks : list LockedSegment) (sys : System) : System :=
  let st := withLockedSegments locks sys.(ui) in
  {| ui := st;
     inflight :=
       filter (fun p => negb (isClassify p)) sys.(inflight)
       ++ match find isPendingLock locks with
          | Some seg => [PendingClassify seg.(lid) seg.(text) st.(promptRef)]
          | None => []
          end |}.

Definition issue (r : EditorState * option Pending) (sys : System) : System :=
  {| ui := fst r;
     inflight := sys.(inflight) ++ match snd r with Some p => [p] | None => [] end |}.

Definition removeAt {A} (i : nat) (l : list A) : list A :=
  (firstn i l ++ skipn (S i) l)%list.

Definition settle (lang : Language) (i : nat) (a : Answer) (sys : System) : System :=
  let rest := removeAt i sys.(inflight) in
  let st := sys.(ui) in
  match nth_error sys.(inflight) i, a with
  | Some (PendingScan _), Critique r =>
      {| ui := deepScanSettled r st; inflight := rest |}
  | Some (PendingApply _ _ _), Text r =>
      {| ui := applyFeedbackSettled r st; inflight := rest |}
  | Some (PendingFull _ _), Text r =>
      {| ui := globalReconstructSettled r st; inflight := rest |}
  | Some (PendingPartial doc _ selStart selEnd _), Text r =>
      {| ui := partialReconstructSettled doc selStart selEnd r st; inflight := rest |}
  | Some (PendingDismiss _ _), Tip r =>
      {| ui := dismissFeedbackSettled lang r st; inflight := rest |}
  | Some (PendingMentor _), Tip r =>
      {| ui := mentorSettled r st; inflight := rest |}
  | Some (PendingClassify id _ _), Class r =>
      relock (classified id r st) {| ui := st; inflight := rest |}
  | _, _ => sys
  end.

Definition handle (p : Props) (ev : Event) (sys : System) : System :=
  let st := sys.(ui) in
  let keep st' := {| ui := st'; inflight := sys.(inflight) |} in
  match ev with
  | SetPrompt v => keep (withPrompt v st)
  | UpdatePrompt v => keep (updatePrompt v st)
  | SetActiveSuggestionId v => keep (withActiveSuggestionId v st)
  | HandleDeepScan => issue (handleDeepScan st) sys
  | ApplySuggestion sugg => keep (applySuggestion sugg st)
  | DismissSuggestion id => keep (dismissSuggestion id st)
  | HandleApplyFeedback => issue (handleApplyFeedback st) sys
  | HandleDismissFeedback => issue (handleDismissFeedback st) sys
  | HandleUndo => keep (handleUndo st)
  | HandleGlobalReconstruct => issue (handleGlobalReconstruct st) sys
  | HandlePartialReconstruct sel a b => issue (handlePartialReconstruct sel a b st) sys
  | AddLock segment newId =>
      match addLock segment newId st with
      | Some locks => relock locks sys
      | None => sys
      end
  | RemoveLock id => relock (removeLock id st) sys
  | MentorTimer => issue (mentorTimer st) sys
  | Settle i a => settle p.(language) i a sys
  end.

(** The effect [promptRef.current = prompt], run after the render that
    follows the event. *)
Definition sync (sys : System) : System :=
  {| ui := withPromptRef sys.(ui).(prompt) sys.(ui); inflight := sys.(inflight) |}.

Definition step (p : Props) (sys : System) (ev : Event) : System :=
  sync (handle p ev sys).

Definition initialSystem (p : Props) : System :=
  {| ui := initialState p; inflight := [] |}.

Definition run (p : Props) (evs : list Event) : System :=
  fold_left (step p) evs (initialSystem p).

(** The requests in flight that hold the [isProcessing] flag. *)
Definition isBusyOperation (q : Pending) : bool :=
  match q with
  | PendingScan _ | PendingApply _ _ _ | PendingFull _ _ | PendingPartial _ _ _ _ _ => true
  | _ => false
  end.

End Editor.

(** ** [components/EditorStage.tsx]: the selection handlers

    The component that calls the hook.  Of its handlers, the two below decide
    what the hook is asked to rewrite when the user selects text. *)

Module Stage.
Import Types Editor.

(** The selection kept by the component; the two screen coordinates of the
    floating menu are left out. *)
Record SelectionRange : Type := {
  selText : string;
  selStart : nat;
  selEnd : nat
}.

(** [handleTextSelection] with the text area mounted: [selectionStart] and
    [selectionEnd] are the offsets the text area reports, [selection] is the
    selection held so far. *)
Definition handleTextSelection (st : EditorState) (selectionStart selectionEnd : nat)
  (selection : option SelectionRange) : option SelectionRange :=
  if present st.(activeSuggestionId) then selection
  else
    let text := Js.trim (Js.substring2 selectionStart selectionEnd st.(prompt)) in
    if (0 <? String.length text)%nat
    then Some {| selText := text; selStart := selectionStart; selEnd := selectionEnd |}
    else None.

(** [onPartialReconstruct]: the calls made on the hook. *)
Definition onPartialReconstruct (selection : option SelectionRange) : list Event :=
  match selection with
  | Some sel => [HandlePartialReconstruct sel.(selText) sel.(selStart) sel.(selEnd)]
  | None => []
  end.

End Stage.

(** ** A scripted platform

    The outcomes of the provider calls are read off three scripts, one per
    endpoint; a call on an exhausted script fails with an error that is not a
    rate limit.  [JSON.parse] is a table of the texts used below. *)

Module Mock.
Import Types Service.

Record Scripts : Type := {
  generateScript : list (JsError + option string);
  chatScript : list (JsError + option string);
  fetchScript : list (JsError + HttpResponse);
  idScript : list string
}.

Definition offline : JsError := newError "Failed to fetch".

Definition dq : string := String (ascii_of_nat 34) EmptyString.

(** [{"question":"What tone?","options":["Friendly","Formal","Neutral","Other"],
    "isFinalDraft":0,"generatedPrompt":"draft"}] *)
Definition toneJson : string :=
  "{" ++ dq ++ "question" ++ dq ++ ":" ++ dq ++ "What tone?" ++ dq ++ ","
  ++ dq ++ "options" ++ dq ++ ":["
  ++ dq ++ "Friendly" ++ dq ++ "," ++ dq ++ "Formal" ++ dq ++ ","
  ++ dq ++ "Neutral" ++ dq ++ "," ++ dq ++ "Other" ++ dq ++ "],"
  ++ dq ++ "isFinalDraft" ++ dq ++ ":0,"
  ++ dq ++ "generatedPrompt" ++ dq ++ ":" ++ dq ++ "draft" ++ dq ++ "}".

Definition toneProps : list (string * Js.Value) :=
  [ ("question", Js.Str "What tone?");
    ("options", Js.Arr [Js.Str "Friendly"; Js.Str "Formal"; Js.Str "Neutral"; Js.Str "Other"]);
    ("isFinalDraft", Js.Num 0%Q);
    ("generatedPrompt", Js.Str "draft") ].

Definition parseTable (text : string) : option Js.Value :=
  if text =? toneJson then Some (Js.Obj toneProps)
  else if text =? "{}" then Some (Js.Obj [])
  else if text =? "[]" then Some (Js.Arr [])
  else if text =? "null" then Some Js.Null
  else None.

Definition popGenerate (w : Scripts) : (JsError + option string) * Scripts :=
  match w.(generateScript) with
  | [] => (inl offline, w)
  | o :: rest =>
      (o, {| generateScript := rest; chatScript := w.(chatScript);
             fetchScript := w.(fetchScript); idScript := w.(idScript) |})
  end.

Definition popChat (w : Scripts) : (JsError + option string) * Scripts :=
  match w.(chatScript) with
  | [] => (inl offline, w)
  | o :: rest =>
      (o, {| generateScript := w.(generateScript); chatScript := rest;
             fetchScript := w.(fetchScript); idScript := w.(idScript) |})
  end.

Definition popFetch (w : Scripts) : (JsError + HttpResponse) * Scripts :=
  match w.(fetchScript) with
  | [] => (inl offline, w)
  | o :: rest =>
      (o, {| generateScript := w.(generateScript); chatScript := w.(chatScript);
             fetchScript := rest; idScript := w.(idScript) |})
  end.

Definition popId (w : Scripts) : string * Scripts :=
  match w.(idScript) with
  | [] => ("000000000", w)
  | o :: rest =>
      (o, {| generateScript := w.(generateScript); chatScript := w.(chatScript);
             fetchScript := w.(fetchScript); idScript := rest |})
  end.

Definition platform : Platform :=
  {| World := Scripts;
     JSON_parse := parseTable;
     generateContent := fun _ _ => popGenerate;
     sendMessage := fun _ _ => popChat;
     fetch := fun _ => popFetch;
     randomId := popId |}.

(** Templates that keep only the interpolated document. *)
Definition prompts : Prompts :=
  {| systemInstruction := fun lang => "Interview in " ++ lang;
     jsonReminder := " Respond in JSON.";
     finalDraftMessage := fun _ => "Generate the final prompt.";
     reverseContents := fun prompt _ => prompt;
     mentorContents := fun prompt _ _ _ => prompt;
     feedbackContents := fun prompt _ _ _ _ => prompt;
     critiqueContents := fun _ prompt _ => prompt;
     classifyContents := fun _ segment => segment;
     partialContents := fun _ _ focus _ => focus;
     fullContents := fun _ prompt _ _ => prompt |}.

Definition scripts (g c : list (JsError + option string))
  (f : list (JsError + HttpResponse)) : Scripts :=
  {| generateScript := g; chatScript := c; fetchScript := f; idScript := [] |}.

Definition start (settings : AppSettings) (w : Scripts) : @State platform :=
  @Build_State platform w [] settings None None [].

Definition withGenerate (rest : list (JsError + option string)) (w : Scripts) : Scripts :=
  {| generateScript := rest; chatScript := w.(chatScript);
     fetchScript := w.(fetchScript); idScript := w.(idScript) |}.

(** The state [s] once the generate script is down to [rest] and the effects
    [effs] have been added. *)
Definition replayed (rest : list (JsError + option string)) (effs : list Effect)
  (s : @State platform) : @State platform :=
  @Build_State platform (withGenerate rest s.(world)) (s.(effects) ++ effs)
    s.(currentSettings) s.(aiClient) s.(interviewChatSession) s.(deepseekChatHistory).

(** A 429 as the Gemini SDK reports it, and as an HTTP status. *)
Definition quotaExceeded : JsError :=
  {| status := Js.Undefined; code := Js.Undefined;
     error := Js.Obj [("code", Js.Num 429%Q); ("status", Js.Str "RESOURCE_EXHAUSTED")];
     message := Js.Str "You exceeded your current quota" |}.

Definition tooManyRequests : JsError :=
  {| status := Js.Num 429%Q; code := Js.Undefined; error := Js.Undefined;
     message := Js.Str "Too Many Requests" |}.

Definition forbidden : JsError :=
  {| status := Js.Num 403%Q; code := Js.Undefined; error := Js.Undefined;
     message := Js.Str "API key not valid" |}.

(** Settings with a Gemini key. *)
Definition withGeminiKey (key : string) : AppSettings :=
  {| api :=
       {| activeProvider := GoogleGemini; geminiApiKey := key; deepseekApiKey := "";
          defaultBaseUrl := Some ""; defaultApiKey := Some "";
          models := DEFAULT_API_CONFIG.(models); customModels := [] |};
     language := English; theme := Light |}.

End Mock.

(** ** The vocabulary of the specification

    The notions the properties are stated with, in the words of the
    specification, next to a few shapes of text used in the proofs. *)

Module Spec.
Import Types Service.

(** The rate-limit shapes in the words of the specification, to be compared
    with [isQuotaError]. *)
Definition is429 (v : Js.Value) : Prop := exists q, v = Js.Num q /\ (q == 429)%Q.

Definition isExhausted (v : Js.Value) : Prop := v = Js.Str "RESOURCE_EXHAUSTED".

Definition contains (m sub : string) : Prop := exists a b, m = a ++ sub ++ b.

Inductive RateLimited (e : JsError) : Prop :=
| limitedByStatus : is429 e.(status) -> RateLimited e
| limitedByCode : is429 e.(code) -> RateLimited e
| limitedByStatusName : isExhausted e.(status) -> RateLimited e
| limitedByNested (props : list (string * Js.Value)) :
    e.(error) = Js.Obj props ->
    is429 (Js.lookup "code" props) \/ isExhausted (Js.lookup "status" props) ->
    RateLimited e
| limitedByMessage (m : string) :
    e.(message) = Js.Str m ->
    contains m "429" \/ contains m "quota" ->
    RateLimited e.

(** The effects of a call that is retried [k] times, starting at delay [d]. *)
Fixpoint backoff (call : Effect) (d : Z) (k : nat) : list Effect :=
  match k with
  | O => [call]
  | S k' => call :: EWait d :: backoff call (d * 2)%Z k'
  end.

Definition failures {A} (es : list JsError) : list (JsError + A) := map inl es.

(** The outcome [o] ends a run that has already retried [k] times. *)
Definition ends {A} (o : JsError + A) (k retries : nat) : Prop :=
  match o with
  | inr _ => True
  | inl e => isQuotaError e = false \/ k = retries
  end.

(** No model matches the identifier configured for the feature. *)
Definition unrouted {P : Platform} (feature : FeatureType) (s : State) : Prop :=
  getModelById (s.(currentSettings).(api).(models) feature)
               s.(currentSettings).(api).(customModels) = None.

(** The error of the specification's [ConfigurationError] class for a missing
    model: an [Error] with this message. *)
Definition notFound (feature : FeatureType) : JsError :=
  newError ("Model configuration not found for feature: " ++ featureName feature).

(** A body inside a fenced code block tagged [json], and inside a bare one. *)
Definition jsonFence (body : string) : string :=
  "```json" ++ LF ++ body ++ LF ++ "```".

Definition bareFence (body : string) : string :=
  "```" ++ LF ++ body ++ LF ++ "```".

Fixpoint occurs (x : ascii) (p : string) : bool :=
  match p with
  | EmptyString => false
  | String a p' => Ascii.eqb a x || occurs x p'
  end.

Definition closing : string := LF ++ "```".

(** The pillar read off a response text. *)
Definition classifyText (text : string) : Pillar := pillarOf (normalize text).

End Spec.

(** ** What the further properties observe

    The notions used to state the properties of the editor machine and of the
    service that go beyond the specification. *)

Module EditorView.
Import Types Editor.

(** The classification requests in flight: identifier and text of the segment. *)
Definition classifying (l : list Pending) : list (string * string) :=
  flat_map (fun q => match q with
                     | PendingClassify segmentId segmentText _ => [(segmentId, segmentText)]
                     | _ => []
                     end) l.

(** The first segment that still waits for its pillar, if any. *)
Definition firstPending (locks : list LockedSegment) : list (string * string) :=
  match find isPendingLock locks with
  | Some seg => [(seg.(lid), seg.(text))]
  | None => []
  end.

(** What an event does to the list of locks. *)
Inductive LockChange (l : list LockedSegment) : list LockedSegment -> Prop :=
| LockSame : LockChange l l
| LockAdded (segment newId : string) :
    existsb (fun s => s.(text) =? segment) l = false ->
    LockChange l (l ++ [ {| lid := newId; text := segment; pillar := None |} ])
| LockRemoved (id : string) :
    LockChange l (filter (fun s => negb (s.(lid) =? id)) l)
| LockClassified (id : string) (p : Pillar) :
    LockChange l (map (fun s => if s.(lid) =? id
                                then {| lid := s.(lid); text := s.(text); pillar := Some p |}
                                else s) l).

(** The [isProcessing] flag is held by a request in flight. *)
Definition owned (sys : System) : Prop :=
  sys.(ui).(isProcessing) = true -> existsb isBusyOperation sys.(inflight) = true.

End EditorView.

Module ServiceView.
Import Types Service.

Section Observed.
Context {P : Platform}.

(** A computation that, when it rejects, has left the state as it was: no
    call was made and no variable of the module was written. *)
Definition rejectsUntouched {A} (m : M A) : Prop :=
  forall s e s', m s = (inl e, s') -> s' = s.

(** [down] holds of the worlds where the providers are out of reach.  A
    computation fails there when it rejects and leaves such a world. *)
Definition failsDown (down : World -> Prop) {A} (m : M A) : Prop :=
  forall s, down s.(world) -> exists e s', m s = (inl e, s') /\ down s'.(world).

(** What an operation comes to when the providers are out of reach: it
    rejects with the state untouched, or it resolves to one of [fallbacks]. *)
Definition fallsBackTo (down : World -> Prop) {A} (m : M A) (fallbacks : list A) : Prop :=
  forall s, down s.(world) ->
    match m s with
    | (inl _, s') => s' = s
    | (inr v, _) => In v fallbacks
    end.

(** The feature is routed to a Gemini model for which no key resolves. *)
Definition keyless (feature : FeatureType) (s : State) : Prop :=
  let settings := s.(currentSettings) in
  settings.(api).(models) feature <> "" /\
  exists mc,
    getModelById (settings.(api).(models) feature) settings.(api).(customModels) = Some mc /\
    isOpenAICompatible mc.(provider) = false /\
    isGeminiModel mc = true /\
    getApiKeyForModel mc settings = "".

(** The next [n] values of the random source. *)
Fixpoint draws (n : nat) (w : World) : list string :=
  match n with
  | O => []
  | S k => let '(rid, w') := randomId w in rid :: draws k w'
  end.

End Observed.

Section Routing.
Context {P : Platform} {T : Prompts}.

(** The identifier configured for the feature resolves to the model [mc]. *)
Definition routed (feature : FeatureType) (s : State) (mc : CustomModel) : Prop :=
  getModelById (s.(currentSettings).(api).(models) feature)
               s.(currentSettings).(api).(customModels) = Some mc.

(** The effects that a run of [m] from [s] adds. *)
Definition added {A} (m : M A) (s : State) (effs : list Effect) : Prop :=
  (snd (m s)).(effects) = (s.(effects) ++ effs)%list.

(** Every run of [m] adds effects that satisfy [Q]. *)
Definition adds (Q : list Effect -> Prop) {A} (m : M A) : Prop :=
  forall s, exists effs, added m s effs /\ Q effs.

(** Every run of [m] begins with the effect [e]. *)
Definition starts (e : Effect) {A} (m : M A) : Prop :=
  forall s, exists rest, added m s (e :: rest).

(** The six editor operations, each with the feature it is routed by. *)
Inductive editorOperation : forall A, FeatureType -> M A -> Prop :=
| opReverseEngineer (prompt : string) (language : Language) :
    editorOperation ReverseEngineer (reverseEngineerContext prompt language)
| opMentor (prompt context : string) (language : Language) (ignored : list string) :
    editorOperation Mentor (getMentorFeedback prompt context language ignored)
| opFeedback (prompt context feedback : string) (locks : list string) (language : Language) :
    editorOperation Feedback (applySpecificFeedback prompt context feedback locks language)
| opCritique (prompt context : string) (language : Language) :
    editorOperation Critique (getDetailedCritique prompt context language)
| opClassify (segment fullPrompt : string) :
    editorOperation Classify (classifyPromptSegment segment fullPrompt)
| opRewrite (prompt context : string) (locks : list string) (language : Language)
    (focus : option string) :
    editorOperation Rewrite (reconstructPrompt prompt context locks language focus).

End Routing.

(** Sets of effect lists that hold the empty list and are closed under
    concatenation. *)
Class Closed (Q : list Effect -> Prop) : Prop := {
  closed_nil : Q [];
  closed_app : forall a b, Q a -> Q b -> Q (a ++ b)%list
}.

(** No effect; any effects; calls on the Gemini client [ai], and waits. *)
Definition silent (effs : list Effect) : Prop := effs = [].

Definition anything (effs : list Effect) : Prop := True.

Definition onClient (ai : GoogleGenAI) (effs : list Effect) : Prop :=
  Forall (fun e => match e with
                   | EGenerate a _ => a = ai
                   | EWait _ => True
                   | _ => False
                   end) effs.

(** A POST to the address of [mc], for its model name, with [key] as bearer. *)
Definition post (mc : CustomModel) (key : string) (e : Effect) : Prop :=
  match e with
  | EFetch req =>
      req.(url) = endpointOf mc /\ req.(bearer) = key /\ req.(hModel) = mc.(modelName)
  | _ => False
  end.

(** The POST of an interview turn on the OpenAI-compatible path. *)
Definition interviewRequest (mc : CustomModel) (settings : AppSettings)
  (history : list ChatMessage) : HttpRequest :=
  {| url := endpointOf mc; bearer := getApiKeyForModel mc settings;
     hModel := mc.(modelName); messages := history;
     hTemperature := (6 # 10)%Q; jsonMode := true |}.

Definition withBaseUrl (mc : CustomModel) (u : option string) : CustomModel :=
  {| id := mc.(id); name := mc.(name); provider := mc.(provider);
     modelName := mc.(modelName); baseUrl := u; apiKey := mc.(apiKey);
     description := mc.(description); maxTokens := mc.(maxTokens);
     temperature := mc.(temperature) |}.

(** The last code unit of a string. *)
Fixpoint lastChar (s : string) : option ascii :=
  match s with
  | EmptyString => None
  | String c EmptyString => Some c
  | String _ r => lastChar r
  end.

End ServiceView.

(** ** Editor sessions used as examples *)

Module EditorScenario.
Import Types Editor.

Definition supportBot : Props :=
  {| initialPrompt := "You are a helpful assistant. Answer briefly.";
     context := "customer support bot"; language := English |}.

Definition helpful : Suggestion :=
  {| sid := "k3x9w2m1q"; originalText := "helpful"; suggestedText := "patient";
     reason := "more specific"; stype := "clarity" |}.

Definition changedSinceScan : list Event :=
  [ HandleDeepScan; UpdatePrompt "You are an assistant. Answer briefly." ].

Definition poet : Props :=
  {| initialPrompt := "Write a poem about the sea.";
     context := "poetry assistant"; language := English |}.

(** The mentor gives a tip, the user empties the document, applies the tip,
    and the Feedback feature answers with a new document. *)
Definition emptied : list Event :=
  [ MentorTimer;
    Settle 0 (Tip (Some (Some "Add a persona.")));
    UpdatePrompt "";
    HandleApplyFeedback;
    Settle 0 (Text (Some "You are a poet.")) ].

Definition displayMath : Suggestion :=
  {| sid := "a1b2c3d4e"; originalText := "inline";
     suggestedText := "as $$...$$ blocks";
     reason := "display math reads better"; stype := "clarity" |}.

Definition mathPrompt : EditorState :=
  withSuggestions [displayMath]
    (initialState {| initialPrompt := "Format math inline.";
                     context := "LaTeX tutor"; language := English |}).

Definition jsonTwice : EditorState :=
  initialState {| initialPrompt := "Reply in JSON. Reply in JSON.";
                  context := "API assistant"; language := English |}.

Definition jsonOnly : Suggestion :=
  {| sid := "z9y8x7w6v"; originalText := "JSON"; suggestedText := "JSON ($& only)";
     reason := "rule out prose"; stype := "clarity" |}.

End EditorScenario.

(** ** Service runs used as examples *)

Module ServiceScenario.
Import Types Service Spec.

Definition sampleClient : GoogleGenAI := {| clientKey := "key" |}.

Definition sampleRequest : GenerateRequest :=
  {| gModel := GeminiPro; gTemperature := (7 # 10)%Q; gJson := false;
     gContents := "Rewrite the prompt." |}.

(** The mock operation of the specification: two rate-limit failures, then a
    success. *)
Definition twiceLimited : @State Mock.platform :=
  Mock.start (Mock.withGeminiKey "key")
    (Mock.scripts [inl Mock.quotaExceeded; inl Mock.tooManyRequests; inr (Some "done")]
                  [] []).

(** An operation that fails with an error that is no rate limit. *)
Definition refused : @State Mock.platform :=
  Mock.start (Mock.withGeminiKey "key")
    (Mock.scripts [inl Mock.forbidden; inr (Some "done")] [] []).

(** A model with a key of its own, under settings that also hold a default
    key and a key for the provider. *)
Definition keyedModel : CustomModel :=
  {| id := "my-gemini"; name := "My Gemini"; provider := GoogleGemini;
     modelName := "gemini-2.5-pro"; baseUrl := None; apiKey := Some "model-key";
     description := None; maxTokens := None; temperature := None |}.

Definition threeKeys : AppSettings :=
  {| api :=
       {| activeProvider := GoogleGemini; geminiApiKey := "provider-key";
          deepseekApiKey := "deepseek-key"; defaultBaseUrl := None;
          defaultApiKey := Some "default-key";
          models := fun _ => "my-gemini"; customModels := [keyedModel] |};
     language := English; theme := Dark |}.

(** Settings whose Classify feature points at a model that was deleted. *)
Definition danglingSettings : AppSettings :=
  {| api :=
       {| activeProvider := GoogleGemini; geminiApiKey := "provider-key";
          deepseekApiKey := ""; defaultBaseUrl := None; defaultApiKey := None;
          models := fun _ => "deleted-model"; customModels := [] |};
     language := English; theme := Dark |}.

(** A session with the default settings and a Gemini key, where the model
    answers in prose. *)
Definition prose : @State Mock.platform :=
  Mock.start (Mock.withGeminiKey "key")
    (Mock.scripts [] [inr (Some "Sorry, I can not help with that.")] []).

(** The same, once the interview has been started in English. *)
Definition proseSession : @State Mock.platform :=
  snd (startInterviewSession (P := Mock.platform) (T := Mock.prompts) English prose).

(** The session of [plainTone] once the settings have been replaced by
    settings that route no feature to a model. *)
Definition staleSession : @State Mock.platform :=
  snd (updateApiSettings (P := Mock.platform) danglingSettings
         (snd (startInterviewSession (P := Mock.platform) (T := Mock.prompts) English
                 (Mock.start (Mock.withGeminiKey "key")
                    (Mock.scripts [] [inr (Some Mock.toneJson)] []))))).

(** The model answers with the JSON of [Mock.toneJson] inside a fence. *)
Definition fencedTone : @State Mock.platform :=
  Mock.start (Mock.withGeminiKey "key")
    (Mock.scripts [] [inr (Some (jsonFence Mock.toneJson))] []).

Definition plainTone : @State Mock.platform :=
  Mock.start (Mock.withGeminiKey "key")
    (Mock.scripts [] [inr (Some Mock.toneJson)] []).

Definition send (msg : string) (language : Language) (s : @State Mock.platform)
  : JsError + InterviewResponse :=
  fst (sendInterviewMessage (P := Mock.platform) (T := Mock.prompts) msg language s).

Definition classify (segment : string) (s : @State Mock.platform) : JsError + Pillar :=
  fst (classifyPromptSegment (P := Mock.platform) (T := Mock.prompts) segment "doc" s).

Definition answers (o : JsError + option string) : @State Mock.platform :=
  Mock.start (Mock.withGeminiKey "key") (Mock.scripts [o] [] []).

Definition myFlash : CustomModel :=
  {| id := "my-flash"; name := "My Flash"; provider := GoogleGemini;
     modelName := "gemini-2.5-flash"; baseUrl := None; apiKey := Some "flash-key";
     description := None; maxTokens := None; temperature := None |}.

(** Rewrite is routed to DeepSeek, and a flash model is configured. *)
Definition rewriteOnDeepSeek : AppSettings :=
  {| api :=
       {| activeProvider := DeepSeek; geminiApiKey := "gemini-key";
          deepseekApiKey := "deepseek-key"; defaultBaseUrl := None; defaultApiKey := None;
          models := fun f => match f with
                             | Rewrite => "deepseek-chat"
                             | _ => DEFAULT_API_CONFIG.(models) f
                             end;
          customModels := [myFlash] |};
     language := English; theme := Dark |}.

Definition http429 : HttpResponse :=
  {| ok := false; httpStatus := 429%Z; body := "Rate limit reached"; data := None |}.

(** The endpoint answers 429; the flash model would answer. *)
Definition deepSeekLimited : @State Mock.platform :=
  Mock.start rewriteOnDeepSeek
    (Mock.scripts [inr (Some "Rewritten by flash.")] [] [inr http429]).

Definition document : string := "You are a helpful assistant. Answer briefly.".

Definition fullRewrite (s : @State Mock.platform) : (JsError + string) * @State Mock.platform :=
  reconstructPrompt (P := Mock.platform) (T := Mock.prompts)
    document "customer support bot" ["Answer briefly."] English None s.

(** Rewrite is routed to Gemini Pro, a flash model of the user's is
    configured, and every call is answered with a rate limit. *)
Definition rewriteOnGemini : AppSettings :=
  {| api :=
       {| activeProvider := GoogleGemini; geminiApiKey := "gemini-key";
          deepseekApiKey := ""; defaultBaseUrl := None; defaultApiKey := None;
          models := DEFAULT_API_CONFIG.(models); customModels := [myFlash] |};
     language := English; theme := Dark |}.

Definition alwaysLimited : @State Mock.platform :=
  Mock.start rewriteOnGemini
    (Mock.scripts (repeat (inl Mock.quotaExceeded) 8 ++ [inr (Some "Too late.")]) [] []).

(** No flash model of the user's: the rewrite model is refused for a reason
    that is no rate limit, and the next call answers. *)
Definition refusedThenAnswered : @State Mock.platform :=
  Mock.start (Mock.withGeminiKey "gemini-key")
    (Mock.scripts [inl Mock.forbidden; inr (Some "  Rewritten by flash. ")] [] []).

End ServiceScenario.

(** ** Sessions and states used as examples of the further properties *)

Module EdgeScenario.
Import Types Service.

(** A document whose middle sentence is selected with the blanks around it. *)
Definition report : Editor.EditorState :=
  Editor.initialState {| Editor.initialPrompt := "Summarize the report. Be brief.";
                         Editor.context := "analyst"; Editor.language := English |}.

(** The mentor runs on a model with a key of its own; no default key is set. *)
Definition ownKey : AppSettings :=
  {| api :=
       {| activeProvider := GoogleGemini; geminiApiKey := "provider-key";
          deepseekApiKey := ""; defaultBaseUrl := None; defaultApiKey := None;
          models := fun f => match f with
                             | Mentor => "my-gemini"
                             | _ => DEFAULT_API_CONFIG.(models) f
                             end;
          customModels := [ServiceScenario.keyedModel] |};
     language := English; theme := Dark |}.

Definition ownKeyStart : @State Mock.platform :=
  Mock.start ownKey (Mock.scripts [] [] []).

(** The interview is routed to DeepSeek. *)
Definition interviewOnDeepSeek : AppSettings :=
  {| api :=
       {| activeProvider := DeepSeek; geminiApiKey := "";
          deepseekApiKey := "deepseek-key"; defaultBaseUrl := None; defaultApiKey := None;
          models := fun f => match f with
                             | Interview => "deepseek-chat"
                             | _ => DEFAULT_API_CONFIG.(models) f
                             end;
          customModels := [] |};
     language := English; theme := Dark |}.

(** An interview started on DeepSeek, whose endpoint is out of reach. *)
Definition httpInterview : @State Mock.platform :=
  snd (startInterviewSession (P := Mock.platform) (T := Mock.prompts) English
         (Mock.start interviewOnDeepSeek (Mock.scripts [] [] []))).

(** The same once the settings route every feature to Gemini. *)
Definition switchedToGemini : @State Mock.platform :=
  snd (updateApiSettings (P := Mock.platform) (Mock.withGeminiKey "key") httpInterview).

(** The same once the settings route the interview to a model that was
    deleted. *)
Definition staleHistory : @State Mock.platform :=
  snd (updateApiSettings (P := Mock.platform) ServiceScenario.danglingSettings httpInterview).

(** The worlds where the two endpoints are out of reach. *)
Definition unreachable (w : Mock.Scripts) : Prop :=
  w.(Mock.generateScript) = [] /\ w.(Mock.fetchScript) = [].

Definition deepSeekChat : CustomModel :=
  nth 2 PREDEFINED_MODELS ServiceScenario.keyedModel.

(** A custom model that takes the identifier of a predefined one. *)
Definition impostor : CustomModel :=
  {| id := "gemini-pro"; name := "My Pro"; provider := DeepSeek;
     modelName := "deepseek-chat"; baseUrl := None; apiKey := Some "other-key";
     description := None; maxTokens := None; temperature := None |}.

End EdgeScenario.

(** * Properties *)

(** ** Strings *)

Module JsFacts.
Import Js.

Lemma startsWith_app (p r : string) : startsWith p (p ++ r) = true.
Proof.
  induction p as [|a p IH]; simpl; [reflexivity|].
  now rewrite Ascii.eqb_refl, IH.
Qed.

Lemma startsWith_true (p s : string) :
  startsWith p s = true -> s = p ++ drop (String.length p) s.
Proof.
  revert s; induction p as [|a p IH]; intros s H; simpl in *.
  - reflexivity.
  - destruct s as [|b s]; [discriminate|].
    apply andb_prop in H as [Hab Hps].
    apply Ascii.eqb_eq in Hab; subst b.
    simpl. f_equal. now apply IH.
Qed.

Lemma startsWith_iff (p s : string) :
  startsWith p s = true <-> exists r, s = p ++ r.
Proof.
  split.
  - intros H. eexists. now apply startsWith_true.
  - intros [r ->]. apply startsWith_app.
Qed.

Lemma append_length (a b : string) :
  String.length (a ++ b) = String.length a + String.length b.
Proof. induction a as [|x a IH]; simpl; [reflexivity | now rewrite IH]. Qed.

Lemma includes_head (s sub : string) :
  startsWith sub s = true -> includes s sub = true.
Proof. intros H. destruct s; simpl; now rewrite H. Qed.

(** [includes] is the substring relation. *)
Lemma includes_iff (s sub : string) :
  includes s sub = true <-> exists a b, s = a ++ sub ++ b.
Proof.
  split.
  - induction s as [|c s IH]; simpl; intros H.
    + rewrite orb_false_r in H. apply startsWith_iff in H as [r Hr].
      exists "", r. exact Hr.
    + apply orb_prop in H as [H|H].
      * apply startsWith_iff in H as [r Hr]. exists "", r. exact Hr.
      * destruct (IH H) as (a & b & ->). now exists (String c a), b.
  - intros (a & b & ->). induction a as [|c a IH].
    + change ("" ++ sub ++ b) with (sub ++ b).
      apply includes_head, startsWith_app.
    + simpl. rewrite IH. apply orb_true_r.
Qed.

Lemma includes_false (s sub a b : string) :
  includes s sub = false -> s <> a ++ sub ++ b.
Proof.
  intros H E. assert (includes s sub = true) by (apply includes_iff; eauto).
  congruence.
Qed.

(** [splitFirst] cuts at an occurrence, and no occurrence starts earlier. *)
Lemma splitFirst_Some (pat s before after : string) :
  splitFirst pat s = Some (before, after) ->
  s = before ++ pat ++ after /\
  forall b' a', s = b' ++ pat ++ a' -> String.length before <= String.length b'.
Proof.
  revert before after; induction s as [|c s IH]; intros before after; simpl.
  - destruct (startsWith pat "") eqn:E; [|discriminate].
    intros [= <- <-]. split; [|simpl; lia].
    simpl. now apply startsWith_true.
  - destruct (startsWith pat (String c s)) eqn:E.
    + intros [= <- <-]. split; [|simpl; lia].
      simpl. now apply startsWith_true in E.
    + destruct (splitFirst pat s) as [[b a]|] eqn:Es; [|discriminate].
      intros [= <- <-]. destruct (IH _ _ eq_refl) as [Hs Hmin].
      split; [simpl; now rewrite <- Hs|].
      intros b' a' Hb'. destruct b' as [|c' b'].
      * simpl in Hb'. rewrite Hb', startsWith_app in E. discriminate.
      * simpl in Hb'. injection Hb' as _ Hb'. simpl.
        apply le_n_S. now apply (Hmin b' a').
Qed.

Lemma splitFirst_None (pat s : string) :
  splitFirst pat s = None <-> includes s pat = false.
Proof.
  induction s as [|c s IH]; simpl.
  - destruct (startsWith pat ""); simpl; split; congruence.
  - destruct (startsWith pat (String c s)); simpl; [split; congruence|].
    destruct (splitFirst pat s) as [[b a]|].
    + split; [discriminate|]. intros H. apply IH in H. discriminate.
    + split; intros _; [now apply IH | reflexivity].
Qed.

(** A replacement text without a dollar sign stands for itself. *)
Lemma getSubstitution_plain (matched before after repl : string) :
  noDollar repl = true -> getSubstitution matched before after repl = repl.
Proof.
  induction repl as [|c r IH]; simpl; [reflexivity|].
  intros H. apply andb_prop in H as [Hc Hr].
  apply negb_true_iff in Hc. rewrite Hc. now rewrite IH.
Qed.

End JsFacts.

(** ** The editor *)

Module EditorFacts.
Import Types Editor.

Lemma run_snoc (p : Props) (evs : list Event) (ev : Event) :
  run p (evs ++ [ev]) = step p (run p evs) ev.
Proof. unfold run. now rewrite fold_left_app. Qed.

(** After every event the ref holds the document. *)
Lemma step_promptRef (p : Props) (sys : System) (ev : Event) :
  (step p sys ev).(ui).(promptRef) = (step p sys ev).(ui).(prompt).
Proof. reflexivity. Qed.

Lemma run_promptRef (p : Props) (evs : list Event) :
  (run p evs).(ui).(promptRef) = (run p evs).(ui).(prompt).
Proof.
  destruct evs as [|ev evs] using rev_ind; [reflexivity|].
  rewrite run_snoc. apply step_promptRef.
Qed.

Lemma filter_substrings (doc : string) (l : list Suggestion) :
  Forall (fun sugg => exists a b, doc = a ++ sugg.(originalText) ++ b)
         (filter (fun sugg => Js.includes doc sugg.(originalText)) l).
Proof.
  apply Forall_forall. intros sugg H. apply filter_In in H as [_ H].
  now apply JsFacts.includes_iff.
Qed.

(** *** The [isProcessing] gate *)

Lemma handleDeepScan_busy (st : EditorState) :
  st.(isProcessing) = true -> handleDeepScan st = (st, None).
Proof. unfold handleDeepScan. now intros ->. Qed.

Lemma handleApplyFeedback_busy (st : EditorState) :
  st.(isProcessing) = true -> handleApplyFeedback st = (st, None).
Proof. unfold handleApplyFeedback. intros ->. now rewrite orb_true_r. Qed.

Lemma issue_nothing (st : EditorState) (l : list Pending) :
  issue (st, None) {| ui := st; inflight := l |} = {| ui := st; inflight := l |}.
Proof. unfold issue; simpl. now rewrite app_nil_r. Qed.

(** X2.  The two guarded handlers, [handleDeepScan] and
    [handleApplyFeedback], leave a busy editor and its requests as they are. *)
Lemma guarded_handlers_busy (p : Props) (sys : System) :
  sys.(ui).(isProcessing) = true ->
  handle p HandleDeepScan sys = sys /\ handle p HandleApplyFeedback sys = sys.
Proof.
  intros H. destruct sys as [st l]; simpl in *.
  rewrite (handleDeepScan_busy _ H), (handleApplyFeedback_busy _ H).
  now rewrite issue_nothing.
Qed.

(** *** Undo *)

(** X3.  On a document that is not empty, with feedback at hand and the
    editor idle, an apply followed by an undo gives the document back. *)
Lemma apply_then_undo (st : EditorState) (newPrompt : string) :
  st.(prompt) <> "" ->
  st.(feedback) <> "" ->
  st.(isProcessing) = false ->
  (handleUndo (applyFeedbackSettled (Some newPrompt) (fst (handleApplyFeedback st)))).(prompt)
  = st.(prompt).
Proof.
  intros Hp Hf Hb. unfold handleApplyFeedback.
  apply eqb_neq in Hf. rewrite Hf, Hb. simpl.
  unfold handleUndo; simpl.
  apply eqb_neq in Hp. now rewrite Hp.
Qed.

(** X4.  A second undo in a row changes nothing. *)
Lemma undo_twice (st : EditorState) : handleUndo (handleUndo st) = handleUndo st.
Proof.
  unfold handleUndo.
  destruct (present (lastPromptBeforeApply st)) eqn:E; simpl; [reflexivity|].
  now rewrite E.
Qed.

(** X5.  A manual edit made while the undo banner is shown clears the
    snapshot and hides the banner. *)
Lemma updatePrompt_clears (st : EditorState) (newPrompt : string) :
  st.(showUndo) = true ->
  (updatePrompt newPrompt st).(lastPromptBeforeApply) = None /\
  (updatePrompt newPrompt st).(showUndo) = false.
Proof. unfold updatePrompt. now intros ->. Qed.

(** *** Suggestions *)

(** X6.  With a replacement text that holds no dollar sign, [replace] writes
    that text in place of the leftmost occurrence of the pattern and keeps the
    rest of the document. *)
Lemma replace_leftmost (doc pat repl : string) :
  Js.noDollar repl = true ->
  Js.includes doc pat = true ->
  exists before after,
    doc = before ++ pat ++ after /\
    Js.replace doc pat repl = before ++ repl ++ after /\
    forall b' a', doc = b' ++ pat ++ a' -> String.length before <= String.length b'.
Proof.
  intros Hd Hin. unfold Js.replace.
  destruct (Js.splitFirst pat doc) as [[b a]|] eqn:E.
  - destruct (JsFacts.splitFirst_Some _ _ E) as [Hs Hmin].
    exists b, a. now rewrite JsFacts.getSubstitution_plain.
  - apply JsFacts.splitFirst_None in E. congruence.
Qed.

(** [applySuggestion] removes from the list the suggestions that carry
    the identifier of the one applied. *)
Lemma applySuggestion_removes (sugg : Suggestion) (st : EditorState) :
  (applySuggestion sugg st).(suggestions)
  = filter (fun s => negb (s.(sid) =? sugg.(sid))) st.(suggestions).
Proof. reflexivity. Qed.

(** [dismissSuggestion] removes the suggestion by identifier and leaves
    the document as it is. *)
Lemma dismissSuggestion_keeps_prompt (id : string) (st : EditorState) :
  (dismissSuggestion id st).(prompt) = st.(prompt) /\
  (dismissSuggestion id st).(suggestions)
  = filter (fun s => negb (s.(sid) =? id)) st.(suggestions).
Proof. split; reflexivity. Qed.

End EditorFacts.

(** ** The editor: the claims *)

Module EditorClaims.
Import Types Editor EditorScenario.

(** C1 (the gate is missing on both reconstruction handlers).  A deep scan is
    in flight and the editor is busy; [handleGlobalReconstruct] and
    [handlePartialReconstruct] are not stopped by [isProcessing]: each changes
    the state and issues its request, so two busy operations are in flight,
    and when the reconstruction settles it overwrites the document and clears
    the flag while the scan is still in flight. *)
Theorem reconstruct_not_gated :
  let scanning := run supportBot [HandleDeepScan] in
  let both := step supportBot scanning HandleGlobalReconstruct in
  let partial := step supportBot scanning (HandlePartialReconstruct "helpful" 10 17) in
  let settled := step supportBot both (Settle 1 (Text (Some "Rewritten."))) in
  scanning.(ui).(isProcessing) = true /\
  map isBusyOperation scanning.(inflight) = [true] /\
  both <> scanning /\
  map isBusyOperation both.(inflight) = [true; true] /\
  partial <> scanning /\
  map isBusyOperation partial.(inflight) = [true; true] /\
  settled.(ui).(prompt) = "Rewritten." /\
  settled.(ui).(isProcessing) = false /\
  settled.(inflight) = [PendingScan supportBot.(initialPrompt)].
Proof.
  cbv zeta. repeat split; try reflexivity.
  - intros H. apply (f_equal (fun s => List.length s.(inflight))) in H. discriminate H.
  - intros H. apply (f_equal (fun s => List.length s.(inflight))) in H. discriminate H.
Qed.

(** C3.  When a deep scan settles with a list of suggestions, the document is
    left as it is, the stored list is the returned list filtered by
    [includes] against the current document, every stored [originalText] is a
    substring of that document, and a returned entry whose [originalText] does
    not occur in it is not stored. *)
Theorem deep_scan_stores_substrings
  (p : Props) (evs : list Event) (i : nat) (doc : string) (returned : list Suggestion) :
  nth_error (run p evs).(inflight) i = Some (PendingScan doc) ->
  let before := run p evs in
  let after := step p before (Settle i (Critique (Some returned))) in
  after.(ui).(prompt) = before.(ui).(prompt) /\
  after.(ui).(suggestions)
  = filter (fun sugg => Js.includes before.(ui).(prompt) sugg.(originalText)) returned /\
  Forall (fun sugg => exists a b, after.(ui).(prompt) = a ++ sugg.(originalText) ++ b)
         after.(ui).(suggestions) /\
  (forall sugg, In sugg returned ->
     (forall a b, after.(ui).(prompt) <> a ++ sugg.(originalText) ++ b) ->
     ~ In sugg after.(ui).(suggestions)).
Proof.
  intros Hi. cbv zeta.
  assert (Hstep : (step p (run p evs) (Settle i (Critique (Some returned)))).(ui)
                  = withPromptRef (run p evs).(ui).(prompt)
                      (deepScanSettled (Some returned) (run p evs).(ui))).
  { unfold step, handle, settle. now rewrite Hi. }
  rewrite Hstep. simpl. rewrite EditorFacts.run_promptRef.
  repeat split.
  - apply EditorFacts.filter_substrings.
  - intros sugg _ Hno Hin. apply filter_In in Hin as [_ Hin].
    apply JsFacts.includes_iff in Hin as (a & b & E).
    now apply (Hno a b).
Qed.

(** Scenario C: the scan returns a suggestion on [helpful], the document no
    longer contains it, and nothing is stored. *)
Lemma deep_scan_stale_suggestion_dropped :
  (step supportBot (run supportBot changedSinceScan)
        (Settle 0 (Critique (Some [helpful])))).(ui).(suggestions) = [].
Proof.
  destruct (deep_scan_stores_substrings supportBot changedSinceScan 0
              (doc := supportBot.(initialPrompt)) [helpful] eq_refl)
    as (_ & H & _).
  exact H.
Defined.

(** C4 (undo of an apply made on the empty document).  The snapshot taken by
    [handleApplyFeedback] is the empty string, [handleUndo] tests it for
    truthiness, and so the undo changes nothing: the document stays the
    applied one and the undo banner stays on. *)
Theorem undo_lost_on_empty_document :
  let beforeApply := run poet (firstn 3 emptied) in
  let applied := run poet emptied in
  let undone := step poet applied HandleUndo in
  beforeApply.(ui).(prompt) = "" /\
  beforeApply.(ui).(feedback) = "Add a persona." /\
  applied.(ui).(prompt) = "You are a poet." /\
  applied.(ui).(lastPromptBeforeApply) = Some "" /\
  applied.(ui).(showUndo) = true /\
  undone = applied /\
  undone.(ui).(prompt) <> beforeApply.(ui).(prompt).
Proof. cbv zeta. repeat split; try reflexivity. discriminate. Qed.

(** C7 (a suggested text with a dollar pattern).  [applySuggestion] hands
    [suggestedText] to [String.prototype.replace] as a replacement pattern, so
    [$$] is written as a single dollar sign: the span of [originalText] is not
    replaced by [suggestedText]. *)
Theorem applySuggestion_expands_dollars :
  (applySuggestion displayMath mathPrompt).(prompt) = "Format math as $...$ blocks." /\
  (applySuggestion displayMath mathPrompt).(prompt)
  <> "Format math " ++ displayMath.(suggestedText) ++ "." /\
  (applySuggestion displayMath mathPrompt).(suggestions) = [].
Proof. repeat split; try reflexivity. discriminate. Qed.

(** C10 (the leftmost of two occurrences, with a dollar pattern in the
    suggested text).  Only the leftmost occurrence is replaced and the later
    one is kept, but what is written in its place is the expansion of
    [suggestedText], where [$&] has become the matched text. *)
Theorem applySuggestion_leftmost_expanded :
  (applySuggestion jsonOnly jsonTwice).(prompt)
  = "Reply in JSON (JSON only). Reply in JSON." /\
  (applySuggestion jsonOnly jsonTwice).(prompt)
  <> "Reply in " ++ jsonOnly.(suggestedText) ++ ". Reply in JSON.".
Proof. split; [reflexivity | discriminate]. Qed.

(** While the scan of [supportBot] is in flight, a second scan and an apply
    are ignored. *)
Lemma guarded_handlers_busy_scanning :
  handle supportBot HandleDeepScan (run supportBot [HandleDeepScan])
  = run supportBot [HandleDeepScan] /\
  handle supportBot HandleApplyFeedback (run supportBot [HandleDeepScan])
  = run supportBot [HandleDeepScan].
Proof. apply EditorFacts.guarded_handlers_busy. reflexivity. Defined.

(** Apply then undo on the support-bot prompt gives the prompt back. *)
Lemma apply_then_undo_support_bot :
  (handleUndo
     (applyFeedbackSettled (Some "You are a patient assistant.")
        (fst (handleApplyFeedback (initialState supportBot))))).(prompt)
  = "You are a helpful assistant. Answer briefly.".
Proof.
  apply (EditorFacts.apply_then_undo (initialState supportBot));
    [discriminate | discriminate | reflexivity].
Defined.

(** A manual edit after an apply drops the snapshot. *)
Lemma updatePrompt_clears_after_apply :
  let applied := (run poet emptied).(ui) in
  (updatePrompt "You are a poet. Rhyme." applied).(lastPromptBeforeApply) = None /\
  (updatePrompt "You are a poet. Rhyme." applied).(showUndo) = false.
Proof. cbv zeta. apply EditorFacts.updatePrompt_clears. reflexivity. Defined.

(** [helpful] applied to a prompt that says it twice. *)
Lemma replace_leftmost_helpful :
  exists before after,
    "Be helpful, helpful and kind." = before ++ "helpful" ++ after /\
    Js.replace "Be helpful, helpful and kind." "helpful" "patient"
    = before ++ "patient" ++ after /\
    forall b' a',
      "Be helpful, helpful and kind." = b' ++ "helpful" ++ a' ->
      String.length before <= String.length b'.
Proof. apply EditorFacts.replace_leftmost; reflexivity. Defined.

End EditorClaims.

(** ** The service monad *)

Module ServiceFacts.
Import Types Service.
Local Open Scope service_scope.

Section Binds.
Context {P : Platform}.

Lemma bind_inr {A B} (m : M A) (k : A -> M B) (s s' : State) (a : A) :
  m s = (inr a, s') -> bind m k s = k a s'.
Proof. unfold bind. now intros ->. Qed.

Lemma bind_inl {A B} (m : M A) (k : A -> M B) (s s' : State) (e : JsError) :
  m s = (inl e, s') -> bind m k s = (inl e, s').
Proof. unfold bind. now intros ->. Qed.

Lemma requireModelConfig_found (feature : FeatureType) (s : State) (mc : CustomModel) :
  getModelById (s.(currentSettings).(api).(models) feature)
               s.(currentSettings).(api).(customModels) = Some mc ->
  requireModelConfig feature s = (inr mc, s).
Proof.
  unfold requireModelConfig, getModelConfigForFeature, bind. now intros ->.
Qed.

End Binds.

End ServiceFacts.

(** ** The retry policy *)

Module RetryFacts.
Import Types Service Spec.
Local Open Scope service_scope.

Lemma isNum_iff (v : Js.Value) (n : Q) :
  Js.isNum v n = true <-> exists q, v = Js.Num q /\ (q == n)%Q.
Proof.
  destruct v; simpl; try (split; [discriminate | intros (q' & [=] & _)]).
  rewrite Qeq_bool_iff. split.
  - intros H. now exists q.
  - now intros (q' & [= <-] & H).
Qed.

Lemma isStr_iff (v : Js.Value) (s : string) : Js.isStr v s = true <-> v = Js.Str s.
Proof.
  destruct v; simpl; try (split; [discriminate | intros [=]]).
  rewrite String.eqb_eq. split; [now intros -> | now intros [= ->]].
Qed.

Lemma isQuotaError_iff (e : JsError) : isQuotaError e = true <-> RateLimited e.
Proof.
  unfold isQuotaError. split.
  - intros H. repeat (apply orb_prop in H as [H|H]).
    + apply limitedByStatus. now apply isNum_iff.
    + apply limitedByCode. now apply isNum_iff.
    + apply limitedByStatusName. now apply isStr_iff.
    + apply andb_prop in H as [_ H].
      destruct (error e) eqn:E; simpl in H; try discriminate.
      apply (limitedByNested _ E).
      apply orb_prop in H as [H|H]; [left; now apply isNum_iff | right; now apply isStr_iff].
    + destruct (message e) eqn:E; try discriminate.
      apply (limitedByMessage _ E).
      apply orb_prop in H as [H|H]; [left | right]; now apply JsFacts.includes_iff.
  - intros [H|H|H|props E H|m E H].
    + apply isNum_iff in H. now rewrite H.
    + apply isNum_iff in H. rewrite H. now rewrite orb_true_r.
    + apply isStr_iff in H. rewrite H. now rewrite !orb_true_r.
    + rewrite E. simpl.
      assert (Hn : Js.isNum (Js.lookup "code" props) 429%Q
                   || Js.isStr (Js.lookup "status" props) "RESOURCE_EXHAUSTED" = true).
      { destruct H as [H|H]; [apply isNum_iff in H | apply isStr_iff in H];
          rewrite H; [reflexivity | apply orb_true_r]. }
      rewrite Hn. now rewrite !orb_true_r.
    + rewrite E.
      assert (Hn : Js.includes m "429" || Js.includes m "quota" = true).
      { destruct H as [H|H]; apply JsFacts.includes_iff in H; rewrite H;
          [reflexivity | apply orb_true_r]. }
      rewrite Hn. now rewrite !orb_true_r.
Qed.

Section Steps.
Context {P : Platform} {A : Type}.
Variable apiCall : M A.

Lemma callWithRetry_unfold (retries : nat) (d : Z) (s : State) :
  callWithRetry apiCall retries d s
  = match apiCall s with
    | (inr v, s1) => (inr v, s1)
    | (inl e, s1) =>
        if isQuotaError e then
          match retries with
          | S r => callWithRetry apiCall r (d * 2)%Z (emit (EWait d) s1)
          | O => (inl e, s1)
          end
        else (inl e, s1)
    end.
Proof.
  destruct retries; simpl; unfold tryCatch;
    destruct (apiCall s) as [[e|v] s1]; try reflexivity;
    destruct (isQuotaError e); reflexivity.
Qed.

Lemma callWithRetry_success (retries : nat) (d : Z) (s s1 : State) (v : A) :
  apiCall s = (inr v, s1) -> callWithRetry apiCall retries d s = (inr v, s1).
Proof. intros H. now rewrite callWithRetry_unfold, H. Qed.

Lemma callWithRetry_fatal (retries : nat) (d : Z) (s s1 : State) (e : JsError) :
  apiCall s = (inl e, s1) -> isQuotaError e = false ->
  callWithRetry apiCall retries d s = (inl e, s1).
Proof. intros H He. now rewrite callWithRetry_unfold, H, He. Qed.

Lemma callWithRetry_exhausted (d : Z) (s s1 : State) (e : JsError) :
  apiCall s = (inl e, s1) -> callWithRetry apiCall 0 d s = (inl e, s1).
Proof. intros H. rewrite callWithRetry_unfold, H. now destruct (isQuotaError e). Qed.

Lemma callWithRetry_again (r : nat) (d : Z) (s s1 : State) (e : JsError) :
  apiCall s = (inl e, s1) -> isQuotaError e = true ->
  callWithRetry apiCall (S r) d s
  = callWithRetry apiCall r (d * 2)%Z (emit (EWait d) s1).
Proof. intros H He. now rewrite callWithRetry_unfold, H, He. Qed.

End Steps.

End RetryFacts.

Module RetryClaims.
Import Types Service Spec ServiceScenario RetryFacts.
Local Open Scope service_scope.

Lemma callWithRetry_scripted (ai : GoogleGenAI) (req : GenerateRequest)
  (es : list JsError) (o : JsError + option string) (rest : list (JsError + option string)) :
  forall (retries : nat) (d : Z) (s : @State Mock.platform),
    Forall (fun e => isQuotaError e = true) es ->
    List.length es <= retries ->
    ends o (List.length es) retries ->
    s.(world).(Mock.generateScript) = (failures es ++ o :: rest)%list ->
    callWithRetry (generate ai req) retries d s
    = (o, Mock.replayed rest (backoff (EGenerate ai req) d (List.length es)) s).
Proof.
  induction es as [|e es IH]; intros retries d s Hq Hlen Hend Hs.
  - simpl in *. destruct s as [w effs cs cl se hi]; simpl in Hs.
    destruct w as [g c f i]; simpl in Hs; subst g.
    destruct o as [e|v].
    + destruct Hend as [He|He].
      * erewrite callWithRetry_fatal; [reflexivity| reflexivity |exact He].
      * subst retries. erewrite callWithRetry_exhausted; reflexivity.
    + erewrite callWithRetry_success; reflexivity.
  - destruct retries as [|r]; [simpl in Hlen; lia|].
    inversion Hq as [|? ? He Hq']; subst.
    destruct s as [w effs cs cl se hi]; simpl in Hs.
    destruct w as [g c f i]; simpl in Hs; subst g.
    erewrite callWithRetry_again; [|reflexivity|exact He].
    rewrite (IH r (d * 2)%Z _ Hq'); try reflexivity.
    + unfold Mock.replayed; simpl. now rewrite <- !app_assoc.
    + simpl in Hlen; lia.
    + destruct o as [e'|v]; simpl in *; [|exact I].
      destruct Hend as [H|H]; [now left | right; lia].
Qed.

Lemma delays_backoff (ai : GoogleGenAI) (req : GenerateRequest) (k : nat) :
  forall d : Z,
    delays (backoff (EGenerate ai req) d k)
    = map (fun i => (d * 2 ^ Z.of_nat i)%Z) (seq 0 k).
Proof.
  induction k as [|k IH]; intros d; [reflexivity|].
  cbn [backoff delays seq map]. rewrite IH, <- seq_shift, map_map.
  f_equal; [simpl; lia|].
  apply map_ext. intros i. rewrite Nat2Z.inj_succ, Z.pow_succ_r; lia.
Qed.

(** C2.  [isQuotaError] holds exactly of the rate-limit shapes.  A call that
    succeeds is returned as it is; a failure that is no rate limit, or that
    comes when no attempt is left, is thrown again unchanged and nothing is
    waited for; a rate-limit failure with an attempt left is followed by a
    wait of the current delay and a retry with the delay doubled and one
    attempt less.  Hence an operation that fails [k] times with a rate limit
    and then ends ([k] at most the number of retries) is called [k + 1] times
    with the delays [d, 2d, ..., 2^(k-1) d] in between and its last outcome is
    the result.  With the defaults, two rate-limit failures then a success
    give the success after the delays 2000 and 4000, and an error that is no
    rate limit is thrown after one call and no delay. *)
Theorem callWithRetry_policy :
  (forall e : JsError, isQuotaError e = true <-> RateLimited e) /\
  (forall (P : Platform) (A : Type) (apiCall : M A) (retries : nat) (d : Z) (s : State),
      match apiCall s with
      | (inr v, s1) => callWithRetry apiCall retries d s = (inr v, s1)
      | (inl e, s1) =>
          (isQuotaError e = false \/ retries = 0 ->
           callWithRetry apiCall retries d s = (inl e, s1)) /\
          (isQuotaError e = true ->
           forall r, retries = S r ->
             callWithRetry apiCall retries d s
             = callWithRetry apiCall r (d * 2)%Z (emit (EWait d) s1))
      end) /\
  (forall (ai : GoogleGenAI) (req : GenerateRequest) (es : list JsError)
          (o : JsError + option string) (rest : list (JsError + option string))
          (retries : nat) (d : Z) (s : @State Mock.platform),
      Forall (fun e => isQuotaError e = true) es ->
      List.length es <= retries ->
      ends o (List.length es) retries ->
      s.(world).(Mock.generateScript) = (failures es ++ o :: rest)%list ->
      callWithRetry (generate ai req) retries d s
      = (o, Mock.replayed rest (backoff (EGenerate ai req) d (List.length es)) s) /\
      delays (backoff (EGenerate ai req) d (List.length es))
      = map (fun i => (d * 2 ^ Z.of_nat i)%Z) (seq 0 (List.length es))) /\
  (let r := callWithRetry' (generate sampleClient sampleRequest) twiceLimited in
   fst r = inr (Some "done") /\
   delays (snd r).(effects) = [2000; 4000]%Z /\
   List.length (filter isNetworkCall (snd r).(effects)) = 3) /\
  (let r := callWithRetry' (generate sampleClient sampleRequest) refused in
   fst r = inl Mock.forbidden /\
   delays (snd r).(effects) = [] /\
   List.length (filter isNetworkCall (snd r).(effects)) = 1).
Proof.
  split; [exact isQuotaError_iff|].
  split.
  { intros P A apiCall retries d s. rewrite callWithRetry_unfold.
    destruct (apiCall s) as [[e|v] s1]; [|reflexivity].
    split.
    - intros [He| ->]; [now rewrite He|]. now destruct (isQuotaError e).
    - intros He r ->. now rewrite He. }
  split.
  { intros. split; [now apply callWithRetry_scripted | apply delays_backoff]. }
  split; cbv zeta; repeat split; reflexivity.
Qed.

(** The run of the specification, read off the general statement. *)
Lemma callWithRetry_twice_limited :
  callWithRetry (generate sampleClient sampleRequest) 3 2000%Z twiceLimited
  = (inr (Some "done"),
     Mock.replayed [] (backoff (EGenerate sampleClient sampleRequest) 2000%Z 2) twiceLimited)
  /\ delays (backoff (EGenerate sampleClient sampleRequest) 2000%Z 2) = [2000; 4000]%Z.
Proof.
  destruct callWithRetry_policy as (_ & _ & H & _).
  apply (H sampleClient sampleRequest [Mock.quotaExceeded; Mock.tooManyRequests]
           (inr (Some "done")) [] 3 2000%Z twiceLimited).
  - repeat constructor.
  - apply le_S, le_n.
  - exact I.
  - reflexivity.
Defined.

End RetryClaims.

(** ** The feature-model router *)

Module RouterClaims.
Import Types Service Spec ServiceScenario.
Local Open Scope service_scope.

Lemma absent_orEmpty (o : option string) : present o = false -> orEmpty o = "".
Proof.
  destruct o as [k|]; simpl; [|reflexivity].
  intros H. apply negb_false_iff in H. now apply String.eqb_eq in H.
Qed.

Lemma requireModelConfig_unrouted {P : Platform} (feature : FeatureType) (s : State) :
  unrouted feature s -> requireModelConfig feature s = (inl (notFound feature), s).
Proof.
  unfold unrouted, requireModelConfig, getModelConfigForFeature, bind. now intros ->.
Qed.

Ltac missing H :=
  unfold bind, getModelForFeature; cbn beta iota;
  rewrite (requireModelConfig_unrouted H); reflexivity.

(** The router on its own.  The key of a model is its own key when it has
    one, else the global default key when there is one, else the key the
    settings hold for its provider; with all three set it is the model's own.
    When no model matches the identifier configured for a feature, each
    operation that looks the model up ends at once in the error [Model
    configuration not found for feature: f], the state untouched. *)
Theorem router_priority_and_missing_model :
  (forall model settings,
      present model.(apiKey) = true ->
      getApiKeyForModel model settings = orEmpty model.(apiKey)) /\
  (forall model settings,
      present model.(apiKey) = false ->
      present settings.(api).(defaultApiKey) = true ->
      getApiKeyForModel model settings = orEmpty settings.(api).(defaultApiKey)) /\
  (forall model settings,
      present model.(apiKey) = false ->
      present settings.(api).(defaultApiKey) = false ->
      getApiKeyForModel model settings
      = match model.(provider) with
        | GoogleGemini => settings.(api).(geminiApiKey)
        | DeepSeek => settings.(api).(deepseekApiKey)
        | _ => ""
        end) /\
  getApiKeyForModel keyedModel threeKeys = "model-key" /\
  (forall (P : Platform) (T : Prompts) (s : State),
      (unrouted Interview s ->
       forall language, startInterviewSession language s = (inl (notFound Interview), s)) /\
      (unrouted Interview s ->
       s.(interviewChatSession) = None -> s.(deepseekChatHistory) = [] ->
       forall msg language,
         sendInterviewMessage msg language s = (inl (notFound Interview), s)) /\
      (unrouted ReverseEngineer s ->
       forall prompt language,
         reverseEngineerContext prompt language s = (inl (notFound ReverseEngineer), s)) /\
      (unrouted Mentor s ->
       forall prompt context language ignored,
         getMentorFeedback prompt context language ignored s = (inl (notFound Mentor), s)) /\
      (unrouted Feedback s ->
       forall prompt context feedback locks language,
         applySpecificFeedback prompt context feedback locks language s
         = (inl (notFound Feedback), s)) /\
      (unrouted Critique s ->
       forall prompt context language,
         getDetailedCritique prompt context language s = (inl (notFound Critique), s)) /\
      (unrouted Classify s ->
       forall segment fullPrompt,
         classifyPromptSegment segment fullPrompt s = (inl (notFound Classify), s)) /\
      (unrouted Rewrite s ->
       forall prompt context locks language focus,
         reconstructPrompt prompt context locks language focus s
         = (inl (notFound Rewrite), s))) /\
  (let s := Mock.start danglingSettings (Mock.scripts [inr (Some "Task")] [] []) in
   classifyPromptSegment (P := Mock.platform) (T := Mock.prompts) "Answer briefly." "doc" s
   = (inl (newError "Model configuration not found for feature: classify"), s)).
Proof.
  split; [|split; [|split; [|split; [|split]]]].
  - intros model settings H. unfold getApiKeyForModel. now rewrite H.
  - intros model settings H1 H2. unfold getApiKeyForModel. now rewrite H1, H2.
  - intros model settings H1 H2. unfold getApiKeyForModel. rewrite H1, H2.
    destruct (provider model); try reflexivity; now apply absent_orEmpty.
  - reflexivity.
  - intros P T s. repeat split; intros H; intros.
    + unfold startInterviewSession. missing H.
    + unfold sendInterviewMessage, bind, getState; cbn beta iota.
      match goal with Hs : interviewChatSession s = None |- _ => rewrite Hs end.
      match goal with Hh : deepseekChatHistory s = [] |- _ => rewrite Hh end.
      unfold startInterviewSession. missing H.
    + unfold reverseEngineerContext. missing H.
    + unfold getMentorFeedback. missing H.
    + unfold applySpecificFeedback. missing H.
    + unfold getDetailedCritique. missing H.
    + unfold classifyPromptSegment. missing H.
    + unfold reconstructPrompt. missing H.
  - reflexivity.
Qed.

(** The router on the three-key settings, and a classification whose model
    was deleted. *)
Lemma router_three_keys_and_deleted_model :
  getApiKeyForModel keyedModel threeKeys = "model-key" /\
  classifyPromptSegment (P := Mock.platform) (T := Mock.prompts) "Answer briefly." "doc"
    (Mock.start danglingSettings (Mock.scripts [inr (Some "Task")] [] []))
  = (inl (notFound Classify),
     Mock.start danglingSettings (Mock.scripts [inr (Some "Task")] [] [])).
Proof.
  destruct router_priority_and_missing_model as (Hkey & _ & _ & _ & Hmissing & _).
  split.
  - apply (Hkey keyedModel threeKeys). reflexivity.
  - destruct (Hmissing Mock.platform Mock.prompts
                (Mock.start danglingSettings (Mock.scripts [inr (Some "Task")] [] [])))
      as (_ & _ & _ & _ & _ & _ & Hclassify & _).
    apply Hclassify. reflexivity.
Defined.

(** X1.  The Gemini interview session does not take its key from the router.
    [startInterviewSession] asks [getAiClient] for a client without naming the
    model, so with no client cached the session is opened on a client built
    from the Gemini key of the settings, whatever keys the model and the
    global default hold. *)
Theorem interview_session_key {P : Platform} {T : Prompts} (s : State)
  (language : Language) (mc : CustomModel) :
  getModelById (s.(currentSettings).(api).(models) Interview)
               s.(currentSettings).(api).(customModels) = Some mc ->
  isOpenAICompatible mc.(provider) = false ->
  s.(aiClient) = None ->
  let ai := {| clientKey := s.(currentSettings).(api).(geminiApiKey) |} in
  startInterviewSession language s
  = (inr tt,
     setSession (Some {| chatClient := ai; chatModel := mc.(modelName);
                         chatInstruction := systemInstruction (langName language) |})
                (setAiClient (Some ai) s)).
Proof.
  intros Hm Ho Hc. cbv zeta. unfold startInterviewSession.
  erewrite ServiceFacts.bind_inr by (apply ServiceFacts.requireModelConfig_found; exact Hm).
  rewrite Ho. unfold bind, getAiClient. cbn [present]. now rewrite Hc.
Qed.

(** With a key on the model, a default key and a provider key, the router
    resolves the model's key and the interview session holds the provider's. *)
Lemma interview_session_key_three_keys :
  getApiKeyForModel keyedModel threeKeys = "model-key" /\
  (snd (startInterviewSession (P := Mock.platform) (T := Mock.prompts) English
          (Mock.start threeKeys (Mock.scripts [] [] [])))).(interviewChatSession)
  = Some {| chatClient := {| clientKey := "provider-key" |};
            chatModel := "gemini-2.5-pro";
            chatInstruction := "Interview in English" |}.
Proof.
  split; [reflexivity|].
  rewrite (interview_session_key (P := Mock.platform) (T := Mock.prompts)
             (Mock.start threeKeys (Mock.scripts [] [] [])) English
             (mc := keyedModel) eq_refl eq_refl eq_refl).
  reflexivity.
Defined.

End RouterClaims.

(** ** The interview parser *)

Module InterviewFacts.
Import Types Service Spec.
Local Open Scope service_scope.

(** A pattern that does not contain [x] sees no difference when a text that
    begins with [x] is appended. *)
Lemma startsWith_app_absent (x : ascii) (t p : string) :
  occurs x p = false ->
  forall s, Js.startsWith p (s ++ String x t) = Js.startsWith p s.
Proof.
  induction p as [|a p IH]; intros Hp s; [reflexivity|].
  simpl in Hp. apply orb_false_elim in Hp as [Ha Hp].
  destruct s as [|b s]; simpl.
  - now rewrite Ha.
  - now rewrite IH.
Qed.

Lemma startsWith_app_later (x a : ascii) (t p : string) :
  occurs x p = false ->
  forall b s, Js.startsWith (String a p) (String b s ++ String x t)
              = Js.startsWith (String a p) (String b s).
Proof. intros Hp b s. simpl. now rewrite startsWith_app_absent. Qed.

Lemma closing_head : closing = String (ascii_of_nat 10) "```".
Proof. reflexivity. Qed.

Lemma fenceMatch_le (s : string) : fenceMatch s <= String.length s.
Proof.
  unfold fenceMatch.
  destruct (Js.startsWith "```json" s) eqn:E1.
  - apply JsFacts.startsWith_true in E1.
    destruct (Js.startsWith LF (Js.drop 7 s)) eqn:E2.
    + apply JsFacts.startsWith_true in E2. simpl String.length in E1, E2.
      rewrite E2 in E1. rewrite E1.
      rewrite !JsFacts.append_length. simpl. lia.
    + rewrite E1, JsFacts.append_length. simpl. lia.
  - destruct (Js.startsWith (LF ++ "```") s) eqn:E2.
    + apply JsFacts.startsWith_true in E2. rewrite E2, JsFacts.append_length.
      simpl. lia.
    + destruct (Js.startsWith "```" s) eqn:E3; [|lia].
      apply JsFacts.startsWith_true in E3. rewrite E3, JsFacts.append_length.
      simpl. lia.
Qed.

Lemma drop_app_prefix (p t : string) :
  forall s, Js.startsWith p s = true ->
    Js.drop (String.length p) (s ++ t) = Js.drop (String.length p) s ++ t.
Proof.
  induction p as [|a p IH]; intros s H; [reflexivity|].
  destruct s as [|b s]; [discriminate|].
  simpl in H. apply andb_prop in H as [_ H]. simpl. now apply IH.
Qed.

Lemma fenceMatch_closing (c : ascii) (r : string) :
  fenceMatch (String c r ++ closing) = fenceMatch (String c r)
  \/ String c r = "```json".
Proof.
  rewrite closing_head. unfold fenceMatch.
  rewrite (@startsWith_app_absent (ascii_of_nat 10) "```" "```json" eq_refl).
  rewrite (@startsWith_app_later (ascii_of_nat 10) (ascii_of_nat 10) "```" "```" eq_refl).
  rewrite (@startsWith_app_absent (ascii_of_nat 10) "```" "```" eq_refl).
  destruct (Js.startsWith "```json" (String c r)) eqn:E1; [|now left].
  change 7 with (String.length "```json").
  rewrite (drop_app_prefix "```json" _ _ E1).
  apply JsFacts.startsWith_true in E1.
  destruct (Js.drop (String.length "```json") (String c r)) as [|b r'].
  - right. exact E1.
  - left. unfold LF.
    now rewrite (@startsWith_app_later (ascii_of_nat 10) (ascii_of_nat 10) "```" "" eq_refl).
Qed.

Lemma removeFences_cons (c : ascii) (r : string) :
  removeFences 0 (String c r)
  = match fenceMatch (String c r) with
    | O => String c (removeFences 0 r)
    | S k => removeFences k r
    end.
Proof. reflexivity. Qed.

Lemma removeFences_closing (s : string) :
  forall k, k <= String.length s + 1 ->
    removeFences k (s ++ closing) = removeFences k s.
Proof.
  induction s as [|c r IH]; intros k Hk.
  - simpl in Hk. destruct k as [|[|k]]; [reflexivity | reflexivity | lia].
  - destruct k as [|k].
    + change (String c r ++ closing) with (String c (r ++ closing)).
      rewrite !removeFences_cons.
      change (String c (r ++ closing)) with (String c r ++ closing).
      destruct (fenceMatch_closing c r) as [E|E].
      * rewrite E. pose proof (fenceMatch_le (String c r)) as Hle.
        destruct (fenceMatch (String c r)) as [|n].
        -- now rewrite IH by lia.
        -- simpl in Hle. apply IH. lia.
      * injection E as -> ->. reflexivity.
    + simpl. simpl in Hk. apply IH. lia.
Qed.

Lemma stripFences_jsonFence (body : string) :
  stripFences (jsonFence body) = stripFences body.
Proof.
  unfold stripFences, jsonFence.
  change (removeFences 0 ("```json" ++ LF ++ body ++ LF ++ "```"))
    with (removeFences 0 (body ++ closing)).
  now apply removeFences_closing; lia.
Qed.

Lemma stripFences_bareFence (body : string) :
  Js.startsWith "`" body = false ->
  Js.trim (stripFences (bareFence body)) = Js.trim (stripFences body).
Proof.
  intros Hb. unfold stripFences, bareFence.
  change (removeFences 0 ("```" ++ LF ++ body ++ LF ++ "```"))
    with (removeFences 0 (LF ++ body ++ closing)).
  change (LF ++ body ++ closing) with (String (ascii_of_nat 10) (body ++ closing)).
  rewrite removeFences_cons.
  assert (E : fenceMatch (String (ascii_of_nat 10) (body ++ closing)) = 0).
  { unfold fenceMatch.
    change (Js.startsWith (LF ++ "```") (String (ascii_of_nat 10) (body ++ closing)))
      with (Js.startsWith "```" (body ++ closing)).
    destruct body as [|b body]; [reflexivity|].
    simpl in Hb. rewrite andb_true_r in Hb.
    simpl. now rewrite Hb. }
  rewrite E, removeFences_closing by lia. reflexivity.
Qed.

End InterviewFacts.

Module InterviewClaims.
Import Types Service Spec ServiceScenario InterviewFacts.
Local Open Scope service_scope.

(** C5, as stated, fails on the word "localized".  An interview held in
    Chinese that meets an unparsable answer returns the English text that an
    interview held in English returns: the message is one constant. *)
Lemma parse_error_message_not_localized :
  send "你好" Chinese prose
  = inr {| question := Js.Str "System Error: Could not parse AI response. Please try again.";
           options := []; isFinalDraft := false; generatedPrompt := Js.Undefined |}
  /\ send "你好" Chinese prose = send "hello" English prose.
Proof. split; reflexivity. Qed.

Lemma sendInterviewMessage_chat {P : Platform} {T : Prompts} (s : State) (chat : Chat)
  (msg : string) (language : Language) (response : option string) (w' : World) :
  s.(interviewChatSession) = Some chat ->
  s.(deepseekChatHistory) = [] ->
  sendMessage chat msg s.(world) = (inr response, w') ->
  sendInterviewMessage msg language s
  = (inr (parseInterviewResponse (textOr response "{}")),
     setWorld w' (emit (EChatSend chat msg) s)).
Proof.
  intros Hc Hh Hw.
  unfold sendInterviewMessage, bind, getState, ret; cbn beta iota.
  rewrite Hc, Hh. cbn beta iota. rewrite Hc.
  unfold callWithRetry'. erewrite RetryFacts.callWithRetry_success; [reflexivity|].
  unfold perform. simpl. now rewrite Hw.
Qed.

(** C5, amended.  When the chat session answers with a text, the turn ends in
    the value parsed from it and never in an error.  A body inside a [json]
    fence, and a body that does not begin with a backtick inside a bare fence,
    parse to what the body alone parses to.  A text that [JSON.parse] rejects
    gives the fallback, whose question is the constant English message and
    which has no options and is no final draft.  A text that parses to an
    object gives at most three options, the first three of its [options]
    array, [isFinalDraft] coerced to a boolean and [generatedPrompt] as it
    is. *)
Theorem interview_response_parsed :
  (forall (P : Platform) (T : Prompts),
    (forall (s : State) (chat : Chat) (msg : string) (language : Language)
            (response : option string) (w' : World),
        s.(interviewChatSession) = Some chat ->
        s.(deepseekChatHistory) = [] ->
        sendMessage chat msg s.(world) = (inr response, w') ->
        sendInterviewMessage msg language s
        = (inr (parseInterviewResponse (textOr response "{}")),
           setWorld w' (emit (EChatSend chat msg) s))) /\
    (forall body, parseInterviewResponse (jsonFence body) = parseInterviewResponse body) /\
    (forall body,
        Js.startsWith "`" body = false ->
        parseInterviewResponse (bareFence body) = parseInterviewResponse body) /\
    (forall text,
        JSON_parse (Js.trim (stripFences text)) = None ->
        parseInterviewResponse text
        = {| question := Js.Str "System Error: Could not parse AI response. Please try again.";
             options := []; isFinalDraft := false; generatedPrompt := Js.Undefined |}) /\
    (forall text props,
        JSON_parse (Js.trim (stripFences text)) = Some (Js.Obj props) ->
        let r := parseInterviewResponse text in
        r.(options)
        = match Js.lookup "options" props with
          | Js.Arr items => firstn 3 items
          | _ => []
          end /\
        List.length r.(options) <= 3 /\
        r.(isFinalDraft) = Js.truthy (Js.lookup "isFinalDraft" props) /\
        r.(generatedPrompt) = Js.lookup "generatedPrompt" props)) /\
  send "I want a customer support bot" English fencedTone
  = send "I want a customer support bot" English plainTone /\
  send "I want a customer support bot" English plainTone
  = inr {| question := Js.Str "What tone?";
           options := [Js.Str "Friendly"; Js.Str "Formal"; Js.Str "Neutral"];
           isFinalDraft := false; generatedPrompt := Js.Str "draft" |}.
Proof.
  split; [|split; reflexivity].
  intros P T. split; [|split; [|split; [|split]]].
  - intros. now apply sendInterviewMessage_chat.
  - intros body. unfold parseInterviewResponse. now rewrite stripFences_jsonFence.
  - intros body Hb. unfold parseInterviewResponse. now rewrite stripFences_bareFence.
  - intros text H. unfold parseInterviewResponse. now rewrite H.
  - intros text props H. cbv zeta. unfold parseInterviewResponse. rewrite H.
    cbn -[firstn]. repeat split.
    destruct (Js.lookup "options" props); try (simpl; lia).
    apply firstn_le_length.
Qed.

(** X7.  A live Gemini chat session is used as it is: the turn is sent on it
    without looking the Interview model up again, also when the settings no
    longer route the feature to any model. *)
Theorem stale_session_still_sends {P : Platform} {T : Prompts} (s : State) (chat : Chat)
  (msg : string) (language : Language) (response : option string) (w' : World) :
  unrouted Interview s ->
  s.(interviewChatSession) = Some chat ->
  s.(deepseekChatHistory) = [] ->
  sendMessage chat msg s.(world) = (inr response, w') ->
  sendInterviewMessage msg language s
  = (inr (parseInterviewResponse (textOr response "{}")),
     setWorld w' (emit (EChatSend chat msg) s)).
Proof. intros _. apply sendInterviewMessage_chat. Qed.

(** The session of [plainTone] after the Interview model has been deleted
    from the settings. *)
Lemma stale_session_after_deletion :
  fst (sendInterviewMessage (P := Mock.platform) (T := Mock.prompts)
         "I want a customer support bot" English staleSession)
  = inr {| question := Js.Str "What tone?";
           options := [Js.Str "Friendly"; Js.Str "Formal"; Js.Str "Neutral"];
           isFinalDraft := false; generatedPrompt := Js.Str "draft" |} /\
  List.length
    (filter isNetworkCall
       (snd (sendInterviewMessage (P := Mock.platform) (T := Mock.prompts)
               "I want a customer support bot" English staleSession)).(effects)) = 1.
Proof.
  rewrite (stale_session_still_sends (P := Mock.platform) (T := Mock.prompts)
             (s := staleSession) "I want a customer support bot" English
             eq_refl eq_refl eq_refl eq_refl).
  split; reflexivity.
Defined.

(** A turn of the session of [prose], a bare fence around the tone question,
    and the options of the tone question. *)
Lemma interview_turn_in_prose :
  fst (sendInterviewMessage (P := Mock.platform) (T := Mock.prompts) "hello" English
         proseSession)
  = inr {| question := Js.Str "System Error: Could not parse AI response. Please try again.";
           options := []; isFinalDraft := false; generatedPrompt := Js.Undefined |} /\
  parseInterviewResponse (P := Mock.platform) (bareFence Mock.toneJson)
  = parseInterviewResponse (P := Mock.platform) Mock.toneJson /\
  List.length (parseInterviewResponse (P := Mock.platform) Mock.toneJson).(options) <= 3.
Proof.
  destruct interview_response_parsed as (H & _).
  destruct (H Mock.platform Mock.prompts) as (Hchat & _ & Hbare & Hfail & Hobj).
  split; [|split].
  - erewrite (Hchat proseSession _ "hello" English _ _ eq_refl eq_refl eq_refl).
    apply (f_equal inr). apply Hfail. reflexivity.
  - apply Hbare. reflexivity.
  - apply (Hobj Mock.toneJson Mock.toneProps eq_refl).
Defined.

End InterviewClaims.

(** ** The pillar classifier *)

Module ClassifyClaims.
Import Types Service Spec ServiceScenario.
Local Open Scope service_scope.

Lemma isWhiteSpace_lowerChar (c : ascii) :
  Js.isWhiteSpace (Js.lowerChar c) = Js.isWhiteSpace c.
Proof. destruct c as [[] [] [] [] [] [] [] []]; reflexivity. Qed.

Lemma trimStart_toLowerCase (s : string) :
  Js.trimStart (Js.toLowerCase s) = Js.toLowerCase (Js.trimStart s).
Proof.
  induction s as [|c s IH]; [reflexivity|].
  simpl. rewrite isWhiteSpace_lowerChar.
  destruct (Js.isWhiteSpace c); [exact IH | reflexivity].
Qed.

Lemma trimEnd_toLowerCase (s : string) :
  Js.trimEnd (Js.toLowerCase s) = Js.toLowerCase (Js.trimEnd s).
Proof.
  induction s as [|c s IH]; [reflexivity|].
  simpl. rewrite IH, isWhiteSpace_lowerChar.
  destruct (Js.trimEnd s); simpl; [|reflexivity].
  now destruct (Js.isWhiteSpace c).
Qed.

Lemma normalize_toLowerCase (t : string) : normalize t = Js.trim (Js.toLowerCase t).
Proof.
  unfold normalize, Js.trim. now rewrite trimStart_toLowerCase, trimEnd_toLowerCase.
Qed.

Lemma trimmedOr_normalize (response : option string) :
  trimmedOr response Js.toLowerCase "" = normalize (orEmpty response).
Proof.
  destruct response as [t|]; [|reflexivity]. simpl.
  destruct (String.eqb_spec t ""); [now subst | reflexivity].
Qed.

Lemma resultOr_normalize (text : string) :
  resultOr text Js.toLowerCase "" = normalize text.
Proof.
  unfold resultOr. destruct (String.eqb_spec text ""); [now subst | reflexivity].
Qed.

Lemma pillarOf_match (n : string) (p : Pillar) :
  p <> Other -> pillarOf n = p ->
  Js.includes n (Js.toLowerCase (pillarName p)) = true.
Proof.
  unfold pillarOf. intros Hp.
  destruct (Js.includes n "persona") eqn:E1; [now intros <-|].
  destruct (Js.includes n "task") eqn:E2; [now intros <-|].
  destruct (Js.includes n "context") eqn:E3; [now intros <-|].
  destruct (Js.includes n "format") eqn:E4; [now intros <-|].
  intros <-. now contradiction Hp.
Qed.

Lemma pillarOf_other (n : string) :
  pillarOf n = Other <->
  forall p, p <> Other -> Js.includes n (Js.toLowerCase (pillarName p)) = false.
Proof.
  unfold pillarOf. split.
  - destruct (Js.includes n "persona") eqn:E1; [discriminate|].
    destruct (Js.includes n "task") eqn:E2; [discriminate|].
    destruct (Js.includes n "context") eqn:E3; [discriminate|].
    destruct (Js.includes n "format") eqn:E4; [discriminate|].
    intros _ [] Hp; try assumption. now contradiction Hp.
  - intros H.
    assert (H1 : Js.includes n "persona" = false) by (apply (H Persona); discriminate).
    assert (H2 : Js.includes n "task" = false) by (apply (H Task); discriminate).
    assert (H3 : Js.includes n "context" = false) by (apply (H Context); discriminate).
    assert (H4 : Js.includes n "format" = false) by (apply (H Format); discriminate).
    now rewrite H1, H2, H3, H4.
Qed.

Section Paths.
Context {P : Platform} {T : Prompts}.

Lemma classify_gemini (segment fullPrompt : string) (s s1 : State) (mc : CustomModel)
  (ai : GoogleGenAI) :
  getModelById (s.(currentSettings).(api).(models) Classify)
               s.(currentSettings).(api).(customModels) = Some mc ->
  isOpenAICompatible mc.(provider) = false ->
  getAiClient (Some (s.(currentSettings).(api).(models) Classify)) s = (inr ai, s1) ->
  classifyPromptSegment segment fullPrompt s
  = match callWithRetry'
            (generate ai (geminiRequest mc (1 # 10)%Q false
                                        (classifyContents fullPrompt segment))) s1 with
    | (inr response, s2) => (inr (classifyText (orEmpty response)), s2)
    | (inl _, s2) => (inr Other, s2)
    end.
Proof.
  intros Hm Ho Ha.
  unfold classifyPromptSegment, getModelForFeature, requireModelConfig,
    getModelConfigForFeature, bind, ret, tryCatch; cbn beta iota.
  rewrite Hm. cbn beta iota. rewrite Ho, Ha.
  destruct (callWithRetry' _ s1) as [[e|response] s2]; [reflexivity|].
  unfold classifyText. now rewrite trimmedOr_normalize.
Qed.

Lemma classify_http (segment fullPrompt : string) (s : State) (mc : CustomModel) :
  getModelById (s.(currentSettings).(api).(models) Classify)
               s.(currentSettings).(api).(customModels) = Some mc ->
  isOpenAICompatible mc.(provider) = true ->
  classifyPromptSegment segment fullPrompt s
  = match openAICall mc (classifyContents fullPrompt segment) (1 # 10)%Q false s with
    | (inr text, s2) => (inr (classifyText text), s2)
    | (inl _, s2) => (inr Other, s2)
    end.
Proof.
  intros Hm Ho.
  unfold classifyPromptSegment, getModelForFeature, requireModelConfig,
    getModelConfigForFeature, bind, ret, tryCatch; cbn beta iota.
  rewrite Hm. cbn beta iota. rewrite Ho.
  destruct (openAICall _ _ _ _ s) as [[e|text] s2]; [reflexivity|].
  unfold classifyText. now rewrite resultOr_normalize.
Qed.

End Paths.



End ClassifyClaims.

(** ** Full reconstruction *)

Module ReconstructClaims.
Import Types Service Spec ServiceScenario.
Local Open Scope service_scope.

(** C8, as stated, fails when Rewrite is routed to an OpenAI-compatible
    provider: the quota failure of the one POST is answered with the original
    document, and the configured flash model is never asked. *)
Lemma no_fallback_on_http_path :
  fst (fullRewrite deepSeekLimited) = inr document /\
  generatedModels (snd (fullRewrite deepSeekLimited)).(effects) = [] /\
  List.length (filter isNetworkCall (snd (fullRewrite deepSeekLimited)).(effects)) = 1 /\
  (snd (fullRewrite deepSeekLimited)).(world).(Mock.generateScript)
  = [inr (Some "Rewritten by flash.")] /\
  flashModelId rewriteOnDeepSeek.(api).(customModels) = "my-flash".
Proof. repeat split; reflexivity. Qed.

Section Paths.
Context {P : Platform} {T : Prompts}.

Lemma reconstruct_full_gemini (doc context : string) (locks : list string)
  (language : Language) (focus : option string) (s s1 : State) (mc : CustomModel)
  (ai : GoogleGenAI) :
  present focus = false ->
  getModelById (s.(currentSettings).(api).(models) Rewrite)
               s.(currentSettings).(api).(customModels) = Some mc ->
  isOpenAICompatible mc.(provider) = false ->
  getAiClient (Some (s.(currentSettings).(api).(models) Rewrite)) s = (inr ai, s1) ->
  reconstructPrompt doc context locks language focus s
  = let contents := fullContents context doc locks language in
    match callWithRetry' (rewriteId <- getModelForFeature Rewrite ;;
                          generateFor ai contents rewriteId) s1 with
    | (inr response, s2) => (inr (trimmedOr response (fun t => t) doc), s2)
    | (inl _, s2) =>
        match callWithRetry'
                (generateFor ai contents
                   (flashModelId s2.(currentSettings).(api).(customModels))) s2 with
        | (inr response, s3) => (inr (trimmedOr response (fun t => t) doc), s3)
        | (inl _, s3) => (inr doc, s3)
        end
    end.
Proof.
  intros Hf Hm Ho Ha.
  unfold reconstructPrompt.
  erewrite ServiceFacts.bind_inr by reflexivity.
  erewrite ServiceFacts.bind_inr by (apply ServiceFacts.requireModelConfig_found; exact Hm).
  rewrite Hf, Ho.
  erewrite ServiceFacts.bind_inr by exact Ha.
  unfold tryCatch, bind, getState; cbn beta iota zeta.
  destruct (callWithRetry' _ s1) as [[e|response] s2]; [|reflexivity].
  destruct (callWithRetry' _ s2) as [[e'|response] s3]; reflexivity.
Qed.

Lemma reconstruct_full_http (doc context : string) (locks : list string)
  (language : Language) (focus : option string) (s : State) (mc : CustomModel) :
  present focus = false ->
  getModelById (s.(currentSettings).(api).(models) Rewrite)
               s.(currentSettings).(api).(customModels) = Some mc ->
  isOpenAICompatible mc.(provider) = true ->
  reconstructPrompt doc context locks language focus s
  = match openAICall mc (fullContents context doc locks language) (7 # 10)%Q false s with
    | (inr result, s1) => (inr (resultOr result (fun t => t) doc), s1)
    | (inl _, s1) => (inr doc, s1)
    end.
Proof.
  intros Hf Hm Ho.
  unfold reconstructPrompt.
  erewrite ServiceFacts.bind_inr by reflexivity.
  erewrite ServiceFacts.bind_inr by (apply ServiceFacts.requireModelConfig_found; exact Hm).
  rewrite Hf, Ho. unfold tryCatch, bind, ret.
  destruct (openAICall _ _ _ _ s) as [[e|result] s1]; reflexivity.
Qed.

End Paths.

(** C8, amended.  In a full reconstruction routed to a Gemini model, the
    rewrite model is called under the retry policy; if that ends in an error,
    of whatever kind, the flash model (the first custom model whose name
    contains [flash], else the predefined [gemini-flash]) is called once under
    the retry policy, and if that ends in an error too the result is the
    original document: no provider error is thrown.  In a full reconstruction
    routed to an OpenAI-compatible provider there is no fallback: a failure of
    the one call gives the original document. *)
Theorem reconstruct_fallback_once :
  (forall (P : Platform) (T : Prompts) (doc context : string) (locks : list string)
          (language : Language) (focus : option string) (s : State) (mc : CustomModel),
      present focus = false ->
      getModelById (s.(currentSettings).(api).(models) Rewrite)
                   s.(currentSettings).(api).(customModels) = Some mc ->
      (isOpenAICompatible mc.(provider) = false ->
       forall ai s1,
         getAiClient (Some (s.(currentSettings).(api).(models) Rewrite)) s = (inr ai, s1) ->
         reconstructPrompt doc context locks language focus s
         = let contents := fullContents context doc locks language in
           match callWithRetry' (rewriteId <- getModelForFeature Rewrite ;;
                                 generateFor ai contents rewriteId) s1 with
           | (inr response, s2) => (inr (trimmedOr response (fun t => t) doc), s2)
           | (inl _, s2) =>
               match callWithRetry'
                       (generateFor ai contents
                          (flashModelId s2.(currentSettings).(api).(customModels))) s2 with
               | (inr response, s3) => (inr (trimmedOr response (fun t => t) doc), s3)
               | (inl _, s3) => (inr doc, s3)
               end
           end) /\
      (isOpenAICompatible mc.(provider) = true ->
       reconstructPrompt doc context locks language focus s
       = match openAICall mc (fullContents context doc locks language) (7 # 10)%Q false s with
         | (inr result, s1) => (inr (resultOr result (fun t => t) doc), s1)
         | (inl _, s1) => (inr doc, s1)
         end)) /\
  (fst (fullRewrite alwaysLimited) = inr document /\
   generatedModels (snd (fullRewrite alwaysLimited)).(effects)
   = (repeat GeminiPro 4 ++ repeat "gemini-2.5-flash" 4)%list /\
   delays (snd (fullRewrite alwaysLimited)).(effects)
   = [2000; 4000; 8000; 2000; 4000; 8000]%Z) /\
  (fst (fullRewrite refusedThenAnswered) = inr "Rewritten by flash." /\
   generatedModels (snd (fullRewrite refusedThenAnswered)).(effects) = [GeminiPro; GeminiFlash] /\
   delays (snd (fullRewrite refusedThenAnswered)).(effects) = []).
Proof.
  split; [|split; repeat split; reflexivity].
  intros P T doc context locks language focus s mc Hf Hm. split.
  - intros Ho ai s1 Ha. eapply reconstruct_full_gemini; eassumption.
  - intros Ho. eapply reconstruct_full_http; eassumption.
Qed.

(** The two paths on the examples: eight rate limits on the Gemini path, one
    on the HTTP path, and the document comes back. *)
Lemma reconstruct_fallback_examples :
  fst (fullRewrite alwaysLimited) = inr document /\
  fst (fullRewrite deepSeekLimited) = inr document.
Proof.
  destruct reconstruct_fallback_once as (H & _).
  split.
  - destruct (H Mock.platform Mock.prompts document "customer support bot"
                ["Answer briefly."] English None alwaysLimited _ eq_refl eq_refl)
      as (Hg & _).
    unfold fullRewrite. rewrite (Hg eq_refl _ _ eq_refl). reflexivity.
  - destruct (H Mock.platform Mock.prompts document "customer support bot"
                ["Answer briefly."] English None deepSeekLimited _ eq_refl eq_refl)
      as (_ & Hh).
    unfold fullRewrite. rewrite (Hh eq_refl). reflexivity.
Defined.

End ReconstructClaims.

(** ** The editor machine: what every run keeps *)

Module EditorInvariants.
Import Types Editor EditorView.

Lemma run_invariant (p : Props) (I : System -> Prop) :
  I (initialSystem p) ->
  (forall sys ev, I sys -> I (step p sys ev)) ->
  forall evs, I (run p evs).
Proof.
  intros H0 Hs evs. unfold run. generalize (initialSystem p) H0.
  induction evs as [|ev evs IH]; intros sys H; simpl; auto.
Qed.

(** *** The locks *)

Lemma step_locks (p : Props) (sys : System) (ev : Event) :
  LockChange sys.(ui).(lockedSegments) (step p sys ev).(ui).(lockedSegments).
Proof.
  destruct sys as [st l]. destruct ev; simpl;
    try (unfold updatePrompt, handleDeepScan, handleApplyFeedback, handleDismissFeedback,
           handleUndo, mentorTimer; simpl;
         repeat match goal with |- context [if ?b then _ else _] => destruct b end;
         simpl; now constructor).
  - unfold addLock. destruct (existsb _ _) eqn:E; simpl; [constructor|].
    now constructor.
  - unfold settle; simpl.
    destruct (nth_error l i) as [[]|]; destruct a; simpl; try constructor;
      unfold deepScanSettled, applyFeedbackSettled, globalReconstructSettled,
        partialReconstructSettled, dismissFeedbackSettled, mentorSettled, classified;
      try (destruct r as [f|]; [try destruct (present f)|]); simpl; constructor.
Qed.

Lemma filter_text_NoDup (f : LockedSegment -> bool) (l : list LockedSegment) :
  NoDup (map text l) -> NoDup (map text (filter f l)).
Proof.
  induction l as [|x l IH]; simpl; intros H; [constructor|].
  inversion H as [|? ? Hx Hl]; subst.
  destruct (f x); simpl; auto.
  constructor; auto. intros Hin. apply Hx.
  apply in_map_iff in Hin as (y & Hy & Hin). apply filter_In in Hin as [Hin _].
  rewrite <- Hy. now apply in_map.
Qed.

Lemma LockChange_NoDup (l l' : list LockedSegment) :
  LockChange l l' -> NoDup (map text l) -> NoDup (map text l').
Proof.
  intros [|segment newId H|id|id p] Hl; auto.
  - rewrite map_app; simpl.
    apply NoDup_app; auto.
    + constructor; [intros []|constructor].
    + intros x Hin [<-|[]].
      apply in_map_iff in Hin as (y & Hy & Hin).
      assert (E : existsb (fun s => text s =? text y) l = true).
      { apply existsb_exists. exists y. split; auto. now apply String.eqb_eq. }
      rewrite Hy in E. congruence.
  - now apply filter_text_NoDup.
  - rewrite map_map.
    erewrite map_ext; [exact Hl|]. intros s. now destruct (lid s =? id).
Qed.

(** X8.  In every run of the editor, whatever the events and the answers of
    the service, no two locks hold the same text. *)
Theorem lock_texts_unique (p : Props) (evs : list Event) :
  NoDup (lockTexts (run p evs).(ui)).
Proof.
  unfold lockTexts.
  apply run_invariant with (I := fun sys => NoDup (map text sys.(ui).(lockedSegments))).
  - constructor.
  - intros sys ev H. exact (LockChange_NoDup (step_locks p sys ev) H).
Qed.

(** *** The classification loop *)

Lemma classifying_app (l1 l2 : list Pending) :
  classifying (l1 ++ l2) = (classifying l1 ++ classifying l2)%list.
Proof. apply flat_map_app. Qed.

Lemma classifying_others (l : list Pending) :
  classifying (filter (fun q => negb (isClassify q)) l) = [].
Proof.
  induction l as [|q l IH]; simpl; auto.
  destruct q; simpl; auto.
Qed.

Lemma classifying_removeAt (l : list Pending) (i : nat) (q : Pending) :
  nth_error l i = Some q -> isClassify q = false ->
  classifying (removeAt i l) = classifying l.
Proof.
  intros Hn Hq. unfold removeAt.
  rewrite <- (firstn_skipn i l) at 3.
  rewrite !classifying_app. f_equal.
  revert l Hn. induction i as [|i IH]; intros [|x l] Hn; simpl in *; try discriminate.
  - injection Hn as ->. now destruct q.
  - now apply IH.
Qed.

Lemma relock_classifying (locks : list LockedSegment) (sys : System) :
  classifying (relock locks sys).(inflight)
  = firstPending (relock locks sys).(ui).(lockedSegments).
Proof.
  unfold relock, firstPending; simpl.
  rewrite classifying_app, classifying_others. simpl.
  destruct (find isPendingLock locks); reflexivity.
Qed.

(** An event leaves the locks and the classification requests alone, or it
    restarts the classification loop. *)
Lemma step_classifying (p : Props) (sys : System) (ev : Event) :
  ((step p sys ev).(ui).(lockedSegments) = sys.(ui).(lockedSegments) /\
   classifying (step p sys ev).(inflight) = classifying sys.(inflight))
  \/ classifying (step p sys ev).(inflight)
     = firstPending (step p sys ev).(ui).(lockedSegments).
Proof.
  destruct sys as [st l]. destruct ev; simpl;
    try (left; unfold issue, updatePrompt, handleDeepScan, handleApplyFeedback,
           handleDismissFeedback, handleUndo, handleGlobalReconstruct,
           handlePartialReconstruct, mentorTimer; simpl;
         repeat match goal with |- context [if ?b then _ else _] => destruct b end;
         simpl; rewrite ?classifying_app; simpl; rewrite ?app_nil_r; now split).
  - unfold addLock. destruct (existsb _ _); simpl; [now left|].
    right. exact (relock_classifying _ {| ui := st; inflight := l |}).
  - right. exact (relock_classifying (removeLock lockId st) {| ui := st; inflight := l |}).
  - unfold settle; simpl.
    destruct (nth_error l i) as [q|] eqn:E; [|now left].
    destruct q, a; simpl; try (now left);
      try (left; split;
           [ unfold deepScanSettled, applyFeedbackSettled, globalReconstructSettled,
               partialReconstructSettled, dismissFeedbackSettled, mentorSettled;
             try (destruct r as [f|]; [try destruct (present f)|]); reflexivity
           | now apply (classifying_removeAt _ _ E) ]).
    right. exact (relock_classifying (classified segmentId r st)
                    {| ui := st; inflight := removeAt i l |}).
Qed.

(** X9.  In every run, the classification requests in flight are: none when
    no lock waits for its pillar, and otherwise exactly one, for the first
    lock that waits. *)
Theorem one_classification_in_flight (p : Props) (evs : list Event) :
  classifying (run p evs).(inflight) = firstPending (run p evs).(ui).(lockedSegments).
Proof.
  apply run_invariant
    with (I := fun sys => classifying sys.(inflight) = firstPending sys.(ui).(lockedSegments)).
  - reflexivity.
  - intros sys ev H. destruct (step_classifying p sys ev) as [[H1 H2]|H1]; auto.
    now rewrite H1, H2.
Qed.

(** *** The [isProcessing] flag *)

Lemma busy_app (l1 l2 : list Pending) :
  existsb isBusyOperation (l1 ++ l2)
  = existsb isBusyOperation l1 || existsb isBusyOperation l2.
Proof. apply existsb_app. Qed.

Lemma busy_removeAt (l : list Pending) (i : nat) (q : Pending) :
  nth_error l i = Some q -> isBusyOperation q = false ->
  existsb isBusyOperation (removeAt i l) = existsb isBusyOperation l.
Proof.
  intros Hn Hq. unfold removeAt.
  rewrite <- (firstn_skipn i l) at 3.
  rewrite !busy_app. f_equal.
  revert l Hn. induction i as [|i IH]; intros [|x l] Hn; simpl in *; try discriminate.
  - injection Hn as ->. now rewrite Hq.
  - now apply IH.
Qed.

Lemma busy_others (l : list Pending) :
  existsb isBusyOperation (filter (fun q => negb (isClassify q)) l)
  = existsb isBusyOperation l.
Proof.
  induction l as [|q l IH]; simpl; auto.
  destruct q; simpl; auto; now rewrite IH.
Qed.

Lemma relock_busy (locks : list LockedSegment) (sys : System) :
  existsb isBusyOperation (relock locks sys).(inflight)
  = existsb isBusyOperation sys.(inflight).
Proof.
  unfold relock; simpl. rewrite busy_app, busy_others.
  destruct (find isPendingLock locks); simpl; now rewrite orb_false_r.
Qed.

Lemma step_owned (p : Props) (sys : System) (ev : Event) :
  owned sys -> owned (step p sys ev).
Proof.
  unfold owned. destruct sys as [st l]. destruct ev; simpl; intros H;
    try (unfold issue, updatePrompt, handleDeepScan, handleApplyFeedback,
           handleDismissFeedback, handleUndo, handleGlobalReconstruct,
           handlePartialReconstruct, mentorTimer; simpl;
         repeat match goal with |- context [if ?b then _ else _] => destruct b eqn:? end;
         simpl in *; rewrite ?busy_app; simpl; rewrite ?orb_true_r, ?orb_false_r;
         solve [auto | intros; auto | congruence]).
  - unfold addLock.
    destruct (existsb (fun s => text s =? segment) _); simpl; auto.
    intros Hb. rewrite <- (H Hb).
    exact (relock_busy _ {| ui := st; inflight := l |}).
  - intros Hb. rewrite <- (H Hb).
    exact (relock_busy (removeLock lockId st) {| ui := st; inflight := l |}).
  - unfold settle; simpl.
    destruct (nth_error l i) as [q|] eqn:E; [|exact H].
    destruct q, a; simpl; try exact H; try discriminate.
    + unfold dismissFeedbackSettled. intros Hb.
      rewrite (busy_removeAt _ _ E eq_refl). apply H.
      destruct r as [f|]; [destruct (present f)|]; exact Hb.
    + unfold mentorSettled. intros Hb.
      rewrite (busy_removeAt _ _ E eq_refl). apply H.
      destruct r as [f|]; [destruct (present f)|]; exact Hb.
    + intros Hb.
      transitivity (existsb isBusyOperation (removeAt i l)).
      * exact (relock_busy (classified segmentId r st)
                 {| ui := st; inflight := removeAt i l |}).
      * rewrite (busy_removeAt _ _ E eq_refl). now apply H.
Qed.

(** X10.  In every run, while [isProcessing] is set one of the four
    operations that set it is still in flight: the flag is never left set with
    nothing to clear it, whether the requests resolve or reject. *)
Theorem busy_flag_has_owner (p : Props) (evs : list Event) :
  (run p evs).(ui).(isProcessing) = true ->
  existsb isBusyOperation (run p evs).(inflight) = true.
Proof.
  apply run_invariant with (I := owned).
  - discriminate.
  - intros sys ev. apply step_owned.
Qed.

Lemma busy_flag_has_owner_scanning :
  (run EditorScenario.supportBot [HandleDeepScan; MentorTimer; AddLock "Answer briefly." "17"])
    .(ui).(isProcessing) = true /\
  existsb isBusyOperation
    (run EditorScenario.supportBot [HandleDeepScan; MentorTimer; AddLock "Answer briefly." "17"])
      .(inflight) = true.
Proof.
  split; [reflexivity|].
  apply (busy_flag_has_owner EditorScenario.supportBot
           [HandleDeepScan; MentorTimer; AddLock "Answer briefly." "17"]).
  reflexivity.
Defined.

(** *** The mentor *)

Lemma present_nonempty (o : option string) : present o = true -> orEmpty o <> "".
Proof.
  destruct o as [s|]; simpl; [|discriminate].
  intros H. apply String.eqb_neq. now apply negb_true_iff.
Qed.

Lemma step_feedback (p : Props) (sys : System) (ev : Event) :
  sys.(ui).(feedback) <> "" -> (step p sys ev).(ui).(feedback) <> "".
Proof.
  destruct sys as [st l]. destruct ev; simpl; intros H;
    try (unfold updatePrompt, handleDeepScan, handleApplyFeedback,
           handleDismissFeedback, handleUndo, mentorTimer; simpl;
         repeat match goal with |- context [if ?b then _ else _] => destruct b end;
         simpl; exact H).
  - unfold addLock. destruct (existsb _ _); exact H.
  - unfold settle; simpl.
    destruct (nth_error l i) as [q|]; [|exact H].
    destruct q, a; simpl; try exact H;
      unfold deepScanSettled, applyFeedbackSettled, globalReconstructSettled,
        partialReconstructSettled, dismissFeedbackSettled, mentorSettled;
      try (destruct r as [f|]; [try destruct (present f) eqn:Hf|]); simpl;
      try exact H; try (now apply present_nonempty).
    destruct (language p); discriminate.
Qed.

(** X11.  In every run the feedback shown is a text that is not empty, so the
    [feedback] guards of the two feedback handlers never fire: a dismissal
    always records the feedback and asks the mentor again, busy or not. *)
Theorem feedback_never_empty (p : Props) (evs : list Event) :
  (run p evs).(ui).(feedback) <> "" /\
  snd (handleDismissFeedback (run p evs).(ui))
  = Some (PendingDismiss (run p evs).(ui).(prompt)
            ((run p evs).(ui).(ignoredFeedbackHistory) ++ [(run p evs).(ui).(feedback)])%list).
Proof.
  assert (H : (run p evs).(ui).(feedback) <> "").
  { apply run_invariant with (I := fun sys => sys.(ui).(feedback) <> "").
    - simpl. destruct (language p); discriminate.
    - intros sys ev. apply step_feedback. }
  split; auto. unfold handleDismissFeedback.
  apply String.eqb_neq in H. now rewrite H.
Qed.

(** X12.  The mentor timer that fires again on an unchanged editor does
    nothing: the mentor is asked at most once for a version of the document. *)
Theorem mentor_once_per_document (p : Props) (sys : System) :
  step p (step p sys MentorTimer) MentorTimer = step p sys MentorTimer.
Proof.
  destruct sys as [st l]. unfold step, handle, sync, issue, mentorTimer; simpl.
  destruct (negb (prompt st =? lastFeedbackPrompt st)
            && (10 <? String.length (prompt st))%nat
            && negb (isProcessing st)) eqn:E; simpl.
  - rewrite String.eqb_refl; simpl. now rewrite app_nil_r.
  - rewrite E; simpl. now rewrite !app_nil_r.
Qed.

End EditorInvariants.

(** ** Partial rewrites, from the selection to the splice *)

Module StageFacts.
Import Types Editor Stage.

Lemma take_app_length (a x : string) : Js.take (String.length a) (a ++ x) = a.
Proof. induction a as [|c a IH]; simpl; [now destruct x | now rewrite IH]. Qed.

Lemma drop_app_length (a x : string) : Js.drop (String.length a) (a ++ x) = x.
Proof. induction a as [|c a IH]; simpl; auto. Qed.

Lemma append_assoc (a b c : string) : (a ++ b) ++ c = a ++ b ++ c.
Proof. induction a as [|x a IH]; simpl; [reflexivity | now rewrite IH]. Qed.

Lemma append_nil_r (a : string) : a ++ "" = a.
Proof. induction a as [|x a IH]; simpl; [reflexivity | now rewrite IH]. Qed.

Lemma substring2_middle (a sel b : string) :
  Js.substring2 (String.length a) (String.length a + String.length sel) (a ++ sel ++ b)
  = sel.
Proof.
  unfold Js.substring2.
  rewrite Nat.min_l, Nat.max_r by lia.
  rewrite drop_app_length.
  replace (String.length a + String.length sel - String.length a)
    with (String.length sel) by lia.
  apply take_app_length.
Qed.

Lemma substring2_head (a x : string) : Js.substring2 0 (String.length a) (a ++ x) = a.
Proof.
  unfold Js.substring2. rewrite Nat.min_l, Nat.max_r by lia. simpl.
  rewrite Nat.sub_0_r. apply take_app_length.
Qed.

Lemma drop_tail (a sel b : string) :
  Js.drop (String.length a + String.length sel) (a ++ sel ++ b) = b.
Proof.
  rewrite <- JsFacts.append_length, <- append_assoc. apply drop_app_length.
Qed.

(** X13.  When the user selects [sel] in the document [a ++ sel ++ b] and asks
    for a partial rewrite, the service is sent the selection trimmed, and its
    answer is written over the whole selected range: the text before and after
    the range is kept, the blanks at the two ends of the selection are not. *)
Theorem partial_rewrite_splice (st : EditorState) (a sel b : string)
  (held : option SelectionRange) :
  st.(prompt) = a ++ sel ++ b ->
  present st.(activeSuggestionId) = false ->
  Js.trim sel <> "" ->
  let first := String.length a in
  let last := String.length a + String.length sel in
  onPartialReconstruct (handleTextSelection st first last held)
  = [HandlePartialReconstruct (Js.trim sel) first last] /\
  snd (handlePartialReconstruct (Js.trim sel) first last st)
  = Some (PendingPartial (a ++ sel ++ b) (lockTexts st) first last (Js.trim sel)) /\
  forall (rewritten : string) (st' : EditorState),
    (partialReconstructSettled (a ++ sel ++ b) first last (Some rewritten) st').(prompt)
    = a ++ rewritten ++ b.
Proof.
  intros Hp Ha Ht first last. repeat split.
  - unfold handleTextSelection. rewrite Ha, Hp.
    unfold first, last. rewrite substring2_middle.
    destruct (Js.trim sel) eqn:E; [congruence|]. reflexivity.
  - unfold handlePartialReconstruct; simpl. now rewrite Hp.
  - intros rewritten st'. unfold partialReconstructSettled; simpl.
    unfold first, last. now rewrite substring2_head, drop_tail.
Qed.

(** The rewrite fails and the service answers with the text it was sent: the
    two blanks around the sentence are gone from the document. *)
Lemma partial_rewrite_splice_report :
  (partialReconstructSettled "Summarize the report. Be brief." 9 22
     (Some "the report.") EdgeScenario.report).(prompt)
  = "Summarizethe report.Be brief.".
Proof.
  exact (proj2 (proj2 (partial_rewrite_splice EdgeScenario.report
                         "Summarize" " the report. " "Be brief." None
                         eq_refl eq_refl ltac:(discriminate)))
           "the report." EdgeScenario.report).
Defined.

End StageFacts.

(** ** The service: rejections, fallbacks and the cached client *)

Module ServiceEdges.
Import Types Service ServiceView.
Local Open Scope service_scope.

Section Rejections.
Context {P : Platform} {T : Prompts}.

Lemma getAiClient_untouched (modelId : option string) (s s' : State) (e : JsError) :
  getAiClient modelId s = (inl e, s') -> s' = s.
Proof.
  unfold getAiClient.
  repeat match goal with
         | |- context [if ?b then _ else _] => destruct b
         | |- context [match ?x with _ => _ end] => destruct x
         end; intros H; inversion H; reflexivity.
Qed.

Lemma getAiClient_world (modelId : option string) (s s1 : State) (ai : GoogleGenAI) :
  getAiClient modelId s = (inr ai, s1) -> s1.(world) = s.(world).
Proof.
  unfold getAiClient.
  repeat match goal with
         | |- context [if ?b then _ else _] => destruct b
         | |- context [match ?x with _ => _ end] => destruct x
         end; intros H; inversion H; reflexivity.
Qed.

Lemma tryCatch_resolves {A} (m : M A) (h : JsError -> M A) :
  (forall e s, exists v s', h e s = (inr v, s')) ->
  forall s, exists v s', tryCatch m h s = (inr v, s').
Proof.
  intros Hh s. unfold tryCatch. destruct (m s) as [[e|a] s1]; eauto.
Qed.

Lemma ret_resolves {A} (x : A) (s : State) : exists v s', ret x s = (inr v, s').
Proof. unfold ret. eauto. Qed.

Lemma resolves_not_inl {A} (m : M A) (s s' : State) (e : JsError) :
  (exists v s1, m s = (inr v, s1)) -> m s = (inl e, s') -> False.
Proof. intros (v & s1 & ->). discriminate. Qed.

(** The common shape of the editor operations: the model of the feature, then
    the HTTP branch, or a Gemini client and the Gemini branch; each branch is
    a [try] whose [catch] resolves. *)
Ltac untouched :=
  intros s e s';
  unfold bind at 1; unfold getModelForFeature at 1;
  unfold bind at 1; unfold requireModelConfig, getModelConfigForFeature, bind at 1, ret, throw;
  cbn beta iota zeta;
  destruct (getModelById _ _) as [mc|]; [|intros H; now inversion H];
  repeat match goal with
         | |- context [if present ?f then _ else _] => destruct (present f)
         end;
  (destruct (isOpenAICompatible (provider mc));
   [ intros H; exfalso; revert H; apply resolves_not_inl;
     repeat (apply tryCatch_resolves; intros); apply ret_resolves
   | unfold bind at 1;
     destruct (getAiClient _ s) as [[e1|ai] s1] eqn:G;
     [ intros H; inversion H; subst; eapply getAiClient_untouched; eassumption
     | intros H; exfalso; revert H; apply resolves_not_inl;
       repeat (apply tryCatch_resolves; intros); apply ret_resolves ] ]).

(** X14.  An editor operation of the service that rejects has done nothing:
    it made no call to a provider, waited for nothing and wrote none of the
    module's variables.  Whatever goes wrong once a call is made is caught,
    and the operation resolves. *)
Theorem operations_reject_untouched (currentPrompt context feedback segment : string)
  (language : Language) (ignored locks : list string) (focus : option string) :
  rejectsUntouched (reverseEngineerContext currentPrompt language) /\
  rejectsUntouched (getMentorFeedback currentPrompt context language ignored) /\
  rejectsUntouched (applySpecificFeedback currentPrompt context feedback locks language) /\
  rejectsUntouched (getDetailedCritique currentPrompt context language) /\
  rejectsUntouched (classifyPromptSegment segment currentPrompt) /\
  rejectsUntouched (reconstructPrompt currentPrompt context locks language focus).
Proof.
  repeat split.
  - unfold reverseEngineerContext. untouched.
  - unfold getMentorFeedback. untouched.
  - unfold applySpecificFeedback. untouched.
  - unfold getDetailedCritique. untouched.
  - unfold classifyPromptSegment. untouched.
  - unfold reconstructPrompt. untouched.
Qed.

End Rejections.

Section Down.
Context {P : Platform} {T : Prompts}.

Variable down : World -> Prop.
Hypothesis generate_down : forall ai req w, down w ->
  exists e w', generateContent ai req w = (inl e, w') /\ down w'.
Hypothesis fetch_down : forall req w, down w ->
  exists e w', fetch req w = (inl e, w') /\ down w'.

Lemma generate_failsDown (ai : GoogleGenAI) (req : GenerateRequest) :
  failsDown down (generate ai req).
Proof.
  intros s H. unfold generate, perform. cbn.
  destruct (generate_down ai req H) as (e & w' & -> & Hw). eauto.
Qed.

Lemma openAICall_failsDown (mc : CustomModel) (contents : string) (temp : Q) (json : bool) :
  failsDown down (openAICall mc contents temp json).
Proof.
  intros s H. unfold openAICall, bind at 1, getState, callOpenAICompatible, bind, perform. cbn.
  match goal with
  | |- context [fetch ?r ?w] => destruct (fetch_down r H) as (e & w' & -> & Hw)
  end.
  eauto.
Qed.

Lemma callWithRetry_failsDown {A} (apiCall : M A) (retries : nat) (initialDelay : Z) :
  failsDown down apiCall -> failsDown down (callWithRetry apiCall retries initialDelay).
Proof.
  intros Hc. revert initialDelay.
  induction retries as [|r IH]; intros d s H; simpl; unfold tryCatch;
    destruct (Hc s H) as (e & s1 & -> & H1).
  - destruct (isQuotaError e); unfold throw; eauto.
  - destruct (isQuotaError e); [|unfold throw; eauto].
    unfold bind, wait. apply IH. exact H1.
Qed.

Lemma generateFor_failsDown (ai : GoogleGenAI) (contents modelId : string) :
  failsDown down (generateFor ai contents modelId).
Proof.
  intros s H. unfold generateFor, bind, getState. now apply generate_failsDown.
Qed.

Lemma bind_failsDown {A B} (m : M A) (k : A -> M B) :
  failsDown down m -> failsDown down (bind m k).
Proof.
  intros Hm s H. unfold bind. destruct (Hm s H) as (e & s1 & -> & H1). eauto.
Qed.

Lemma bind_read_failsDown {A B} (m : M A) (k : A -> M B) :
  (forall s, exists a, m s = (inr a, s)) -> (forall a, failsDown down (k a)) ->
  failsDown down (bind m k).
Proof.
  intros Hm Hk s H. unfold bind. destruct (Hm s) as (a & ->). now apply Hk.
Qed.

Lemma getState_reads (s : State) : exists a, getState s = (inr a, s).
Proof. unfold getState. eauto. Qed.

Lemma getModelForFeature_reads (feature : FeatureType) (s : State) :
  exists a, getModelForFeature feature s = (inr a, s).
Proof. unfold getModelForFeature. eauto. Qed.

Lemma caught {A} (m : M A) (h : JsError -> M A) (s : State) :
  failsDown down m -> down s.(world) ->
  exists e s1, tryCatch m h s = h e s1 /\ down s1.(world).
Proof.
  intros Hm H. unfold tryCatch. destruct (Hm s H) as (e & s1 & -> & H1). eauto.
Qed.

Ltac failing :=
  repeat first
    [ apply callWithRetry_failsDown
    | apply generate_failsDown
    | apply generateFor_failsDown
    | apply openAICall_failsDown
    | apply bind_read_failsDown;
      [ first [ exact getState_reads | apply getModelForFeature_reads ] | intros ]
    | apply bind_failsDown ].

(** Every [try] of the goal fails and is caught. *)
Ltac catching :=
  repeat match goal with
         | |- context [tryCatch ?m ?h ?s] =>
             let e := fresh "e" in let s1 := fresh "s" in
             let E := fresh "E" in let H1 := fresh "H" in
             destruct (@caught _ m h s) as (e & s1 & E & H1);
             [ unfold callWithRetry'; failing | assumption | rewrite E; clear E ];
             cbn beta
         end.

Ltac fallen :=
  intros s H;
  unfold bind at 1; unfold getModelForFeature at 1;
  unfold bind at 1; unfold requireModelConfig, getModelConfigForFeature, bind at 1, ret, throw;
  cbn beta iota zeta;
  destruct (getModelById _ _) as [mc|]; [|reflexivity];
  cbn beta iota zeta;
  repeat match goal with
         | Hp : present ?f = _ |- context [present ?f] => rewrite Hp
         end;
  cbn [present]; cbn iota;
  (destruct (isOpenAICompatible (provider mc));
   [ | unfold bind at 1; cbn beta;
       destruct (getAiClient _ s) as [[e1|ai] s1] eqn:G;
       [ eapply getAiClient_untouched; eassumption
       | assert (H1 : down (world s1)) by (rewrite (getAiClient_world _ _ G); exact H) ] ]);
  catching; cbn; auto.

(** X15.  While the providers are out of reach, each editor operation that
    gets as far as calling one resolves to its fallback: the document it was
    given, the segment it was given, no tip, no suggestion, or a fixed text. *)
Theorem operations_fall_back (currentPrompt context feedback : string)
  (language : Language) (ignored locks : list string) (focus : string) :
  focus <> "" ->
  fallsBackTo down (reverseEngineerContext currentPrompt language)
    [ "Context inferred from original prompt.";
      "User provided prompt directly. Focus on clarity and structure." ] /\
  fallsBackTo down (getMentorFeedback currentPrompt context language ignored) [None] /\
  fallsBackTo down (applySpecificFeedback currentPrompt context feedback locks language)
    [currentPrompt] /\
  fallsBackTo down (getDetailedCritique currentPrompt context language) [ [] ] /\
  fallsBackTo down (reconstructPrompt currentPrompt context locks language None)
    [currentPrompt] /\
  fallsBackTo down (reconstructPrompt currentPrompt context locks language (Some focus))
    [focus].
Proof.
  intros Hf. repeat split.
  - unfold reverseEngineerContext. fallen.
  - unfold getMentorFeedback. fallen.
  - unfold applySpecificFeedback. fallen.
  - unfold getDetailedCritique. fallen.
  - unfold reconstructPrompt. fallen.
  - assert (Hp : present (Some focus) = true)
      by (simpl; apply String.eqb_neq in Hf; now rewrite Hf).
    unfold reconstructPrompt. fallen.
Qed.

End Down.

(** With the scripts of the two endpoints empty, every call fails. *)
Lemma operations_fall_back_unreachable :
  fallsBackTo (P := Mock.platform) EdgeScenario.unreachable
    (applySpecificFeedback (T := Mock.prompts)
       "Summarize the report." "analyst" "Add a persona." [] English)
    ["Summarize the report."] /\
  fallsBackTo (P := Mock.platform) EdgeScenario.unreachable
    (reconstructPrompt (T := Mock.prompts)
       "Summarize the report." "analyst" [] English (Some "the report."))
    ["the report."].
Proof.
  assert (Hg : forall ai req w, EdgeScenario.unreachable w ->
            exists e w', @generateContent Mock.platform ai req w = (inl e, w')
                         /\ EdgeScenario.unreachable w').
  { intros ai req w [H1 H2]. exists Mock.offline, w.
    simpl. unfold Mock.popGenerate. rewrite H1. now repeat split. }
  assert (Hf : forall req w, EdgeScenario.unreachable w ->
            exists e w', @fetch Mock.platform req w = (inl e, w')
                         /\ EdgeScenario.unreachable w').
  { intros req w [H1 H2]. exists Mock.offline, w.
    simpl. unfold Mock.popFetch. rewrite H2. now repeat split. }
  assert (Hn : "the report." <> "") by discriminate.
  pose proof (@operations_fall_back Mock.platform Mock.prompts EdgeScenario.unreachable
                Hg Hf "Summarize the report." "analyst" "Add a persona." English [] []
                "the report." Hn) as H.
  split; [exact (proj1 (proj2 (proj2 H))) | exact (proj2 (proj2 (proj2 (proj2 (proj2 H)))))].
Defined.

Section Client.
Context {P : Platform}.

(** X16.  The cached Gemini client outlives the key it was made for: once a
    model with a key of its own has been served, a model that resolves to the
    provider's key is served by the same client, so its request carries the
    other model's key. *)
Theorem cached_client_outlives_key (s : State) (id1 id2 : string) (m1 m2 : CustomModel) :
  let settings := s.(currentSettings) in
  let key1 := getApiKeyForModel m1 settings in
  id1 <> "" -> id2 <> "" ->
  getModelById id1 settings.(api).(customModels) = Some m1 -> isGeminiModel m1 = true ->
  getModelById id2 settings.(api).(customModels) = Some m2 -> isGeminiModel m2 = true ->
  key1 <> "" -> key1 <> settings.(api).(geminiApiKey) ->
  getApiKeyForModel m2 settings = settings.(api).(geminiApiKey) ->
  settings.(api).(geminiApiKey) <> "" ->
  exists s1 s2,
    getAiClient (Some id1) s = (inr {| clientKey := key1 |}, s1) /\
    getAiClient (Some id2) s1 = (inr {| clientKey := key1 |}, s2).
Proof.
  intros settings key1 Hi1 Hi2 Hm1 Hg1 Hm2 Hg2 Hk1 Hne Hk2 Hg.
  apply String.eqb_neq in Hi1, Hi2, Hk1, Hg.
  assert (Hne' : (geminiApiKey (api settings) =? key1) = false).
  { apply String.eqb_neq. congruence. }
  exists (setAiClient (Some {| clientKey := key1 |}) s),
         (setAiClient (Some {| clientKey := key1 |}) s).
  split.
  - unfold getAiClient. simpl. rewrite Hi1. simpl. fold settings.
    rewrite Hm1, Hg1. fold key1. rewrite Hk1, Hne'. simpl.
    now destruct (aiClient s).
  - unfold getAiClient. simpl. rewrite Hi2. simpl. fold settings.
    rewrite Hm2, Hg2, Hk2, Hg, String.eqb_refl. reflexivity.
Qed.

End Client.

(** The mentor's model has the key [model-key]; the flash model, which has
    none, is then served with it instead of [provider-key]. *)
Lemma cached_client_outlives_key_mentor :
  exists s1 s2,
    getAiClient (P := Mock.platform) (Some "my-gemini") EdgeScenario.ownKeyStart
    = (inr {| clientKey := "model-key" |}, s1) /\
    getAiClient (P := Mock.platform) (Some "gemini-flash") s1
    = (inr {| clientKey := "model-key" |}, s2).
Proof.
  apply (@cached_client_outlives_key Mock.platform EdgeScenario.ownKeyStart
           "my-gemini" "gemini-flash" ServiceScenario.keyedModel
           (nth 1 PREDEFINED_MODELS ServiceScenario.keyedModel));
    solve [reflexivity | discriminate].
Defined.

(** *** The interview session *)

Section Interview.
Context {P : Platform} {T : Prompts}.

Lemma getAiClient_default (s : State) :
  exists ai s1, getAiClient None s = (inr ai, s1) /\
    s1.(effects) = s.(effects) /\
    s1.(currentSettings) = s.(currentSettings) /\
    s1.(deepseekChatHistory) = s.(deepseekChatHistory).
Proof.
  unfold getAiClient; simpl. destruct (aiClient s); eexists _, _; repeat split.
Qed.

(** What a turn of an interview held over HTTP comes to. *)
Lemma http_turn (s : State) (mc : CustomModel) (msg : string) (language : Language) :
  s.(deepseekChatHistory) <> [] ->
  getModelById (s.(currentSettings).(api).(models) Interview)
               s.(currentSettings).(api).(customModels) = Some mc ->
  let history := (s.(deepseekChatHistory) ++ [ {| role := "user"; content := msg |} ])%list in
  let req := interviewRequest mc s.(currentSettings) history in
  let sent := setHistory history s in
  sendInterviewMessage msg language s
  = match fetch req s.(world) with
    | (inl e, w) => (inl e, setWorld w (emit (EFetch req) sent))
    | (inr resp, w) =>
        let s3 := setWorld w (emit (EFetch req) sent) in
        if negb resp.(ok) then
          (inl (newError ("API Request Failed (" ++ showStatus resp.(httpStatus) ++ "): "
                          ++ resp.(body))), s3)
        else
          match resp.(data) with
          | None => (inl (newError "SyntaxError"), s3)
          | Some Js.Null | Some Js.Undefined => (inl (newError "TypeError"), s3)
          | Some d =>
              (inr (parseInterviewResponse (contentOf d)),
               setHistory (history ++ [ {| role := "assistant"; content := contentOf d |} ]) s3)
          end
    end.
Proof.
  intros Hh Hm history req sent.
  destruct (deepseekChatHistory s) as [|m0 h0] eqn:Eh; [congruence|].
  unfold sendInterviewMessage.
  unfold bind at 1, getState at 1. cbn beta iota zeta.
  rewrite Eh.
  unfold bind at 1.
  replace (match interviewChatSession s with
           | Some _ => ret tt
           | None => ret tt
           end s) with (@inr JsError unit tt, s) by now destruct (interviewChatSession s).
  unfold bind at 1, getState at 1. cbn beta iota zeta. rewrite Eh.
  unfold bind at 1. unfold bind at 1, getModelConfigForFeature at 1. cbn beta iota zeta.
  rewrite Hm.
  unfold bind at 1, pushHistory at 1. cbn beta iota zeta.
  unfold bind at 1, getState at 1. cbn beta iota zeta.
  unfold bind at 1, callOpenAICompatible, bind at 1, perform. cbn beta iota zeta.
  cbn [deepseekChatHistory setHistory world emit effects currentSettings].
  rewrite Eh. fold history.
  change {| url := endpointOf mc; bearer := getApiKeyForModel mc (currentSettings s);
            hModel := modelName mc; messages := history;
            hTemperature := (6 # 10)%Q; jsonMode := true |} with req.
  destruct (fetch req (world s)) as [[e|resp] w]; [reflexivity|].
  destruct (ok resp); cbn; [|reflexivity].
  destruct (data resp) as [[]|]; reflexivity.
Qed.

(** X17.  A turn of an interview held over HTTP makes one POST, with the
    history and the user's message.  The message is added to the history
    before the call and stays there when the call fails, so a second try
    sends it twice; the reply is added when the call succeeds. *)
Theorem http_turn_keeps_user_message (s : State) (mc : CustomModel) (msg : string)
  (language : Language) :
  s.(deepseekChatHistory) <> [] ->
  getModelById (s.(currentSettings).(api).(models) Interview)
               s.(currentSettings).(api).(customModels) = Some mc ->
  let history := (s.(deepseekChatHistory) ++ [ {| role := "user"; content := msg |} ])%list in
  let out := sendInterviewMessage msg language s in
  (snd out).(effects)
  = (s.(effects) ++ [EFetch (interviewRequest mc s.(currentSettings) history)])%list /\
  match fst out with
  | inl _ => (snd out).(deepseekChatHistory) = history
  | inr _ => exists text,
      (snd out).(deepseekChatHistory)
      = (history ++ [ {| role := "assistant"; content := text |} ])%list
  end.
Proof.
  intros Hh Hm history out. unfold out.
  rewrite (@http_turn s mc msg language Hh Hm). fold history.
  destruct (fetch _ (world s)) as [[e|resp] w]; [now split|].
  cbn zeta. destruct (ok resp); cbn; [|now split].
  destruct (data resp) as [[]|]; cbn; split; eauto.
Qed.

(** X18.  An interview restarted on a Gemini model while the history of an
    HTTP interview is still there keeps that history next to the new chat
    session, and the next message goes out as a POST with the old history and
    the Gemini model's name, not through the chat session. *)
Theorem restart_on_gemini_keeps_http_history (s : State) (mc : CustomModel)
  (msg : string) (language : Language) :
  s.(deepseekChatHistory) <> [] ->
  getModelById (s.(currentSettings).(api).(models) Interview)
               s.(currentSettings).(api).(customModels) = Some mc ->
  isOpenAICompatible mc.(provider) = false ->
  exists ai s1,
    startInterviewSession language s = (inr tt, s1) /\
    s1.(interviewChatSession)
    = Some {| chatClient := ai; chatModel := mc.(modelName);
              chatInstruction := systemInstruction (langName language) |} /\
    s1.(deepseekChatHistory) = s.(deepseekChatHistory) /\
    (snd (sendInterviewMessage msg language s1)).(effects)
    = (s.(effects)
       ++ [EFetch (interviewRequest mc s.(currentSettings)
                     (s.(deepseekChatHistory) ++ [ {| role := "user"; content := msg |} ]))])%list.
Proof.
  intros Hh Hm Hp.
  destruct (getAiClient_default s) as (ai & s0 & Hc & He & Hs & Hd).
  exists ai, (setSession (Some {| chatClient := ai; chatModel := mc.(modelName);
                                  chatInstruction := systemInstruction (langName language) |}) s0).
  split; [|split; [reflexivity|split; [exact Hd|]]].
  - unfold startInterviewSession.
    erewrite ServiceFacts.bind_inr by (apply ServiceFacts.requireModelConfig_found; exact Hm).
    rewrite Hp. erewrite ServiceFacts.bind_inr by exact Hc. reflexivity.
  - set (s1 := setSession _ s0).
    assert (Hh1 : deepseekChatHistory s1 <> []) by (simpl; now rewrite Hd).
    assert (Hm1 : getModelById (s1.(currentSettings).(api).(models) Interview)
                    s1.(currentSettings).(api).(customModels) = Some mc)
      by (simpl; now rewrite Hs).
    rewrite (@http_turn s1 mc msg language Hh1 Hm1).
    assert (E : forall e, (effects s1 ++ [e])%list = (effects s ++ [e])%list)
      by (intros e; simpl; now rewrite He).
    cbn [s1 setSession currentSettings deepseekChatHistory world]. rewrite Hs, Hd.
    destruct (fetch _ _) as [[e|resp] w]; [apply E|].
    cbn zeta. destruct (ok resp); cbn [negb]; [|apply E].
    destruct (data resp) as [[]|]; apply E.
Qed.

Lemma question_truthy (text : string) :
  Js.truthy (parseInterviewResponse text).(question) = true.
Proof.
  unfold parseInterviewResponse.
  destruct (JSON_parse _) as [json|]; [|reflexivity].
  assert (H : forall v, Js.truthy (Js.or v (Js.Str "...")) = true).
  { intros v. unfold Js.or. destruct (Js.truthy v) eqn:E; auto. }
  destruct json; try reflexivity; apply H.
Qed.

Lemma bind_resolved {A B} (m : M A) (k : A -> M B) (s s' : State) (b : B) :
  bind m k s = (inr b, s') -> exists a s1, m s = (inr a, s1) /\ k a s1 = (inr b, s').
Proof.
  unfold bind. destruct (m s) as [[e|a] s1]; [discriminate|]. eauto.
Qed.

Lemma sendInterviewMessage_parsed (msg : string) (language : Language) (s s' : State)
  (r : InterviewResponse) :
  sendInterviewMessage msg language s = (inr r, s') ->
  exists text, r = parseInterviewResponse text.
Proof.
  unfold sendInterviewMessage. intros H.
  apply bind_resolved in H as (s0 & sa & _ & H).
  apply bind_resolved in H as (u & sb & _ & H).
  apply bind_resolved in H as (s1 & sc & _ & H).
  apply bind_resolved in H as (text & sd & _ & H).
  unfold ret in H. inversion H. eauto.
Qed.

(** X19.  A final draft that is returned is never an empty or missing value:
    without a [generatedPrompt] the draft is the question, which is the text
    of the parse error when the answer was not JSON. *)
Theorem final_draft_never_empty (language : Language) (s s' : State) (draft : Js.Value) :
  generateFinalDraft language s = (inr draft, s') -> Js.truthy draft = true.
Proof.
  unfold generateFinalDraft. intros H.
  apply bind_resolved in H as (r & s1 & Hr & H).
  apply sendInterviewMessage_parsed in Hr as [text ->].
  unfold ret in H. inversion H; subst. clear H.
  unfold Js.or. destruct (Js.truthy (generatedPrompt _)) eqn:G; auto.
  apply question_truthy.
Qed.

End Interview.

(** The endpoint is out of reach: the turn fails, the message stays. *)
Lemma http_turn_keeps_user_message_offline :
  (snd (sendInterviewMessage (P := Mock.platform) (T := Mock.prompts)
          "A bot for customer support." English EdgeScenario.httpInterview))
    .(deepseekChatHistory)
  = (EdgeScenario.httpInterview.(deepseekChatHistory)
     ++ [ {| role := "user"; content := "A bot for customer support." |} ])%list.
Proof.
  exact (proj2 (@http_turn_keeps_user_message Mock.platform Mock.prompts
                  EdgeScenario.httpInterview EdgeScenario.deepSeekChat
                  "A bot for customer support." English
                  ltac:(discriminate) eq_refl)).
Defined.

(** The interview was held on DeepSeek, the settings now route it to Gemini
    Flash, and the interview is started again. *)
Lemma restart_on_gemini_after_deepseek :
  exists ai s1,
    startInterviewSession (P := Mock.platform) (T := Mock.prompts) English
      EdgeScenario.switchedToGemini = (inr tt, s1) /\
    s1.(interviewChatSession)
    = Some {| chatClient := ai; chatModel := GeminiFlash;
              chatInstruction := systemInstruction (Prompts := Mock.prompts) (langName English) |} /\
    s1.(deepseekChatHistory) = EdgeScenario.switchedToGemini.(deepseekChatHistory) /\
    (snd (sendInterviewMessage (P := Mock.platform) (T := Mock.prompts)
            "A bot for customer support." English s1)).(effects)
    = [EFetch (interviewRequest (nth 1 PREDEFINED_MODELS ServiceScenario.keyedModel)
                 (Mock.withGeminiKey "key")
                 (EdgeScenario.switchedToGemini.(deepseekChatHistory)
                  ++ [ {| role := "user"; content := "A bot for customer support." |} ]))].
Proof.
  apply (@restart_on_gemini_keeps_http_history Mock.platform Mock.prompts
           EdgeScenario.switchedToGemini (nth 1 PREDEFINED_MODELS ServiceScenario.keyedModel)
           "A bot for customer support." English);
    solve [reflexivity | discriminate].
Defined.

(** The model answers the request for the final draft in prose: the draft is
    the text of the parse error. *)
Lemma final_draft_never_empty_prose :
  fst (generateFinalDraft (P := Mock.platform) (T := Mock.prompts) English
         ServiceScenario.proseSession)
  = inr (Js.Str parseErrorMessage) /\
  Js.truthy (Js.Str parseErrorMessage) = true.
Proof.
  split; [reflexivity|].
  apply (@final_draft_never_empty Mock.platform Mock.prompts English
           ServiceScenario.proseSession
           (snd (generateFinalDraft (P := Mock.platform) (T := Mock.prompts) English
                   ServiceScenario.proseSession))
           (Js.Str parseErrorMessage)).
  reflexivity.
Defined.

(** *** The identifiers of the suggestions *)

Section Critique.
Context {P : Platform}.

Lemma lookup_setProp (k key : string) (v : Js.Value) (props : list (string * Js.Value)) :
  Js.lookup k (setProp key v props) = if k =? key then v else Js.lookup k props.
Proof.
  induction props as [|[k' v'] rest IH]; simpl.
  - rewrite (String.eqb_sym key k). now destruct (k =? key).
  - destruct (k' =? key) eqn:E; simpl.
    + apply String.eqb_eq in E. subst k'. rewrite (String.eqb_sym key k).
      now destruct (k =? key).
    + rewrite IH. destruct (k' =? k) eqn:E2; auto.
      apply String.eqb_eq in E2. subst k'. now rewrite E.
Qed.

Lemma withId_get (item : Js.Value) (rid k : string) :
  Js.get (withId item rid) k = if k =? "id" then Js.Str rid else Js.get item k.
Proof.
  unfold withId.
  destruct item; cbn [Js.get Js.lookup];
    try (rewrite (String.eqb_sym "id" k); now destruct (k =? "id")).
  apply lookup_setProp.
Qed.

Lemma assignIds_spec (items : list Js.Value) (s : State) :
  exists out s',
    assignIds items s = (inr out, s') /\
    s'.(effects) = s.(effects) /\
    map (fun v => Js.get v "id") out = map Js.Str (draws (List.length items) s.(world)) /\
    forall k, k <> "id" ->
      map (fun v => Js.get v k) out = map (fun v => Js.get v k) items.
Proof.
  revert s. induction items as [|item rest IH]; intros s; simpl.
  - exists [], s. repeat split.
  - unfold bind at 1, freshId.
    destruct (randomId (world s)) as [rid w] eqn:R.
    destruct (IH (setWorld w s)) as (out & s' & H & He & Hi & Hk).
    unfold bind at 1. rewrite H. unfold ret.
    exists (withId item rid :: out), s'. repeat split; auto.
    + cbn [map]. rewrite withId_get, String.eqb_refl. now rewrite Hi.
    + intros k Hne. cbn [map]. rewrite withId_get, (Hk k Hne).
      apply String.eqb_neq in Hne. now rewrite Hne.
Qed.

(** X20.  The answer of a critique, once parsed: an array gives as many
    suggestions, in order, each with the next value of the random source as
    its [id] and, for items that are objects, its other properties as they
    were; the identifiers are not checked against each other.  Any other JSON value gives no suggestion, and
    a text that is not JSON is an error (which the caller catches). *)
Theorem critique_items_get_ids (text : string) (s : State) :
  match JSON_parse text with
  | Some (Js.Arr items) =>
      exists out s',
        critiqueItems text s = (inr out, s') /\
        s'.(effects) = s.(effects) /\
        map (fun v => Js.get v "id") out = map Js.Str (draws (List.length items) s.(world)) /\
        (Forall (fun item => exists props, item = Js.Obj props) items ->
         forall k, k <> "id" ->
           map (fun v => Js.get v k) out = map (fun v => Js.get v k) items)
  | Some _ => critiqueItems text s = (inr [], s)
  | None => exists e, critiqueItems text s = (inl e, s)
  end.
Proof.
  unfold critiqueItems.
  destruct (JSON_parse text) as [[]|]; try reflexivity.
  - destruct (assignIds_spec items s) as (out & s' & H & He & Hi & Hk).
    exists out, s'. repeat split; auto.
  - unfold throw. eauto.
Qed.

End Critique.

(** *** The OpenAI-compatible call *)

Lemma lastChar_app (a p : string) : p <> "" -> lastChar (a ++ p) = lastChar p.
Proof.
  intros Hp. induction a as [|c a IH]; [reflexivity|].
  simpl. destruct (a ++ p) eqn:E; [|exact IH].
  destruct a; simpl in E; [congruence|discriminate].
Qed.

Lemma snoc_cases (s : string) : s = "" \/ exists t c, s = t ++ String c "".
Proof.
  induction s as [|c s IH]; [now left|right].
  destruct IH as [->|(t & d & ->)].
  - now exists "", c.
  - now exists (String c t), d.
Qed.

Lemma snoc_inj (s t : string) (c d : ascii) :
  s ++ String c "" = t ++ String d "" -> s = t /\ c = d.
Proof.
  revert t. induction s as [|x s IH]; intros [|y t] H; simpl in H.
  - now inversion H.
  - inversion H as [[Hx Ht]]. destruct t; discriminate.
  - inversion H as [[Hx Ht]]. destruct s; discriminate.
  - inversion H as [[Hx Ht]]. apply IH in Ht as [-> ->]. now split.
Qed.

(** A code unit appended to [s] adds no occurrence of a pattern that ends in
    another code unit. *)
Lemma includes_snoc (s p : string) (c : ascii) :
  p <> "" -> lastChar p <> Some c ->
  Js.includes (s ++ String c "") p = Js.includes s p.
Proof.
  intros Hp Hl.
  destruct (Js.includes s p) eqn:E.
  - apply JsFacts.includes_iff in E as (a & b & ->). apply JsFacts.includes_iff.
    exists a, (b ++ String c ""). now rewrite !StageFacts.append_assoc.
  - destruct (Js.includes (s ++ String c "") p) eqn:E'; [|reflexivity].
    apply JsFacts.includes_iff in E' as (a & b & H).
    destruct (snoc_cases b) as [->|(t & d & ->)].
    + rewrite StageFacts.append_nil_r in H.
      assert (Hc : lastChar (s ++ String c "") = Some c)
        by (rewrite lastChar_app; [reflexivity|discriminate]).
      rewrite H, lastChar_app in Hc by exact Hp. congruence.
    + rewrite <- !StageFacts.append_assoc in H. apply snoc_inj in H as [H _].
      rewrite StageFacts.append_assoc in H.
      assert (Js.includes s p = true) by (apply JsFacts.includes_iff; eauto). congruence.
Qed.

Lemma stripTrailingSlash_slash (s : string) : stripTrailingSlash (s ++ "/") = s.
Proof.
  induction s as [|c s IH]; [reflexivity|].
  simpl. destruct (s ++ "/") eqn:E; [destruct s; discriminate|].
  now rewrite IH.
Qed.

(** X21.  The address of the POST always holds the path [chat/completions].
    A model without a base URL is sent to DeepSeek's address, whatever its
    provider and whatever the default base URL of the settings; a base URL
    given with a slash at its end gets the path after that one slash. *)
Theorem endpoint_shape (mc : CustomModel) (base : string) :
  Js.includes (endpointOf mc) "chat/completions" = true /\
  (present mc.(baseUrl) = false ->
   endpointOf mc = "https://api.deepseek.com/chat/completions") /\
  (Js.includes base "chat/completions" = false ->
   endpointOf (withBaseUrl mc (Some (base ++ "/"))) = base ++ "/chat/completions").
Proof.
  repeat split.
  - unfold endpointOf.
    set (b := if present (baseUrl mc) then _ else _).
    destruct (Js.includes b "chat/completions") eqn:E; [exact E|].
    apply JsFacts.includes_iff. eexists _, "". rewrite StageFacts.append_nil_r.
    change "/chat/completions" with ("/" ++ "chat/completions").
    now rewrite <- StageFacts.append_assoc.
  - unfold endpointOf. now intros ->.
  - intros Hi. unfold endpointOf, withBaseUrl; cbn [baseUrl present orEmpty].
    assert (Hne : (base ++ "/" =? "") = false)
      by (apply String.eqb_neq; destruct base; discriminate).
    rewrite Hne. cbn [negb].
    rewrite (includes_snoc base (p := "chat/completions") (c := "/"%char)), Hi
      by discriminate.
    now rewrite stripTrailingSlash_slash.
Qed.

Section Http.
Context {P : Platform}.

(** X22.  A 429 answered to the OpenAI-compatible call is turned into an
    error that the retry policy would take for a rate limit, but the call is
    made once: nothing waits and nothing is sent again. *)
Theorem http_rate_limit_not_retried (mc : CustomModel) (msgs : list ChatMessage)
  (key : string) (temp : Q) (json : bool) (s : State) (resp : HttpResponse) (w : World) :
  let req := {| url := endpointOf mc; bearer := key; hModel := mc.(modelName);
                messages := msgs; hTemperature := temp; jsonMode := json |} in
  fetch req s.(world) = (inr resp, w) ->
  resp.(ok) = false -> resp.(httpStatus) = 429%Z ->
  exists e s',
    callOpenAICompatible mc msgs key temp json s = (inl e, s') /\
    isQuotaError e = true /\
    s'.(effects) = (s.(effects) ++ [EFetch req])%list.
Proof.
  intros req Hf Hok Hst.
  unfold callOpenAICompatible, bind, perform. cbn [world emit]. fold req.
  rewrite Hf, Hok, Hst. cbn [negb]. unfold throw.
  eexists _, _. split; [reflexivity|]. split; [|reflexivity].
  unfold isQuotaError, newError; cbn [status code error message Js.isNum Js.isStr Js.truthy].
  cbn [orb andb].
  apply orb_true_intro. left.
  apply JsFacts.includes_iff. exists "API Request Failed (", ("): " ++ body resp). reflexivity.
Qed.

End Http.

Lemma http_rate_limit_not_retried_deepseek :
  exists e s',
    callOpenAICompatible (P := Mock.platform) EdgeScenario.deepSeekChat
      (userMessage ServiceScenario.document) "deepseek-key" (7 # 10)%Q false
      ServiceScenario.deepSeekLimited = (inl e, s') /\
    isQuotaError e = true /\
    s'.(effects)
    = [EFetch {| url := "https://api.deepseek.com/chat/completions";
                 bearer := "deepseek-key"; hModel := "deepseek-chat";
                 messages := userMessage ServiceScenario.document;
                 hTemperature := (7 # 10)%Q; jsonMode := false |}].
Proof.
  apply (@http_rate_limit_not_retried Mock.platform EdgeScenario.deepSeekChat
           (userMessage ServiceScenario.document) "deepseek-key" (7 # 10)%Q false
           ServiceScenario.deepSeekLimited ServiceScenario.http429
           (Mock.scripts [inr (Some "Rewritten by flash.")] [] []));
    reflexivity.
Defined.

(** *** The models *)

Lemma find_app_first {A} (f : A -> bool) (l1 l2 : list A) :
  find f (l1 ++ l2)%list = match find f l1 with Some x => Some x | None => find f l2 end.
Proof.
  induction l1 as [|x l1 IH]; simpl; [reflexivity|]. now destruct (f x).
Qed.

(** X23.  A custom model cannot take the place of a predefined one: an
    identifier of a predefined model always resolves to that model, and the
    custom models are searched, in their order, for the other identifiers. *)
Theorem predefined_models_shadow_custom (modelId : string) (customModels : list CustomModel) :
  getModelById modelId customModels
  = match getModelById modelId [] with
    | Some m => Some m
    | None => find (fun model => model.(id) =? modelId) customModels
    end.
Proof.
  unfold getModelById, getAllModels. rewrite !find_app_first.
  now destruct (find _ PREDEFINED_MODELS).
Qed.

Lemma predefined_models_shadow_impostor :
  getModelById "gemini-pro" [EdgeScenario.impostor]
  = Some (nth 0 PREDEFINED_MODELS EdgeScenario.impostor).
Proof.
  rewrite (predefined_models_shadow_custom "gemini-pro" [EdgeScenario.impostor]).
  reflexivity.
Defined.

(** *** No key *)

Section Keys.
Context {P : Platform} {T : Prompts}.

Lemma getAiClient_keyless (feature : FeatureType) (s : State) :
  keyless feature s ->
  getAiClient (Some (s.(currentSettings).(api).(models) feature)) s
  = (inl (newError ("API key not configured for model: "
                    ++ s.(currentSettings).(api).(models) feature)), s).
Proof.
  intros (Hid & mc & Hm & _ & Hg & Hk).
  unfold getAiClient. cbn [present orEmpty].
  apply String.eqb_neq in Hid. rewrite Hid. cbn [negb].
  now rewrite Hm, Hg, Hk.
Qed.

Ltac keyless_op :=
  intros s (Hid & mc & Hm & Ho & Hg & Hk);
  erewrite ServiceFacts.bind_inr by reflexivity;
  erewrite ServiceFacts.bind_inr by (apply ServiceFacts.requireModelConfig_found; exact Hm);
  repeat match goal with
         | |- context [if present ?f then _ else _] => destruct (present f)
         end;
  rewrite Ho;
  (erewrite ServiceFacts.bind_inl;
   [ reflexivity
   | apply getAiClient_keyless; split; [exact Hid|]; exists mc; now repeat split ]).

(** X24.  With no key for the Gemini model of a feature, the editor operation
    of that feature rejects with the error that names the model, before any
    call and with the state untouched. *)
Theorem operations_need_key (currentPrompt context feedback segment : string)
  (language : Language) (ignored locks : list string) (focus : option string) :
  let noKey (feature : FeatureType) (s : State) : JsError :=
    newError ("API key not configured for model: "
              ++ s.(currentSettings).(api).(models) feature) in
  (forall s, keyless ReverseEngineer s ->
     reverseEngineerContext currentPrompt language s = (inl (noKey ReverseEngineer s), s)) /\
  (forall s, keyless Mentor s ->
     getMentorFeedback currentPrompt context language ignored s = (inl (noKey Mentor s), s)) /\
  (forall s, keyless Feedback s ->
     applySpecificFeedback currentPrompt context feedback locks language s
     = (inl (noKey Feedback s), s)) /\
  (forall s, keyless Critique s ->
     getDetailedCritique currentPrompt context language s = (inl (noKey Critique s), s)) /\
  (forall s, keyless Classify s ->
     classifyPromptSegment segment currentPrompt s = (inl (noKey Classify s), s)) /\
  (forall s, keyless Rewrite s ->
     reconstructPrompt currentPrompt context locks language focus s
     = (inl (noKey Rewrite s), s)).
Proof.
  intros noKey. repeat split.
  - unfold reverseEngineerContext. keyless_op.
  - unfold getMentorFeedback. keyless_op.
  - unfold applySpecificFeedback. keyless_op.
  - unfold getDetailedCritique. keyless_op.
  - unfold classifyPromptSegment. keyless_op.
  - unfold reconstructPrompt. keyless_op.
Qed.

End Keys.

(** Before a key is entered in the settings, applying feedback is refused. *)
Lemma operations_need_key_default_settings :
  applySpecificFeedback (P := Mock.platform) (T := Mock.prompts)
    "Summarize the report." "analyst" "Add a persona." [] English
    (Mock.start DEFAULT_APP_SETTINGS (Mock.scripts [] [] []))
  = (inl (newError "API key not configured for model: gemini-pro"),
     Mock.start DEFAULT_APP_SETTINGS (Mock.scripts [] [] [])).
Proof.
  apply (proj1 (proj2 (proj2
           (@operations_need_key Mock.platform Mock.prompts
              "Summarize the report." "analyst" "Add a persona." "" English [] [] None)))).
  split; [discriminate|].
  exists (nth 0 PREDEFINED_MODELS EdgeScenario.impostor). now repeat split.
Defined.

End ServiceEdges.

(** ** The router, as the operations use it *)

Module RouterUse.
Import Types Service Spec ServiceView ServiceScenario.
Local Open Scope service_scope.

Lemma onClient_closed (ai : GoogleGenAI) : Closed (onClient ai).
Proof.
  split; [constructor|]. intros a b Ha Hb. apply Forall_app. now split.
Qed.

Lemma silent_closed : Closed silent.
Proof. split; [reflexivity|]. unfold silent. now intros a b -> ->. Qed.

Lemma anything_closed : Closed anything.
Proof. split; intros; exact I. Qed.

(** *** The effects of a computation, piece by piece *)

Section Footprint.
Context {P : Platform}.
Context (Q : list Effect -> Prop) {C : Closed Q}.

Lemma adds_ret {A} (a : A) : adds Q (ret a).
Proof.
  intros s. exists []. split; [|apply closed_nil].
  unfold added, ret; simpl. now rewrite app_nil_r.
Qed.

Lemma adds_throw {A} (e : JsError) : adds Q (@throw _ A e).
Proof.
  intros s. exists []. split; [|apply closed_nil].
  unfold added, throw; simpl. now rewrite app_nil_r.
Qed.

Lemma adds_getState : adds Q getState.
Proof.
  intros s. exists []. split; [|apply closed_nil].
  unfold added, getState; simpl. now rewrite app_nil_r.
Qed.

Lemma adds_getModelForFeature (feature : FeatureType) : adds Q (getModelForFeature feature).
Proof.
  intros s. exists []. split; [|apply closed_nil].
  unfold added, getModelForFeature; simpl. now rewrite app_nil_r.
Qed.

Lemma adds_freshId : adds Q freshId.
Proof.
  intros s. exists []. split; [|apply closed_nil].
  unfold added, freshId. destruct (randomId (world s)); simpl. now rewrite app_nil_r.
Qed.

Lemma adds_bind {A B} (m : M A) (k : A -> M B) :
  adds Q m -> (forall a, adds Q (k a)) -> adds Q (bind m k).
Proof.
  intros Hm Hk s. destruct (Hm s) as (e1 & H1 & Q1). unfold added, bind in *.
  destruct (m s) as [[e|a] s1]; simpl in *; [eauto|].
  destruct (Hk a s1) as (e2 & H2 & Q2). unfold added in H2.
  exists (e1 ++ e2)%list. rewrite H2, H1, app_assoc. split; [reflexivity|].
  now apply closed_app.
Qed.

Lemma adds_tryCatch {A} (m : M A) (h : JsError -> M A) :
  adds Q m -> (forall e, adds Q (h e)) -> adds Q (tryCatch m h).
Proof.
  intros Hm Hh s. destruct (Hm s) as (e1 & H1 & Q1). unfold added, tryCatch in *.
  destruct (m s) as [[e|a] s1]; simpl in *; [|eauto].
  destruct (Hh e s1) as (e2 & H2 & Q2). unfold added in H2.
  exists (e1 ++ e2)%list. rewrite H2, H1, app_assoc. split; [reflexivity|].
  now apply closed_app.
Qed.

Lemma adds_perform {A} (e : Effect) (f : World -> (JsError + A) * World) :
  Q [e] -> adds Q (perform e f).
Proof.
  intros He s. exists [e]. unfold added, perform. cbn.
  destruct (f (world s)); simpl. auto.
Qed.

Lemma adds_wait (ms : Z) : Q [EWait ms] -> adds Q (wait ms).
Proof. intros He s. exists [EWait ms]. unfold added, wait; simpl. auto. Qed.

Lemma adds_callWithRetry {A} (apiCall : M A) (retries : nat) (initialDelay : Z) :
  adds Q apiCall -> (forall ms, Q [EWait ms]) ->
  adds Q (callWithRetry apiCall retries initialDelay).
Proof.
  intros Hc Hw. revert initialDelay.
  induction retries as [|r IH]; intros d; simpl; apply adds_tryCatch; auto; intros e;
    destruct (isQuotaError e); try apply adds_throw.
  apply adds_bind; [now apply adds_wait | intros _; apply IH].
Qed.

Lemma adds_assignIds (items : list Js.Value) : adds Q (assignIds items).
Proof.
  induction items as [|item rest IH]; simpl; [apply adds_ret|].
  apply adds_bind; [apply adds_freshId|]. intros rid.
  apply adds_bind; [exact IH|]. intros rest'. apply adds_ret.
Qed.

Lemma adds_critiqueItems (text : string) : adds Q (critiqueItems text).
Proof.
  unfold critiqueItems. destruct (JSON_parse text) as [[]|];
    first [apply adds_assignIds | apply adds_ret | apply adds_throw].
Qed.

End Footprint.

Section Pieces.
Context {P : Platform}.

Lemma getAiClient_effects (modelId : option string) (s s1 : State) (r : JsError + GoogleGenAI) :
  getAiClient modelId s = (r, s1) -> s1.(effects) = s.(effects).
Proof.
  unfold getAiClient.
  repeat match goal with
         | |- context [if ?b then _ else _] => destruct b
         | |- context [match ?x with _ => _ end] => destruct x
         end; intros H; inversion H; reflexivity.
Qed.

Lemma added_bind_silent {A B} (m : M A) (k : A -> M B) (s : State) (effs : list Effect) :
  added m s effs -> (forall a, adds silent (k a)) -> added (bind m k) s effs.
Proof.
  unfold added, bind. intros H Hk.
  destruct (m s) as [[e|a] s1]; simpl in *; [exact H|].
  destruct (Hk a s1) as (e2 & H2 & ->). unfold added in H2.
  now rewrite H2, app_nil_r.
Qed.

Lemma added_tryCatch_silent {A} (m : M A) (h : JsError -> M A) (s : State)
  (effs : list Effect) :
  added m s effs -> (forall e, adds silent (h e)) -> added (tryCatch m h) s effs.
Proof.
  unfold added, tryCatch. intros H Hh.
  destruct (m s) as [[e|a] s1]; simpl in *; [|exact H].
  destruct (Hh e s1) as (e2 & H2 & ->). unfold added in H2.
  now rewrite H2, app_nil_r.
Qed.

Lemma openAICall_added (mc : CustomModel) (contents : string) (temp : Q) (json : bool)
  (s : State) :
  added (openAICall mc contents temp json) s
    [EFetch {| url := endpointOf mc;
               bearer := getApiKeyForModel mc s.(currentSettings);
               hModel := mc.(modelName); messages := userMessage contents;
               hTemperature := temp; jsonMode := json |}].
Proof.
  unfold added, openAICall, bind at 1, getState, callOpenAICompatible, bind, perform. cbn.
  destruct (fetch _ (world s)) as [[e|resp] w]; [reflexivity|].
  destruct (ok resp); cbn; [|reflexivity].
  destruct (data resp) as [[]|]; reflexivity.
Qed.

Lemma starts_perform {A} (e : Effect) (f : World -> (JsError + A) * World) :
  starts e (perform e f).
Proof.
  intros s. exists []. unfold added, perform. cbn. now destruct (f (world s)).
Qed.

Lemma starts_tryCatch {A} (e : Effect) (m : M A) (h : JsError -> M A) :
  starts e m -> (forall err, adds anything (h err)) -> starts e (tryCatch m h).
Proof.
  intros Hm Hh s. destruct (Hm s) as (r1 & H1). unfold added, tryCatch in *.
  destruct (m s) as [[err|a] s1]; simpl in *; [|eauto].
  destruct (Hh err s1) as (r2 & H2 & _). unfold added in H2.
  exists (r1 ++ r2)%list. now rewrite H2, H1, <- app_assoc.
Qed.

Lemma starts_bind {A B} (e : Effect) (m : M A) (k : A -> M B) :
  starts e m -> (forall a, adds anything (k a)) -> starts e (bind m k).
Proof.
  intros Hm Hk s. destruct (Hm s) as (r1 & H1). unfold added, bind in *.
  destruct (m s) as [[err|a] s1]; simpl in *; [eauto|].
  destruct (Hk a s1) as (r2 & H2 & _). unfold added in H2.
  exists (r1 ++ r2)%list. now rewrite H2, H1, <- app_assoc.
Qed.

End Pieces.

(** The footprint of a computation, read off its shape; [C] is the closure of
    the set of effect lists. *)
Ltac footprint C :=
  repeat lazymatch goal with
  | |- adds _ (ret _) => apply (@adds_ret _ _ C)
  | |- adds _ (throw _) => apply (@adds_throw _ _ C)
  | |- adds _ getState => apply (@adds_getState _ _ C)
  | |- adds _ (getModelForFeature _) => apply (@adds_getModelForFeature _ _ C)
  | |- adds _ (critiqueItems _) => apply (@adds_critiqueItems _ _ C)
  | |- adds _ (callWithRetry' _) => unfold callWithRetry'
  | |- adds _ (callWithRetry _ _ _) =>
      apply (@adds_callWithRetry _ _ C); [ | intros; repeat constructor ]
  | |- adds _ (tryCatch _ _) => apply (@adds_tryCatch _ _ C); [ | intros ]
  | |- adds _ (bind _ _) => apply (@adds_bind _ _ C); [ | intros ]
  | |- adds _ (generate _ _) => unfold generate
  | |- adds _ (generateFor _ _ _) => unfold generateFor
  | |- adds _ (perform _ _) => apply adds_perform; repeat constructor
  | |- adds _ (wait _) => apply adds_wait; repeat constructor
  | |- adds _ (let _ := _ in _) => cbn zeta
  | |- adds _ (if ?b then _ else _) => destruct b
  end.

(** *** The editor operations *)

Section Operations.
Context {P : Platform} {T : Prompts}.

(** An editor operation whose model is missing. *)
Lemma operation_unrouted {A} (feature : FeatureType) (op : M A) (s : State) :
  editorOperation feature op -> unrouted feature s -> op s = (inl (notFound feature), s).
Proof.
  intros Hop H. destruct Hop;
    unfold reverseEngineerContext, getMentorFeedback, applySpecificFeedback,
      getDetailedCritique, classifyPromptSegment, reconstructPrompt;
    unfold bind, getModelForFeature; cbn beta iota;
    rewrite (RouterClaims.requireModelConfig_unrouted H); reflexivity.
Qed.

Ltac open_operation Hm :=
  unfold reverseEngineerContext, getMentorFeedback, applySpecificFeedback,
    getDetailedCritique, classifyPromptSegment, reconstructPrompt;
  erewrite ServiceFacts.bind_inr by reflexivity;
  erewrite ServiceFacts.bind_inr by (apply ServiceFacts.requireModelConfig_found; exact Hm).

(** An editor operation on the OpenAI-compatible route: one POST, with the
    key of the router as bearer. *)
Lemma operation_http {A} (feature : FeatureType) (op : M A) (s : State) (mc : CustomModel) :
  editorOperation feature op -> routed feature s mc ->
  isOpenAICompatible mc.(provider) = true ->
  exists e, added op s [e] /\ post mc (getApiKeyForModel mc s.(currentSettings)) e.
Proof.
  intros Hop Hm Ho. unfold added.
  destruct Hop; open_operation Hm;
    try match goal with |- context [present ?f] => destruct (present f) end;
    rewrite Ho;
    (eexists; split;
     [ apply added_tryCatch_silent;
       [ first [ apply openAICall_added
               | apply added_bind_silent;
                 [apply openAICall_added | intros; footprint silent_closed] ]
       | intros; footprint silent_closed ]
     | repeat split ]).
Qed.

(** An editor operation on the Gemini route: it stops at the error of
    [getAiClient], or it calls on the client [getAiClient] gave it. *)
Lemma operation_gemini {A} (feature : FeatureType) (op : M A) (s : State) (mc : CustomModel) :
  editorOperation feature op -> routed feature s mc ->
  isOpenAICompatible mc.(provider) = false ->
  match getAiClient (Some (s.(currentSettings).(api).(models) feature)) s with
  | (inl e, _) => op s = (inl e, s)
  | (inr ai, _) => exists effs, added op s effs /\ onClient ai effs
  end.
Proof.
  intros Hop Hm Ho.
  destruct (getAiClient _ s) as [[e|ai] s1] eqn:G.
  - assert (s1 = s) by exact (ServiceEdges.getAiClient_untouched _ _ G). subst s1.
    destruct Hop; open_operation Hm;
      try match goal with |- context [present ?f] => destruct (present f) end;
      rewrite Ho; now erewrite ServiceFacts.bind_inl by exact G.
  - pose proof (getAiClient_effects _ _ G) as He.
    unfold added. rewrite <- He.
    destruct Hop; open_operation Hm;
      try match goal with |- context [present ?f] => destruct (present f) end;
      rewrite Ho; erewrite ServiceFacts.bind_inr by exact G;
      match goal with
      | |- exists effs, effects (snd (?m s1)) = _ /\ _ =>
          assert (Hadds : adds (onClient ai) m); [footprint (onClient_closed ai)|
          exact (Hadds s1)]
      end.
Qed.

(** The key of the client that [getAiClient] gives for a model. *)
Lemma getAiClient_key (s s1 : State) (modelId : string) (mc : CustomModel) (ai : GoogleGenAI) :
  modelId <> "" ->
  getModelById modelId s.(currentSettings).(api).(customModels) = Some mc ->
  getAiClient (Some modelId) s = (inr ai, s1) ->
  ai.(clientKey) = getApiKeyForModel mc s.(currentSettings) \/
  (s.(aiClient) = Some ai /\
   getApiKeyForModel mc s.(currentSettings) = s.(currentSettings).(api).(geminiApiKey)).
Proof.
  intros Hid Hm. unfold getAiClient. cbn [present orEmpty].
  apply String.eqb_neq in Hid. rewrite Hid. cbn [negb]. rewrite Hm.
  destruct (isGeminiModel mc); [|discriminate].
  destruct (getApiKeyForModel mc (currentSettings s) =? "") eqn:Ek; [discriminate|].
  destruct (aiClient s) as [c|].
  - destruct (geminiApiKey (api (currentSettings s)) =? getApiKeyForModel mc (currentSettings s))
      eqn:Eg; cbn [negb]; intros H; inversion H; subst.
    + right. split; auto. symmetry. now apply String.eqb_eq.
    + now left.
  - intros H; inversion H. now left.
Qed.

(** *** The interview *)

Lemma interview_session_client (s : State) (language : Language) (mc : CustomModel) :
  routed Interview s mc -> isOpenAICompatible mc.(provider) = false ->
  exists s1,
    startInterviewSession language s = (inr tt, s1) /\
    s1.(effects) = s.(effects) /\
    s1.(interviewChatSession)
    = Some {| chatClient := match s.(aiClient) with
                            | Some c => c
                            | None => {| clientKey := s.(currentSettings).(api).(geminiApiKey) |}
                            end;
              chatModel := mc.(modelName);
              chatInstruction := systemInstruction (langName language) |}.
Proof.
  intros Hm Ho. unfold startInterviewSession.
  erewrite ServiceFacts.bind_inr by (apply ServiceFacts.requireModelConfig_found; exact Hm).
  rewrite Ho. unfold bind, getAiClient. cbn [present].
  destruct (aiClient s); eexists; repeat split.
Qed.

Lemma live_session_sends (s : State) (chat : Chat) (msg : string) (language : Language) :
  s.(interviewChatSession) = Some chat -> s.(deepseekChatHistory) = [] ->
  exists rest, added (sendInterviewMessage msg language) s (EChatSend chat msg :: rest).
Proof.
  intros Hc Hh.
  assert (E : sendInterviewMessage msg language s
              = bind (callWithRetry' (perform (EChatSend chat msg) (sendMessage chat msg)))
                     (fun response => ret (parseInterviewResponse (textOr response "{}"))) s).
  { unfold sendInterviewMessage, bind, getState, ret; cbn beta iota.
    rewrite Hc, Hh. cbn beta iota. rewrite Hc.
    now destruct (callWithRetry' _ s) as [[e|r] s1]. }
  assert (Hs : starts (EChatSend chat msg)
                 (bind (callWithRetry' (perform (EChatSend chat msg) (sendMessage chat msg)))
                       (fun response => ret (parseInterviewResponse (textOr response "{}"))))).
  { apply starts_bind; [|intros; footprint anything_closed].
    unfold callWithRetry', defaultRetries. cbn [callWithRetry].
    apply starts_tryCatch; [apply starts_perform|].
    intros err. footprint anything_closed. }
  destruct (Hs s) as (rest & Hr). exists rest. unfold added in *. now rewrite E.
Qed.

Lemma live_history_unrouted (s : State) (msg : string) (language : Language) :
  unrouted Interview s -> s.(deepseekChatHistory) <> [] ->
  exists e, sendInterviewMessage msg language s = (inl e, s) /\ e <> notFound Interview.
Proof.
  intros H Hh. exists (newError "TypeError"). split; [|discriminate].
  destruct (deepseekChatHistory s) as [|m0 h0] eqn:Eh; [congruence|].
  unfold sendInterviewMessage, bind, getState, getModelConfigForFeature, ret, throw;
    cbn beta iota.
  rewrite Eh. unfold unrouted in H.
  destruct (interviewChatSession s); cbn beta iota; rewrite Eh; cbn beta iota;
    now rewrite H.
Qed.

Lemma http_turn_key (s : State) (mc : CustomModel) (msg : string) (language : Language) :
  routed Interview s mc -> s.(deepseekChatHistory) <> [] ->
  exists e, added (sendInterviewMessage msg language) s [e] /\
            post mc (getApiKeyForModel mc s.(currentSettings)) e.
Proof.
  intros Hm Hh.
  exists (EFetch (interviewRequest mc s.(currentSettings)
                    (s.(deepseekChatHistory) ++ [ {| role := "user"; content := msg |} ]))).
  split; [|now repeat split].
  unfold added. rewrite (@ServiceEdges.http_turn _ _ s mc msg language Hh Hm).
  destruct (fetch _ (world s)) as [[e|resp] w]; [reflexivity|].
  cbn zeta. destruct (ok resp); cbn [negb]; [|reflexivity].
  destruct (data resp) as [[]|]; reflexivity.
Qed.

End Operations.

(** *** The claim *)




End RouterUse.
